(** * geoarray: georeferenced raster grids and their reprojection

    A shallow embedding of the three Python sources of the repository

      - [geoarray/gdalfuncs.py]  (tables, [_Projection], [_Transformer],
                                  [_getColorMode], [_warp]),
      - [geoarray/geoarray.py]   (the [array] initializer),
      - [src/geogridbase.py]     (the legacy lazy reader [_GeoGridBase],
                                  [_DummyGrid], [_GdalGrid]),

    followed by the properties of the specification that concern them.

    Conventions of the embedding.
      - Python [float]s are idealised as real numbers ([R]): every float
        operation is exact, and a computation that would leave the finite
        numbers (numpy yields [inf] or [nan]) stops with [NonFinite].
      - Python [int]s are [Z], [str]s are [string].
      - A call that can raise returns a [result]; sequencing is the bind of
        that monad.
      - GDAL/OSR and numpy are outside the repository.  OSR is an interface
        ([OSR]) the sources are written against; the numpy array operations
        the sources use are written out in module [np]. *)

From Stdlib Require Import ZArith List String Ascii Reals Lra Lia DecimalString.
From stdpp Require Import base option gmap strings list.

(* ===================================================================== *)
(** * Python fragments shared by the three sources                        *)
(* ===================================================================== *)

Module Py.

(** The exceptions the sources raise or let through.  [NonFinite] is not
    a Python exception: it marks the point where a float computation
    leaves the finite reals and this embedding stops. *)
Inductive exn : Type :=
| AttributeError (msg : string)
| NotImplementedError (msg : string)
| IOError (msg : string)
| RuntimeError (msg : string)
| IndexError (msg : string)
| ValueError (msg : string)
| TypeError (msg : string)
| KeyError (msg : string)
| NonFinite.

Inductive result (A : Type) : Type :=
| Ok (a : A)
| Raise (e : exn).
Arguments Ok {A} a.
Arguments Raise {A} e.

#[global] Instance result_ret : MRet result := fun A a => Ok a.
#[global] Instance result_bind : MBind result := fun A B f m =>
  match m with
  | Ok a => f a
  | Raise e => Raise e
  end.

(** Keys and values of the dictionaries of [gdalfuncs.py]: strings and
    integers. *)
Inductive atom : Type :=
| AStr (s : string)
| AInt (n : Z).

#[global] Instance atom_eq_dec : EqDecision atom.
Proof. solve_decision. Defined.

#[global] Instance atom_countable : Countable atom.
Proof.
  refine (inj_countable'
            (fun a => match a with AStr s => inl s | AInt n => inr n end)
            (fun x => match x with inl s => AStr s | inr n => AInt n end) _).
  by intros [].
Defined.

(** [str(x)] on those. *)
Definition str (a : atom) : string :=
  match a with
  | AStr s => s
  | AInt n => NilZero.string_of_int (Z.to_int n)
  end.

(** [sep.join(parts)] *)
Definition str_join (sep : string) (parts : list string) : string :=
  String.concat sep parts.

(** [re.split("[...]", s)] for a character class [sep]: the pieces between
    consecutive separator characters, empty pieces included. *)
Fixpoint re_split (sep : ascii -> bool) (s : string) : list string :=
  match s with
  | EmptyString => [EmptyString]
  | String c rest =>
      if sep c then EmptyString :: re_split sep rest
      else match re_split sep rest with
           | piece :: pieces => String c piece :: pieces
           | [] => [String c EmptyString]
           end
  end.

(** Truth value of a [str]. *)
Definition str_truthy (s : string) : bool :=
  match s with EmptyString => false | String _ _ => true end.

(** [l[0::2]] and [l[1::2]] *)
Fixpoint evens {A} (l : list A) : list A :=
  match l with
  | [] => []
  | x :: r => x :: match r with [] => [] | _ :: r' => evens r' end
  end.
Definition odds {A} (l : list A) : list A := evens (tail l).

(** [dict(pairs)]: a later pair overwrites an earlier one with the same
    key. *)
Definition dict `{Countable K} {V} (pairs : list (K * V)) : gmap K V :=
  fold_left (fun d kv => <[kv.1 := kv.2]> d) pairs ∅.

(** [d.get(k, default)] *)
Definition dict_get `{Countable K} {V} (d : gmap K V) (k : K) (dflt : V) : V :=
  default dflt (d !! k).

(** [d[k]] *)
Definition dict_item `{Countable K} {V} (d : gmap K V) (k : K) : result V :=
  match d !! k with
  | Some v => Ok v
  | None => Raise (KeyError EmptyString)
  end.

(** [sorted(set(l), key=l.index)]: the distinct elements of [l] in the
    order of their first occurrence. *)
Fixpoint first_seen_from (seen l : list string) : list string :=
  match l with
  | [] => []
  | x :: r =>
      if bool_decide (x ∈ seen) then first_seen_from seen r
      else x :: first_seen_from (x :: seen) r
  end.
Definition first_seen (l : list string) : list string := first_seen_from [] l.

(** ** Floats *)

(** Float division as numpy does it: no exception, and a zero divisor
    gives [inf] or [nan], where the embedding stops. *)
Definition fdiv (a b : R) : result R :=
  if Req_dec_T b 0 then Raise NonFinite else Ok (a / b)%R.

(** Python 2 [round(x)]: to the nearest integer, halves away from zero;
    the result is a float. *)
Definition py_round (x : R) : R :=
  if Rle_dec 0 x then IZR (Int_part (x + / 2))
  else (- IZR (Int_part (- x + / 2)))%R.

(** [int(x)] of a float: truncation towards zero. *)
Definition py_int (x : R) : Z :=
  if Rle_dec 0 x then Int_part x else (- Int_part (- x))%Z.

(** [max(a, b, c, d)] and [min(a, b, c, d)] *)
Definition max4 (a b c d : R) : R := Rmax (Rmax (Rmax a b) c) d.
Definition min4 (a b c d : R) : R := Rmin (Rmin (Rmin a b) c) d.

(** ** Dynamically typed values, as the keyword arguments of [array] *)

Inductive pyval : Type :=
| PNone
| PBool (b : bool)
| PInt (n : Z)
| PFloat (x : R)
| PStr (s : string)
| PTuple (items : list R)
| PDict (items : list (atom * atom))
| PObj (name : string) (truth : bool).
(* [PTuple]: a tuple of numbers, as a cellsize pair.  [PDict]: a dict by its
   items.  [PObj]: any other object, with the truth value its class gives it
   (a [numpy.dtype] without fields has length 0 and is false). *)

(** [bool(v)] *)
Definition truthy (v : pyval) : bool :=
  match v with
  | PNone => false
  | PBool b => b
  | PInt n => negb (n =? 0)%Z
  | PFloat x => if Req_dec_T x 0 then false else true
  | PStr s => str_truthy s
  | PTuple items => match items with [] => false | _ => true end
  | PDict items => match items with [] => false | _ => true end
  | PObj _ t => t
  end.

(** [a or b] *)
Definition py_or (a b : pyval) : pyval := if truthy a then a else b.

(** The number a value stands for, if it is one. *)
Definition num_value (v : pyval) : option R :=
  match v with
  | PInt n => Some (IZR n)
  | PFloat x => Some x
  | PBool b => Some (if b then 1%R else 0%R)
  | _ => None
  end.

End Py.
Import Py.

(* ===================================================================== *)
(** * geoarray/gdalfuncs.py                                               *)
(* ===================================================================== *)

Module gdalfuncs.

(** ** The tables *)

(** type mapping: there is no boolean data type in GDAL *)
Definition TYPEMAP : gmap atom atom :=
  dict [ (AStr "uint8",      AInt 1);
         (AStr "int8",       AInt 1);
         (AStr "uint16",     AInt 2);
         (AStr "int16",      AInt 3);
         (AStr "uint32",     AInt 4);
         (AStr "int32",      AInt 5);
         (AStr "float32",    AInt 6);
         (AStr "float64",    AInt 7);
         (AStr "complex64",  AInt 10);
         (AStr "complex128", AInt 11);
         (AInt 1,            AStr "int8");
         (AInt 2,            AStr "uint16");
         (AInt 3,            AStr "int16");
         (AInt 4,            AStr "uint32");
         (AInt 5,            AStr "int32");
         (AInt 6,            AStr "float32");
         (AInt 7,            AStr "float64");
         (AInt 10,           AStr "complex64");
         (AInt 11,           AStr "complex128") ].

Definition COLOR_DICT : gmap Z string :=
  dict [ (1, "L"); (2, "P"); (3, "R"); (4, "G"); (5, "B"); (6, "A");
         (7, "H"); (8, "S"); (9, "V"); (10, "C"); (11, "M"); (12, "Y");
         (13, "K"); (14, "Y"); (15, "Cb"); (16, "Cr") ]%Z.

(** ** OSR, the coordinate-reference library the module is written against

    An import or export that fails either raises (exceptions switched on
    for [osr]) or returns an error code that the module ignores; the
    reference is then as the failed call left it, empty for a new one.  Both
    are instances of this interface.  A [CoordinateTransformation] is always
    constructed; whether it is usable shows when a point is transformed. *)
Class OSR : Type := {
  SpatialReference : Type;
  (** [osr.SpatialReference()] *)
  srs_new : SpatialReference;
  (** [srs.ImportFromProj4(text)] and [srs.ImportFromWkt(text)] on a new
      reference: the reference afterwards *)
  ImportFromProj4 : string -> result SpatialReference;
  ImportFromWkt : string -> result SpatialReference;
  ExportToProj4 : SpatialReference -> result string;
  ExportToWkt : SpatialReference -> result string;
  (** [str(srs)] *)
  srs_str : SpatialReference -> string;
  CoordinateTransformation : Type;
  (** [osr.CoordinateTransformation(source, target)]; an argument is [None]
      or a reference *)
  new_CoordinateTransformation :
    option SpatialReference -> option SpatialReference -> CoordinateTransformation;
  (** [tx.TransformPoint(x, y)]: the triple [(x', y', z')] *)
  TransformPoint : CoordinateTransformation -> R -> R -> result (R * R * R)
}.

(** ** class _Projection *)

Module _Projection.
Section with_osr.
Context `{OSR}.

Record t : Type := mk { _srs : SpatialReference }.

(** What the constructor is called with. [ArgDict] carries [arg.items()], in
    the order the dictionary yields them; [ArgOther] is anything that is
    neither an [int], a [dict], a [str] nor a [_Projection]. *)
Inductive arg : Type :=
| ArgInt (code : Z)
| ArgDict (items : list (atom * atom))
| ArgStr (wkt : string)
| ArgProj (p : t)
| ArgOther.

Definition getWkt (self : t) : result string := ExportToWkt (_srs self).

(** The text the [dict] branch hands to [ImportFromProj4]. *)
Definition params_text (items : list (atom * atom)) : string :=
  String.append "+"
    (str_join " +" (map (fun pp => str_join "=" [str pp.1; str pp.2]) items)).

Definition __init__ (a : arg) : result t :=
  match a with
  | ArgInt code =>
      srs ← ImportFromProj4
              (String.append "+init=epsg:" (NilZero.string_of_int (Z.to_int code)));
      mret (mk srs)
  | ArgDict items =>
      srs ← ImportFromProj4 (params_text items);
      mret (mk srs)
  | ArgStr wkt =>
      srs ← ImportFromWkt wkt;
      mret (mk srs)
  | ArgProj p =>
      wkt ← getWkt p;
      srs ← ImportFromWkt wkt;
      mret (mk srs)
  | ArgOther => mret (mk srs_new)
  end.

(** The character class of [re.split("[+= ]", tmp)]. *)
Definition is_sep (c : ascii) : bool :=
  (Ascii.eqb c "+" || Ascii.eqb c "=" || Ascii.eqb c " ")%bool.

(** [[x for x in re.split("[+= ]", tmp) if x]] *)
Definition tokens (text : string) : list string :=
  filter (fun x => str_truthy x = true) (re_split is_sep text).

Definition getProj4 (self : t) : result (gmap string string) :=
  tmp ← ExportToProj4 (_srs self);
  let proj := tokens tmp in
  mret (dict (zip (evens proj) (odds proj))).

Definition getReference (self : t) : option SpatialReference :=
  if str_truthy (srs_str (_srs self)) then Some (_srs self) else None.

End with_osr.
End _Projection.

(** ** class _Transformer *)

Module _Transformer.
Section with_osr.
Context `{OSR}.

Record t : Type := mk { _tx : CoordinateTransformation }.

Definition __init__ (sproj tproj : _Projection.t) : t :=
  mk (new_CoordinateTransformation
        (_Projection.getReference sproj) (_Projection.getReference tproj)).

Definition __call__ (self : t) (y x : R) : result (R * R) :=
  match TransformPoint (_tx self) x y with
  | Ok (xt, yt, _) => Ok (yt, xt)
  | Raise (NotImplementedError _) =>
      Raise (AttributeError "Projections not correct or given!")
  | Raise e => Raise e
  end.

End with_osr.
End _Transformer.

(** ** _getColorMode *)

(** What [_getColorMode] reads of a GDAL dataset: the band count and, per
    band number (from 1), the colour interpretation code. *)
Record ColorDataset : Type := {
  RasterCount : nat;
  GetColorInterpretation : nat -> Z
}.

(** The list [tmp] after the loop. *)
Definition band_tags (fobj : ColorDataset) : list string :=
  map (fun i => dict_get COLOR_DICT (GetColorInterpretation fobj (i + 1)) "L")
      (seq 0 (RasterCount fobj)).

Definition _getColorMode (fobj : ColorDataset) : string :=
  str_join EmptyString (first_seen (band_tags fobj)).

(** ** _warp, the footprint planner *)

Record BBox : Type := {
  xmin : R;
  xmax : R;
  ymin : R;
  ymax : R
}.

Section warp.
Context `{OSR}.

(** Modelled from the spec: [core.GeoArray], whose module is not among the
    sources.  These are the attributes [_warp] reads of a grid; [bbox] is
    the derived bounding box, taken as the grid gives it. *)
Record GeoArray : Type := {
  ga_bbox : BBox;
  ga_proj : _Projection.t;
  ga_nbands : Z;
  ga_nrows : Z;
  ga_ncols : Z;
  ga_fill_value : pyval;
  ga_dtype : pyval
}.

(** The dictionary [_warp] returns, by its keys. *)
Record WarpSpec : Type := {
  shape : Z * Z * Z;
  value : pyval;
  fill_value : pyval;
  dtype : pyval;
  yorigin : R;
  xorigin : R;
  origin : string;
  cellsize : R * R;
  proj : _Projection.arg
}.

Definition _warp (grid : GeoArray) (proj : _Projection.arg) : result WarpSpec :=
  let bbox := ga_bbox grid in
  tproj ← _Projection.__init__ proj;
  let trans := _Transformer.__call__ (_Transformer.__init__ (ga_proj grid) tproj) in
  '(uly, ulx) ← trans (ymax bbox) (xmin bbox);
  '(lry, lrx) ← trans (ymin bbox) (xmax bbox);
  '(ury, urx) ← trans (ymax bbox) (xmax bbox);
  '(lly, llx) ← trans (ymin bbox) (xmin bbox);
  (* Calculate cellsize, i.e. same number of cells along the diagonal. *)
  let sdiag := sqrt (IZR (ga_nrows grid ^ 2 + ga_ncols grid ^ 2)) in
  let tdiag := sqrt ((lly - ury) ^ 2 + (llx - urx) ^ 2)%R in
  tcellsize ← fdiv tdiag sdiag;
  (* number of cells *)
  qcols ← fdiv (Rmax urx lrx - Rmin ulx llx)%R tcellsize;
  let ncols := py_int (Rabs (py_round qcols)) in
  qrows ← fdiv (Rmax ury lry - Rmin uly lly)%R tcellsize;
  let nrows := py_int (Rabs (py_round qrows)) in
  mret {| shape      := (ga_nbands grid, nrows, ncols);
          value      := ga_fill_value grid;
          fill_value := ga_fill_value grid;
          dtype      := ga_dtype grid;
          yorigin    := max4 uly ury lly lry;
          xorigin    := min4 ulx urx llx lrx;
          origin     := "ul";
          cellsize   := ((- tcellsize)%R, tcellsize);
          proj       := proj |}.

End warp.

End gdalfuncs.

(* ===================================================================== *)
(** * geoarray/geoarray.py                                                *)
(* ===================================================================== *)

Module geoarray.

(** Modelled from the spec: [core.GeoArray], whose module is not among the
    sources.  A grid is its buffer and the georeferencing attributes that
    [array] reads; the constructor call [GeoArray(data=..., ...)] is the
    record of its keyword arguments. *)
Record GeoArray : Type := {
  ga_buffer : pyval;
  ga_dtype : pyval;
  ga_yorigin : pyval;
  ga_xorigin : pyval;
  ga_origin : pyval;
  ga_fill_value : pyval;
  ga_cellsize : pyval;
  ga_proj : pyval;
  ga_mode : pyval
}.

(** The first argument of [array]: a [GeoArray] or anything else numpy can
    wrap. *)
Inductive data_arg : Type :=
| IsGeoArray (g : GeoArray)
| NotGeoArray (raw : pyval).

(** The keyword arguments of [array]; [no_kwargs] are the defaults. *)
Record kwargs : Type := {
  kw_dtype : pyval;
  kw_yorigin : pyval;
  kw_xorigin : pyval;
  kw_origin : pyval;
  kw_fill_value : pyval;
  kw_cellsize : pyval;
  kw_proj : pyval;
  kw_mode : pyval;
  kw_copy : bool
}.

Definition no_kwargs : kwargs :=
  {| kw_dtype := PNone; kw_yorigin := PNone; kw_xorigin := PNone;
     kw_origin := PNone; kw_fill_value := PNone; kw_cellsize := PNone;
     kw_proj := PNone; kw_mode := PNone; kw_copy := false |}.

(** The call [np.array(data, dtype=dtype, copy=copy)]. *)
Record np_array_call : Type := {
  na_object : data_arg;
  na_dtype : pyval;
  na_copy : bool
}.

(** The call [GeoArray(data=..., yorigin=..., ...)] that [array] returns. *)
Record GeoArray_call : Type := {
  data : np_array_call;
  yorigin : pyval;
  xorigin : pyval;
  origin : pyval;
  fill_value : pyval;
  cellsize : pyval;
  proj : pyval;
  mode : pyval
}.

(** The rebinding of the keyword arguments in the [isinstance] branch. *)
Definition inherit (d : data_arg) (kw : kwargs) : kwargs :=
  match d with
  | IsGeoArray g =>
      {| kw_dtype      := py_or (kw_dtype kw) (ga_dtype g);
         kw_yorigin    := py_or (kw_yorigin kw) (ga_yorigin g);
         kw_xorigin    := py_or (kw_xorigin kw) (ga_xorigin g);
         kw_origin     := py_or (kw_origin kw) (ga_origin g);
         kw_fill_value := py_or (kw_fill_value kw) (ga_fill_value g);
         kw_cellsize   := py_or (kw_cellsize kw) (ga_cellsize g);
         kw_proj       := py_or (kw_proj kw) (ga_proj g);
         kw_mode       := py_or (kw_mode kw) (ga_mode g);
         kw_copy       := kw_copy kw |}
  | NotGeoArray _ => kw
  end.

Definition array (d : data_arg) (kw : kwargs) : GeoArray_call :=
  let kw := inherit d kw in
  {| data       := {| na_object := d; na_dtype := kw_dtype kw;
                      na_copy := kw_copy kw |};
     yorigin    := py_or (kw_yorigin kw) (PInt 0);
     xorigin    := py_or (kw_xorigin kw) (PInt 0);
     origin     := py_or (kw_origin kw) (PStr "ul");
     fill_value := kw_fill_value kw;
     cellsize   := py_or (kw_cellsize kw) (PTuple [1%R; 1%R]);
     proj       := kw_proj kw;
     mode       := kw_mode kw |}.

End geoarray.

(* ===================================================================== *)
(** * The numpy array operations that src/geogridbase.py uses             *)
(* ===================================================================== *)

Module np.

(** An array is its shape and its cells in row-major order. *)
Record ndarray (A : Type) : Type := mk {
  shape : list nat;
  flat : list A
}.
Arguments mk {A} shape flat.
Arguments shape {A} _.
Arguments flat {A} _.

Definition size_of (dims : list nat) : nat := fold_right Nat.mul 1 dims.

(** [np.squeeze(a, 0)] *)
Definition squeeze0 {A} (a : ndarray A) : result (ndarray A) :=
  match shape a with
  | 1 :: dims => Ok (mk dims (flat a))
  | _ => Raise (ValueError
           "cannot select an axis to squeeze out which has size not equal to one")
  end.

(** [a == v] for a scalar [v] *)
Definition eq_scalar {A} (eqb : A -> A -> bool) (a : ndarray A) (v : A)
  : ndarray bool :=
  mk (shape a) (map (fun c => eqb c v) (flat a)).

(** [a.astype(t)], by the conversion of one cell *)
Definition astype {A B} (conv : A -> B) (a : ndarray A) : ndarray B :=
  mk (shape a) (map conv (flat a)).

(** [out = np.empty(dims); out.fill(v)] *)
Definition full {A} (dims : list nat) (v : A) : ndarray A :=
  mk dims (repeat v (size_of dims)).

(** How [a[mask] = v] treats a boolean mask whose shape is not the leading
    part of the shape of [a]: current numpy refuses it with [IndexError]
    ([MatchRequired]); the releases of the time of the sources index with
    [mask.nonzero()] instead ([NonzeroFallback]). *)
Inductive mask_rule : Type := MatchRequired | NonzeroFallback.

(** One bit of the mask decides one block of [block] consecutive cells. *)
Fixpoint mask_fill {A} (block : nat) (bits : list bool) (cells : list A) (v : A)
  : list A :=
  match bits with
  | [] => cells
  | b :: bits' =>
      (if b then map (fun _ => v) (take block cells) else take block cells)
        ++ mask_fill block bits' (drop block cells) v
  end.

(** The multi-index of flat position [p] in an array of shape [dims]. *)
Fixpoint unravel (dims : list nat) (p : nat) : list nat :=
  match dims with
  | [] => []
  | _ :: dims' => (p / size_of dims') :: unravel dims' (p mod size_of dims')
  end.

(** The flat position of a multi-index within [dims], bounds checked. *)
Fixpoint ravel (dims idx : list nat) (acc : nat) : option nat :=
  match idx, dims with
  | [], _ => Some acc
  | i :: idx', d :: dims' =>
      if i <? d then ravel dims' idx' (acc * d + i) else None
  | _ :: _, [] => None
  end.

(** [mask.nonzero()], one multi-index per true cell. *)
Definition nonzero (m : ndarray bool) : list (list nat) :=
  map (unravel (shape m))
      (filter (fun p => nth p (flat m) false = true) (seq 0 (length (flat m)))).

Definition set_block {A} (block : nat) (v : A) (cells : list A) (off : nat)
  : list A :=
  take (off * block) cells
    ++ map (fun _ => v) (take block (drop (off * block) cells))
    ++ drop (off * block + block) cells.

(** [a[mask] = v] for a scalar [v] *)
Definition setitem_mask {A} (rule : mask_rule)
    (a : ndarray A) (m : ndarray bool) (v : A) : result (ndarray A) :=
  let k := length (shape m) in
  let block := size_of (drop k (shape a)) in
  if bool_decide (take k (shape a) = shape m) then
    Ok (mk (shape a) (mask_fill block (flat m) (flat a) v))
  else
    match rule with
    | MatchRequired =>
        Raise (IndexError "boolean index did not match indexed array")
    | NonzeroFallback =>
        match mapM (fun idx => ravel (take k (shape a)) idx 0) (nonzero m) with
        | Some offs => Ok (mk (shape a) (fold_left (set_block block v) offs (flat a)))
        | None => Raise (IndexError "index out of bounds")
        end
    end.

End np.

(* ===================================================================== *)
(** * src/geogridbase.py                                                  *)
(* ===================================================================== *)

Module geogridbase.
Import np.

(** numpy, as far as the module depends on it. *)
Class Numpy : Type := {
  (** scalars and array cells; [None] is among the scalars *)
  num : Type;
  (** [==] on them *)
  num_eqb : num -> num -> bool;
  (** the scalar types, [np.dtype(x).type] *)
  scalar_type : Type;
  (** [np.dtype(value).type]; the argument is [None] or a type name *)
  np_dtype : option string -> result scalar_type;
  (** [t(v)] for a scalar [v] *)
  np_scalar : scalar_type -> num -> result num;
  (** the conversion of one cell by [t(array)] *)
  np_cast : scalar_type -> num -> num;
  (** the release's treatment of a mask of another shape *)
  boolean_index : mask_rule
}.

Record GeoTransform : Type := {
  gt0 : R; gt1 : R; gt2 : R; gt3 : R; gt4 : R; gt5 : R
}.

(** What the module reads of an opened GDAL dataset. *)
Record Dataset `{Numpy} : Type := {
  RasterCount : Z;
  RasterYSize : Z;
  RasterXSize : Z;
  GetGeoTransform : GeoTransform;
  (** [GetRasterBand(1).GetNoDataValue()] *)
  GetNoDataValue : num;
  (** [gdal.GetDataTypeName(GetRasterBand(1).DataType)] *)
  GetDataTypeName : string;
  GetProjection : string;
  ReadAsArray : ndarray num
}.

(** GDAL and OSR, as far as the module depends on them.  Exceptions are
    not switched on in this module: a failed [gdal.Open] returns [None]. *)
Class GDAL `{Numpy} : Type := {
  gdal_Open : string -> option Dataset;
  (** [srs.ImportFromWkt(wkt)] on a new reference, then
      [srs.ExportToProj4()] *)
  wkt_to_proj4 : string -> string
}.

Section classes.
Context `{GDAL}.

(** Which subclass an object belongs to, with the file object of a
    [_GdalGrid]. *)
Inductive reader : Type :=
| DummyGrid
| GdalGrid (fobj : Dataset).

(** The object state.  [_data] is [None] until the data is read; the tests
    [self._data == None] and [self._data != None] of the source are read as
    tests of that state. *)
Record _GeoGridBase : Type := mk {
  _reader : reader;
  _data : option (ndarray num);
  _nodata_value : num;
  _dtype : scalar_type;
  nbands : Z;
  nrows : Z;
  ncols : Z;
  xllcorner : R;
  yllcorner : R;
  cellsize : R;
  proj_params : gmap string string
}.

Definition with_data (self : _GeoGridBase) (d : option (ndarray num)) :=
  mk (_reader self) d (_nodata_value self) (_dtype self) (nbands self)
     (nrows self) (ncols self) (xllcorner self) (yllcorner self)
     (cellsize self) (proj_params self).

Definition with_nodata_value (self : _GeoGridBase) (v : num) :=
  mk (_reader self) (_data self) v (_dtype self) (nbands self)
     (nrows self) (ncols self) (xllcorner self) (yllcorner self)
     (cellsize self) (proj_params self).

(** [_DummyGrid._readData] and [_GdalGrid._readData] *)
Definition _readData (self : _GeoGridBase) : ndarray num :=
  match _reader self with
  | DummyGrid =>
      full [Z.to_nat (nbands self); Z.to_nat (nrows self); Z.to_nat (ncols self)]
           (_nodata_value self)
  | GdalGrid fobj => ReadAsArray fobj
  end.

(** [_squeeze]: [None] while nothing is loaded. *)
Definition _squeeze (self : _GeoGridBase) : result (option (ndarray num)) :=
  match _data self with
  | Some a =>
      match squeeze0 a with
      | Ok b => Ok (Some b)
      | Raise (ValueError _) => Ok (Some a)
      | Raise e => Raise e
      end
  | None => Ok None
  end.

(** [self[:]]: the object afterwards and the view returned. *)
Definition __getitem__ (self : _GeoGridBase) : result (_GeoGridBase * ndarray num) :=
  let self :=
    match _data self with
    | None => with_data self (Some (astype (np_cast (_dtype self)) (_readData self)))
    | Some _ => self
    end in
  view ← _squeeze self;
  match view with
  | Some v => Ok (self, v)
  | None => Raise (TypeError "'NoneType' object has no attribute '__getitem__'")
  end.

(** [self[slc] = value] for a boolean mask [slc]. *)
Definition __setitem__ (self : _GeoGridBase) (slc : ndarray bool) (value : num)
  : result _GeoGridBase :=
  self ← match _data self with
         | None => '(self, _) ← __getitem__ self; Ok self
         | Some _ => Ok self
         end;
  match _data self with
  | Some a =>
      a' ← setitem_mask boolean_index a slc value;
      Ok (with_data self (Some a'))
  | None => Raise (TypeError "'NoneType' object does not support item assignment")
  end.

Definition __consistentTypes (self : _GeoGridBase) : result _GeoGridBase :=
  v ← np_scalar (_dtype self) (_nodata_value self);
  let self := with_nodata_value self v in
  match _data self with
  | Some _ =>
      '(self, view) ← __getitem__ self;
      Ok (with_data self (Some (astype (np_cast (_dtype self)) view)))
  | None => Ok self
  end.

Definition _getNodataValue (self : _GeoGridBase) : num := _nodata_value self.

Definition _setNodataValue (self : _GeoGridBase) (value : num)
  : result _GeoGridBase :=
  new ← np_scalar (_dtype self) value;
  '(self, view) ← __getitem__ self;
  self ← __setitem__ self (eq_scalar num_eqb view (_nodata_value self)) new;
  new ← np_scalar (_dtype self) value;
  Ok (with_nodata_value self new).

Definition _setDataType (self : _GeoGridBase) (value : option string)
  : result _GeoGridBase :=
  t ← np_dtype value;
  __consistentTypes
    (mk (_reader self) (_data self) (_nodata_value self) t (nbands self)
        (nrows self) (ncols self) (xllcorner self) (yllcorner self)
        (cellsize self) (proj_params self)).

(** [_GeoGridBase.__init__], for the object of class [rd]. *)
Definition __init__ (rd : reader) (nbands nrows ncols : Z)
    (xllcorner yllcorner cellsize : R) (dtype : option string)
    (data : option (ndarray num)) (nodata_value : num)
    (proj_params : gmap string string) : result _GeoGridBase :=
  t ← np_dtype dtype;
  self ← __consistentTypes
           (mk rd data nodata_value t (if (nbands =? 0)%Z then 1%Z else nbands)
               nrows ncols xllcorner yllcorner cellsize proj_params);
  __consistentTypes self.

(** ** class _GdalGrid *)

Definition _open (fname : string) : result Dataset :=
  match gdal_Open fname with
  | Some fobj => Ok fobj
  | None => Raise (IOError "Could not open file")
  end.

Definition _yllcorner (yulcorner cellsize : R) (nrows : Z) : R :=
  if Rlt_dec cellsize 0 then (yulcorner + cellsize * IZR nrows)%R
  else yulcorner.

Definition _cellsize (x_cellsize y_cellsize : R) : result R :=
  if Req_dec_T (Rabs x_cellsize) (Rabs y_cellsize) then Ok (Rabs x_cellsize)
  else Raise (NotImplementedError
                "Diverging cellsizes in x and y direction are not allowed yet!").

Definition is_sep (c : ascii) : bool :=
  (Ascii.eqb c "+" || Ascii.eqb c "=" || Ascii.eqb c " ")%bool.

Definition _proj4Params (fobj : Dataset) : gmap string string :=
  let proj_string := wkt_to_proj4 (GetProjection fobj) in
  let proj_params :=
    filter (fun x => str_truthy x = true) (re_split is_sep proj_string) in
  dict (zip (evens proj_params) (odds proj_params)).

Definition opt_str_truthy (s : option string) : bool :=
  match s with Some s => str_truthy s | None => false end.

Definition dict_truthy (d : gmap string string) : bool :=
  bool_decide (d ≠ ∅).

Definition _GdalGrid__init__ (fname : string)
    (proj_params : option (gmap string string)) (dtype : option string)
  : result _GeoGridBase :=
  fobj ← _open fname;
  let trans := GetGeoTransform fobj in
  let pparams := _proj4Params fobj in
  let yll := _yllcorner (gt3 trans) (gt5 trans) (RasterYSize fobj) in
  cs ← _cellsize (gt1 trans) (gt5 trans);
  __init__ (GdalGrid fobj)
    (RasterCount fobj) (RasterYSize fobj) (RasterXSize fobj)
    (gt0 trans) yll cs
    (if opt_str_truthy dtype then dtype else Some (GetDataTypeName fobj))
    None
    (GetNoDataValue fobj)
    (if dict_truthy pparams then pparams
     else match proj_params with
          | Some d => if dict_truthy d then d else ∅
          | None => ∅
          end).

End classes.
End geogridbase.

(* ===================================================================== *)
(** * Vocabulary of the specification, and concrete collaborators         *)
(* ===================================================================== *)

(** The ten numeric kinds of the numeric-kind code table. *)
Definition kinds : list string :=
  [ "uint8"; "int8"; "uint16"; "int16"; "uint32"; "int32";
    "float32"; "float64"; "complex64"; "complex128" ].

(** A dataset of three bands whose second band carries a colour
    interpretation outside the table. *)
Definition three_bands : gdalfuncs.ColorDataset :=
  {| gdalfuncs.RasterCount := 3;
     gdalfuncs.GetColorInterpretation :=
       fun b => match b with 1%nat => 3%Z | 2%nat => 17%Z | _ => 5%Z end |}.

(** A reference library that keeps the text it is given: importing never
    fails, exporting returns the imported text, a new reference has the
    empty text.  A transformation between two references applies the map
    [f] of the plane to [(x, y)]; built with a missing reference it is
    unusable, and [TransformPoint] then fails the way the SWIG wrapper does,
    with [NotImplementedError]. *)
Definition plane_osr (f : R -> R -> R * R) : gdalfuncs.OSR :=
  {| gdalfuncs.SpatialReference := string;
     gdalfuncs.srs_new := EmptyString;
     gdalfuncs.ImportFromProj4 := fun text => Ok text;
     gdalfuncs.ImportFromWkt := fun text => Ok text;
     gdalfuncs.ExportToProj4 := fun srs => Ok srs;
     gdalfuncs.ExportToWkt := fun srs => Ok srs;
     gdalfuncs.srs_str := fun srs => srs;
     gdalfuncs.CoordinateTransformation := bool;
     gdalfuncs.new_CoordinateTransformation := fun s t =>
       match s, t with
       | Some _, Some _ => true
       | _, _ => false
       end;
     gdalfuncs.TransformPoint := fun usable x y =>
       if usable then Ok (f x y, 0%R)
       else Raise (NotImplementedError
                     "Wrong number of arguments for overloaded function") |}.

(** The contract of the OSR binding that [_Transformer.__call__] relies on:
    a transformation constructed with a missing reference raises
    [NotImplementedError] when a point is transformed. *)
Definition unusable_raises_NotImplementedError `{gdalfuncs.OSR} : Prop :=
  forall (s t : option gdalfuncs.SpatialReference) (x y : R),
    s = None \/ t = None ->
    exists msg : string,
      gdalfuncs.TransformPoint (gdalfuncs.new_CoordinateTransformation s t) x y
      = Raise (NotImplementedError msg).

(** The error of the specification's taxonomy that [_Transformer] raises
    for a wrong or missing projection. *)
Definition ProjectionError : exn :=
  AttributeError "Projections not correct or given!".

(** The library in which every transformation is the identity map, and the
    projection object that [_Projection(None)] builds there. *)
Definition same_place (x y : R) : R * R := (x, y).

Definition identity_osr : gdalfuncs.OSR := plane_osr same_place.

Definition unset_projection : @gdalfuncs._Projection.t identity_osr :=
  @gdalfuncs._Projection.mk identity_osr EmptyString.

(** The error of the specification's taxonomy for diverging cellsizes. *)
Definition CellsizeMismatchError : exn :=
  NotImplementedError
    "Diverging cellsizes in x and y direction are not allowed yet!".

(** A numpy whose cells are integers of one kind: conversions change
    nothing.  [rule] is the release's treatment of a mismatched mask. *)
Definition z_numpy (rule : np.mask_rule) : geogridbase.Numpy :=
  {| geogridbase.num := Z;
     geogridbase.num_eqb := Z.eqb;
     geogridbase.scalar_type := unit;
     geogridbase.np_dtype := fun _ => Ok tt;
     geogridbase.np_scalar := fun _ v => Ok v;
     geogridbase.np_cast := fun _ v => v;
     geogridbase.boolean_index := rule |}.

(** A file system with one raster file. *)
Definition single_file `{geogridbase.Numpy}
    (name : string) (fobj : geogridbase.Dataset) : geogridbase.GDAL :=
  {| geogridbase.gdal_Open := fun fname =>
       if String.eqb fname name then Some fobj else None;
     geogridbase.wkt_to_proj4 := fun wkt => wkt |}.

(** The geotransform of an unrotated raster. *)
Definition north_up (x0 dx y0 dy : R) : geogridbase.GeoTransform :=
  {| geogridbase.gt0 := x0; geogridbase.gt1 := dx; geogridbase.gt2 := 0;
     geogridbase.gt3 := y0; geogridbase.gt4 := 0; geogridbase.gt5 := dy |}.

(** A single-band raster of one row and three columns, north up, cells of
    10 by 10 map units; its first cell holds the nodata value 7. *)
Definition one_row_file (rule : np.mask_rule)
  : @geogridbase.Dataset (z_numpy rule) :=
  @geogridbase.Build_Dataset (z_numpy rule)
    1 1 3 (north_up 0 10 10 (-10)) 7%Z "Int32" EmptyString
    (np.mk [1; 3]%nat [7; 1; 2]%Z).

Definition one_row_gdal (rule : np.mask_rule) : @geogridbase.GDAL (z_numpy rule) :=
  single_file "row.tif" (one_row_file rule).

(** The grid read from that file, before and after its data is loaded. *)
Definition one_row_unloaded (rule : np.mask_rule)
  : @geogridbase._GeoGridBase (z_numpy rule) :=
  @geogridbase.mk (z_numpy rule)
    (geogridbase.GdalGrid (one_row_file rule))
    None 7%Z tt 1 1 3 0%R (geogridbase._yllcorner 10 (-10) 1) (Rabs 10) ∅.

Definition one_row_loaded (rule : np.mask_rule)
  : @geogridbase._GeoGridBase (z_numpy rule) :=
  geogridbase.with_data (one_row_unloaded rule)
    (Some (np.mk [1; 3]%nat [7; 1; 2]%Z)).

(** The same raster with cells of 10 by 20 map units. *)
Definition stretched_file : @geogridbase.Dataset (z_numpy np.MatchRequired) :=
  @geogridbase.Build_Dataset (z_numpy np.MatchRequired)
    1 1 3 (north_up 0 10 20 (-20)) 7%Z "Int32" EmptyString
    (np.mk [1; 3]%nat [7; 1; 2]%Z).

(** What the specification promises of a nodata change on loaded data:
    the cells that held the old nodata value hold the converted new value
    [new], every other cell is as before, and [new] is the stored nodata
    value. *)
Definition nodata_rewritten `{geogridbase.Numpy}
    (before after : geogridbase._GeoGridBase) (new : geogridbase.num) : Prop :=
  exists a a' : np.ndarray geogridbase.num,
    geogridbase._data before = Some a
    /\ geogridbase._data after = Some a'
    /\ np.shape a' = np.shape a
    /\ length (np.flat a') = length (np.flat a)
    /\ (forall (i : nat) (c : geogridbase.num),
          np.flat a !! i = Some c ->
          np.flat a' !! i
          = Some (if geogridbase.num_eqb c (geogridbase._nodata_value before)
                  then new else c))
    /\ geogridbase._nodata_value after = new.

(** The data model of a [GeoArray], as far as [array] depends on it: the
    origin coordinates are numbers, the origin names one of the four
    corners, the cellsize is a pair. *)
Definition is_number (v : pyval) : Prop :=
  match v with
  | PInt _ | PFloat _ => True
  | _ => False
  end.

Definition corners : list pyval :=
  [ PStr "ul"; PStr "ur"; PStr "ll"; PStr "lr" ].

Definition well_formed (g : geoarray.GeoArray) : Prop :=
  is_number (geoarray.ga_yorigin g)
  /\ is_number (geoarray.ga_xorigin g)
  /\ geoarray.ga_origin g ∈ corners
  /\ exists dy dx : R, geoarray.ga_cellsize g = PTuple [dy; dx].

(** The grid of the specification's example: four by four cells, origin
    "ul" at y = 10, x = 0, cellsize (-1, 1). *)
Definition example_grid : geoarray.GeoArray :=
  {| geoarray.ga_buffer := PObj "ndarray" true;
     geoarray.ga_dtype := PObj "dtype('float64')" false;
     geoarray.ga_yorigin := PInt 10;
     geoarray.ga_xorigin := PInt 0;
     geoarray.ga_origin := PStr "ul";
     geoarray.ga_fill_value := PFloat (-9999);
     geoarray.ga_cellsize := PTuple [(-1)%R; 1%R];
     geoarray.ga_proj := PObj "_Projection" true;
     geoarray.ga_mode := PStr "L" |}.

(** The keyword arguments of the call [array(g, yorigin=0)]. *)
Definition yorigin_zero : geoarray.kwargs :=
  {| geoarray.kw_dtype := PNone; geoarray.kw_yorigin := PInt 0;
     geoarray.kw_xorigin := PNone; geoarray.kw_origin := PNone;
     geoarray.kw_fill_value := PNone; geoarray.kw_cellsize := PNone;
     geoarray.kw_proj := PNone; geoarray.kw_mode := PNone;
     geoarray.kw_copy := false |}.

(** The operations of the specification's ProjectionSpec on a parameter
    mapping, and their composition. *)
Definition fromParams `{gdalfuncs.OSR} (m : list (atom * atom))
  : result gdalfuncs._Projection.t :=
  gdalfuncs._Projection.__init__ (gdalfuncs._Projection.ArgDict m).

Definition getParams `{gdalfuncs.OSR} (p : gdalfuncs._Projection.t)
  : result (gmap string string) :=
  gdalfuncs._Projection.getProj4 p.

Definition params_roundtrip `{gdalfuncs.OSR} (m : list (atom * atom))
  : result (gmap string string) :=
  fromParams m ≫= getParams.

(** The mapping with the items [m] and the mapping [d] of strings hold the
    same key/value pairs. *)
Definition same_pairs (m : list (atom * atom)) (d : gmap string string) : Prop :=
  forall a b : atom,
    (a, b) ∈ m <-> exists k v : string, a = AStr k /\ b = AStr v /\ d !! k = Some v.

(** A string that survives the splitting of [getProj4] as one token: not
    empty and free of the characters "+", "=" and space. *)
Fixpoint no_sep (s : string) : bool :=
  match s with
  | EmptyString => true
  | String c rest => negb (gdalfuncs._Projection.is_sep c) && no_sep rest
  end.

Definition clean_token (s : string) : bool := str_truthy s && no_sep s.

Definition clean_atom (a : atom) : Prop :=
  match a with
  | AStr s => clean_token s = true
  | AInt _ => False
  end.

(** A tail that a reference library may add to the parameters it exports:
    nothing, or, after a separator, a text with at most one token, such as
    " +no_defs ". *)
Definition trailing_flag (tail : string) : Prop :=
  tail = EmptyString
  \/ exists (c : ascii) (rest : string),
       tail = String c rest
       /\ gdalfuncs._Projection.is_sep c = true
       /\ (length (gdalfuncs._Projection.tokens rest) <= 1)%nat.

(** The reference library keeps the parameters of the mapping [m]: it
    imports the Proj4 text that [fromParams] writes for [m], and the text
    it then exports is the text of the items of [m], in some order,
    followed by nothing or by a trailing flag.  Nothing is asked of the
    library at any other text. *)
Definition keeps_params `{gdalfuncs.OSR} (m : list (atom * atom)) : Prop :=
  exists (srs : gdalfuncs.SpatialReference) (m' : list (atom * atom))
         (tail : string),
    gdalfuncs.ImportFromProj4 (gdalfuncs._Projection.params_text m) = Ok srs
    /\ m' ≡ₚ m
    /\ gdalfuncs.ExportToProj4 srs
       = Ok (String.append (gdalfuncs._Projection.params_text m') tail)
    /\ trailing_flag tail.

(** A reference library that closes the Proj4 text it exports with the
    flag "+no_defs" and a space, as GDAL does for a complete parameter
    set; its transformations leave the points where they are. *)
Definition no_defs_osr : gdalfuncs.OSR :=
  {| gdalfuncs.SpatialReference := string;
     gdalfuncs.srs_new := EmptyString;
     gdalfuncs.ImportFromProj4 := fun text => Ok text;
     gdalfuncs.ImportFromWkt := fun text => Ok text;
     gdalfuncs.ExportToProj4 := fun srs => Ok (String.append srs " +no_defs ");
     gdalfuncs.ExportToWkt := fun srs => Ok srs;
     gdalfuncs.srs_str := fun srs => srs;
     gdalfuncs.CoordinateTransformation := unit;
     gdalfuncs.new_CoordinateTransformation := fun _ _ => tt;
     gdalfuncs.TransformPoint := fun _ x y => Ok (x, y, 0%R) |}.

(** The mapping [{"proj": "longlat", "datum": "WGS84"}]. *)
Definition longlat_params : list (atom * atom) :=
  [ (AStr "proj", AStr "longlat"); (AStr "datum", AStr "WGS84") ].

(** The mapping [{"title": "WGS 84"}]. *)
Definition title_params : list (atom * atom) :=
  [ (AStr "title", AStr "WGS 84") ].

(** The pair of strings that [_Projection.__init__] writes for an item. *)
Definition str_pair (pp : atom * atom) : string * string := (str pp.1, str pp.2).

Definition clean_pair (pp : atom * atom) : Prop :=
  clean_token (str pp.1) = true /\ clean_token (str pp.2) = true.

(** ** The footprint planner *)

(** Euclidean distance between two points [(y, x)]. *)
Definition distance (p q : R * R) : R :=
  sqrt ((p.1 - q.1) ^ 2 + (p.2 - q.2) ^ 2).

(** Largest and smallest of a value and a list of values. *)
Definition maximum (x : R) (xs : list R) : R := fold_right Rmax x xs.
Definition minimum (x : R) (xs : list R) : R := fold_right Rmin x xs.

(** The cell count the specification gives for an axis: the rounded
    absolute extent of the four transformed corners over the cellsize. *)
Definition extent_count (a b c d cellsize : R) : Z :=
  py_int (py_round (Rabs (maximum a [b; c; d] - minimum a [b; c; d]) / cellsize)).

(** The target projection can be built and the four corners of the bounding
    box of [grid] transform to [(uly, ulx)], [(lry, lrx)], [(ury, urx)] and
    [(lly, llx)]. *)
Definition corners_transform `{gdalfuncs.OSR}
    (grid : gdalfuncs.GeoArray) (p : gdalfuncs._Projection.arg)
    (tproj : gdalfuncs._Projection.t)
    (uly ulx lry lrx ury urx lly llx : R) : Prop :=
  let bbox := gdalfuncs.ga_bbox grid in
  let trans :=
    gdalfuncs._Transformer.__call__
      (gdalfuncs._Transformer.__init__ (gdalfuncs.ga_proj grid) tproj) in
  gdalfuncs._Projection.__init__ p = Ok tproj
  /\ trans (gdalfuncs.ymax bbox) (gdalfuncs.xmin bbox) = Ok (uly, ulx)
  /\ trans (gdalfuncs.ymin bbox) (gdalfuncs.xmax bbox) = Ok (lry, lrx)
  /\ trans (gdalfuncs.ymax bbox) (gdalfuncs.xmax bbox) = Ok (ury, urx)
  /\ trans (gdalfuncs.ymin bbox) (gdalfuncs.xmin bbox) = Ok (lly, llx).

(** The grid has a cell, and the transformed lower left and upper right
    corners differ: both diagonals have a length. *)
Definition diagonals_nonzero `{gdalfuncs.OSR}
    (grid : gdalfuncs.GeoArray) (ury urx lly llx : R) : Prop :=
  (gdalfuncs.ga_nrows grid <> 0 \/ gdalfuncs.ga_ncols grid <> 0)%Z
  /\ (lly <> ury \/ llx <> urx).

(** A similarity of the plane that turns by more than a right angle:
    [(x, y)] goes to [(-4x + 3y, -3x - 4y)]. *)
Definition turn (x y : R) : R * R := (-4 * x + 3 * y, -3 * x - 4 * y)%R.

(** A grid of three rows and four columns with unit cells, its lower left
    corner at the origin of its reference system "source", in the library
    whose transformations apply [f]. *)
Definition grid_3x4 (f : R -> R -> R * R) : @gdalfuncs.GeoArray (plane_osr f) :=
  @gdalfuncs.Build_GeoArray (plane_osr f)
    {| gdalfuncs.xmin := 0; gdalfuncs.xmax := 4;
       gdalfuncs.ymin := 0; gdalfuncs.ymax := 3 |}
    (@gdalfuncs._Projection.mk (plane_osr f) "source")
    1 3 4 (PFloat (-9999)) (PObj "dtype('float64')" false).

(** The target reference system "target", given by its text. *)
Definition target (f : R -> R -> R * R) : @gdalfuncs._Projection.arg (plane_osr f) :=
  @gdalfuncs._Projection.ArgStr (plane_osr f) "target".

(** A [_DummyGrid] of one band, two rows and two columns with nodata value
    7, as constructed: nothing loaded yet. *)
Definition dummy_2x2 (rule : np.mask_rule)
  : @geogridbase._GeoGridBase (z_numpy rule) :=
  @geogridbase.mk (z_numpy rule) geogridbase.DummyGrid
    None 7%Z tt 1 2 2 0%R 0%R 1%R ∅.

(* ===================================================================== *)
(** * Further concrete inputs                                             *)
(* ===================================================================== *)

(** The projection whose reference exports the Proj4 text
    "+proj=utm +zone=32 +no_defs", in the library that keeps texts. *)
Definition utm_projection : @gdalfuncs._Projection.t identity_osr :=
  @gdalfuncs._Projection.mk identity_osr "+proj=utm +zone=32 +no_defs".

(** A loaded single-band grid of two rows and two columns, [[7, 1], [2, 7]],
    with nodata value 7. *)
Definition two_rows_loaded (rule : np.mask_rule)
  : @geogridbase._GeoGridBase (z_numpy rule) :=
  @geogridbase.mk (z_numpy rule) geogridbase.DummyGrid
    (Some (np.mk [2; 2]%nat [7; 1; 2; 7]%Z)) 7%Z tt 1 2 2 0%R 0%R 1%R ∅.

(** The grid [grid_3x4] without a reference system of its own. *)
Definition grid_3x4_unset : @gdalfuncs.GeoArray identity_osr :=
  @gdalfuncs.Build_GeoArray identity_osr
    {| gdalfuncs.xmin := 0; gdalfuncs.xmax := 4;
       gdalfuncs.ymin := 0; gdalfuncs.ymax := 3 |}
    unset_projection
    1 3 4 (PFloat (-9999)) (PObj "dtype('float64')" false).

(** The keyword arguments of [array(data, yorigin=5.5, origin="lr")]. *)
Definition yorigin_and_origin : geoarray.kwargs :=
  {| geoarray.kw_dtype := PNone; geoarray.kw_yorigin := PFloat 5.5;
     geoarray.kw_xorigin := PNone; geoarray.kw_origin := PStr "lr";
     geoarray.kw_fill_value := PNone; geoarray.kw_cellsize := PNone;
     geoarray.kw_proj := PNone; geoarray.kw_mode := PNone;
     geoarray.kw_copy := false |}.

(* ===================================================================== *)
(** * GDAL's driver registry, as the two writers use it                   *)
(* ===================================================================== *)

Module gdal_drivers.

(** [gdal.GetDriverByName(name)] is a driver or [None];
    [driver.GetMetadata_Dict()] is its metadata. *)
Class Drivers : Type := {
  Driver : Type;
  GetDriverByName : string -> option Driver;
  GetMetadata_Dict : Driver -> gmap string string
}.

End gdal_drivers.

(* ===================================================================== *)
(** * geoarray/gdalfuncs.py, the driver choice of _toFile                 *)
(* ===================================================================== *)

Module gdalfuncs_rest.
Import gdal_drivers.

Definition _DRIVER_DICT : gmap string string :=
  dict [ (".tif", "GTiff"); (".asc", "AAIGrid"); (".img", "HFA");
         (".png", "PNG") ].

Section toFile.
Context `{Drivers}.

(** The inner function [_getDriver] of [_toFile]. *)
Definition _getDriver (fext : string) : result Driver :=
  match _DRIVER_DICT !! fext with
  | Some name =>
      match GetDriverByName name with
      | Some driver =>
          let metadata := GetMetadata_Dict driver in
          (* metadata.get("DCAP_CREATE", metadata.get("DCAP_CREATECOPY")) *)
          let capability :=
            match metadata !! "DCAP_CREATE" with
            | Some v => Some v
            | None => metadata !! "DCAP_CREATECOPY"
            end in
          if bool_decide (Some "YES" = capability) then Ok driver
          else Raise (IOError "Datatype canot be written")
      | None =>
          Raise (AttributeError
                   "'NoneType' object has no attribute 'GetMetadata_Dict'")
      end
  | None =>
      Raise (IOError
               (String.append "No driver found for filename extension '"
                  (String.append fext "'")))
  end.

End toFile.
End gdalfuncs_rest.

(* ===================================================================== *)
(** * src/geogridbase.py, the remaining methods and the writer            *)
(* ===================================================================== *)

Module geogridbase_rest.
Import np geogridbase gdal_drivers.

Definition _DRIVER_DICT : gmap string string :=
  dict [ (".tif", "GTiff"); (".asc", "AAIGrid"); (".bmp", "BMP");
         (".img", "HFA"); (".jpg", "JPEG") ].

(** Python and numpy, as far as the writer depends on them beyond
    [Numpy]. *)
Class Scalars `{Numpy} : Type := {
  (** [float(v)] of a scalar *)
  py_float : num -> result R;
  (** [t.__name__] of a scalar type *)
  __name__ : scalar_type -> string
}.

Section shape.
Context `{Numpy}.

(** [_getShape]: the tuple, as a list. *)
Definition _getShape (self : _GeoGridBase) : list Z :=
  if (1 <? nbands self)%Z then [nbands self; nrows self; ncols self]
  else [nrows self; ncols self].

End shape.

(** ** class _GridWriter *)

Section _GridWriter.
Context `{Scalars} `{Drivers}.

Definition _getDriver (fext : string) : result Driver :=
  match _DRIVER_DICT !! fext with
  | Some name =>
      match GetDriverByName name with
      | Some driver =>
          let metadata := GetMetadata_Dict driver in
          (* metadata.get("DCAP_CREATE", metadata.get("DCAP_CREATECOPY")) *)
          let capability :=
            match metadata !! "DCAP_CREATE" with
            | Some v => Some v
            | None => metadata !! "DCAP_CREATECOPY"
            end in
          if bool_decide (Some "YES" = capability) then Ok driver
          else Raise (IOError "Datatype canot be written")
      | None =>
          Raise (AttributeError
                   "'NoneType' object has no attribute 'GetMetadata_Dict'")
      end
  | None =>
      Raise (IOError
               (String.append "No driver found for filenmae extension '"
                  (String.append fext "'")))
  end.

(** [_proj4String]; [items] is [self.fobj.proj_params.items()], in the
    order the dictionary yields them. *)
Definition _proj4String (items : list (string * string)) : string :=
  String.append "+"
    (str_join " +" (map (fun pp => str_join "=" [pp.1; pp.2]) items)).

(** What [_writeGdalMemory] hands to the MEM dataset [out], call by call.
    GDAL itself is not part of the model: each call is taken to be
    accepted. *)
Record MemoryDataset : Type := {
  (** [driver.Create(EmptyString, xsize, ysize, bands,
      gdal.GetDataTypeByName(name))]: sizes, band count and type name *)
  Create : Z * Z * Z * string;
  SetGeoTransform : GeoTransform;
  (** the text of [srs.ImportFromProj4]; [out.SetProjection] gets the WKT
      that [srs] exports *)
  ImportFromProj4 : string;
  (** band by band, the arguments of [SetNoDataValue] and [WriteArray] *)
  bands : list (R * ndarray num)
}.

(** The loop over the bands, [n] bands to go: the grid afterwards and what
    each band was handed. *)
Fixpoint write_bands (n : nat) (self : _GeoGridBase)
  : result (_GeoGridBase * list (R * ndarray num)) :=
  match n with
  | O => Ok (self, [])
  | S n' =>
      nodata ← py_float (_getNodataValue self);
      '(self, view) ← __getitem__ self;
      '(self, rest) ← write_bands n' self;
      Ok (self, (nodata, view) :: rest)
  end.

(** [_writeGdalMemory], for the writer of the grid [self]: the grid
    afterwards and the calls on [out]. *)
Definition _writeGdalMemory (self : _GeoGridBase)
  : result (_GeoGridBase * MemoryDataset) :=
  let create :=
    (ncols self, nrows self, nbands self, __name__ (_dtype self)) in
  let trans :=
    {| gt0 := xllcorner self; gt1 := cellsize self; gt2 := 0;
       gt3 := yllcorner self + IZR (nrows self) * cellsize self;
       gt4 := 0; gt5 := cellsize self * -1 |}%R in
  let text := _proj4String (map_to_list (proj_params self)) in
  '(self, written) ← write_bands (Z.to_nat (nbands self)) self;
  Ok (self, {| Create := create; SetGeoTransform := trans;
               ImportFromProj4 := text; bands := written |}).

End _GridWriter.
End geogridbase_rest.

(** [float] and [__name__] for the numpy whose cells are integers. *)
Definition z_scalars (rule : np.mask_rule)
  : @geogridbase_rest.Scalars (z_numpy rule) :=
  @geogridbase_rest.Build_Scalars (z_numpy rule)
    (fun v => Ok (IZR v)) (fun _ => "int32").

(** The one-row raster with the projection text
    "+proj=utm +zone=32 +no_defs". *)
Definition utm_file (rule : np.mask_rule)
  : @geogridbase.Dataset (z_numpy rule) :=
  @geogridbase.Build_Dataset (z_numpy rule)
    1 1 3 (north_up 0 10 10 (-10)) 7%Z "Int32" "+proj=utm +zone=32 +no_defs"
    (np.mk [1; 3]%nat [7; 1; 2]%Z).

Definition utm_gdal (rule : np.mask_rule) : @geogridbase.GDAL (z_numpy rule) :=
  single_file "utm.tif" (utm_file rule).

(** The same raster with the projection text that the writer makes of the
    parameters read from [utm_file]. *)
Definition utm_file_rewritten (rule : np.mask_rule)
  : @geogridbase.Dataset (z_numpy rule) :=
  @geogridbase.Build_Dataset (z_numpy rule)
    1 1 3 (north_up 0 10 10 (-10)) 7%Z "Int32"
    (geogridbase_rest._proj4String
       (map_to_list (@geogridbase._proj4Params _ (utm_gdal rule) (utm_file rule))))
    (np.mk [1; 3]%nat [7; 1; 2]%Z).

(** A registry with the drivers GTiff, which creates datasets, and PNG,
    which only copies them. *)
Definition two_drivers : gdal_drivers.Drivers :=
  {| gdal_drivers.Driver := string;
     gdal_drivers.GetDriverByName := fun name =>
       if bool_decide (name = "GTiff" \/ name = "PNG") then Some name else None;
     gdal_drivers.GetMetadata_Dict := fun driver =>
       if String.eqb driver "GTiff"
       then dict [ ("DCAP_CREATE", "YES"); ("DCAP_CREATECOPY", "YES") ]
       else dict [ ("DCAP_CREATECOPY", "YES") ] |}.

(* ===================================================================== *)
(** * The tables of gdalfuncs.py                                          *)
(* ===================================================================== *)

Section tables.
Import gdalfuncs.

(** C6. Each of the ten numeric kinds has a code between 1 and 11 in
    [TYPEMAP]; the code leads back to the kind for every kind but "uint8";
    two kinds share a code only if they are "uint8" and "int8", which both
    have code 1, and code 1 leads back to "int8". *)
Theorem C6_typemap_bijective_but_uint8 (k : string) :
  k ∈ kinds ->
  exists c : Z,
    dict_item TYPEMAP (AStr k) = Ok (AInt c)
    /\ (1 <= c <= 11)%Z
    /\ (k <> "uint8" -> dict_item TYPEMAP (AInt c) = Ok (AStr k))
    /\ (forall k' : string,
          k' ∈ kinds ->
          dict_item TYPEMAP (AStr k') = Ok (AInt c) ->
          k' = k \/ (k = "uint8" /\ k' = "int8") \/ (k = "int8" /\ k' = "uint8"))
    /\ dict_item TYPEMAP (AStr "uint8") = dict_item TYPEMAP (AStr "int8")
    /\ dict_item TYPEMAP (AInt 1) = Ok (AStr "int8").
Proof.
  unfold kinds. intros Hk.
  repeat (apply elem_of_cons in Hk as [-> | Hk]);
    [ .. | by apply elem_of_nil in Hk ];
    eexists; (split; [ vm_compute; reflexivity | ]);
    (split; [ lia | ]);
    (split; [ first [ by intros [] | intros _; vm_compute; reflexivity ] | ]);
    (split; [ | split; vm_compute; reflexivity ]);
    intros k' Hk' E;
    repeat (apply elem_of_cons in Hk' as [-> | Hk']);
    try (by apply elem_of_nil in Hk');
    try (vm_compute in E; discriminate E);
    auto.
Qed.

Lemma C6_typemap_witness :
  exists c : Z,
    dict_item TYPEMAP (AStr "float32") = Ok (AInt c)
    /\ (1 <= c <= 11)%Z
    /\ ("float32" <> "uint8" -> dict_item TYPEMAP (AInt c) = Ok (AStr "float32"))
    /\ (forall k' : string,
          k' ∈ kinds ->
          dict_item TYPEMAP (AStr k') = Ok (AInt c) ->
          k' = "float32" \/ ("float32" = "uint8" /\ k' = "int8")
          \/ ("float32" = "int8" /\ k' = "uint8"))
    /\ dict_item TYPEMAP (AStr "uint8") = dict_item TYPEMAP (AStr "int8")
    /\ dict_item TYPEMAP (AInt 1) = Ok (AStr "int8").
Proof.
  apply (C6_typemap_bijective_but_uint8 "float32").
  unfold kinds. set_solver.
Defined.

Lemma COLOR_DICT_absent (c : Z) :
  COLOR_DICT !! c = None <-> ~ (1 <= c <= 16)%Z.
Proof.
  split.
  - intros E Hc.
    assert (Hcases : c ∈ (Z.of_nat <$> seq 1 16)).
    { apply list_elem_of_fmap. exists (Z.to_nat c). split; [ lia | ].
      apply elem_of_seq. lia. }
    simpl in Hcases.
    repeat (apply elem_of_cons in Hcases as [-> | Hcases]);
      try (vm_compute in E; discriminate E).
    by apply elem_of_nil in Hcases.
  - intros Hc. unfold COLOR_DICT, dict. simpl.
    rewrite !lookup_insert_ne by lia. apply lookup_empty.
Qed.

Lemma band_tags_lookup (fobj : ColorDataset) (i : nat) :
  (i < RasterCount fobj)%nat ->
  band_tags fobj !! i
  = Some (dict_get COLOR_DICT (GetColorInterpretation fobj (i + 1)) "L").
Proof.
  intros Hi. unfold band_tags.
  rewrite list_lookup_fmap, lookup_seq_lt by exact Hi. reflexivity.
Qed.

Lemma first_seen_from_complete (seen l : list string) (x : string) :
  x ∈ l -> x ∉ seen -> x ∈ first_seen_from seen l.
Proof.
  revert seen. induction l as [ | y l IH ]; intros seen Hin Hseen.
  - by apply elem_of_nil in Hin.
  - simpl. case_bool_decide as Hy.
    + apply IH; [ | exact Hseen ].
      apply elem_of_cons in Hin as [-> | Hin]; [ contradiction | exact Hin ].
    + destruct (decide (x = y)) as [-> | Hne].
      * apply list_elem_of_here.
      * apply list_elem_of_further. apply IH.
        -- apply elem_of_cons in Hin as [-> | Hin]; [ contradiction | exact Hin ].
        -- intros Hx. apply elem_of_cons in Hx as [-> | Hx]; contradiction.
Qed.

(** C10. A band whose colour interpretation code is not a key of
    [COLOR_DICT] (the keys are the sixteen codes 1..16) gets the tag "L" in
    [_getColorMode], a total function, and "L" is among the tags the mode
    string is joined from; codes 12 and 14 both have the tag "Y". *)
Theorem C10_unknown_color_is_L (fobj : ColorDataset) (i : nat) :
  (i < RasterCount fobj)%nat ->
  COLOR_DICT !! GetColorInterpretation fobj (i + 1) = None ->
  band_tags fobj !! i = Some "L"
  /\ (forall c : Z, COLOR_DICT !! c = None <-> ~ (1 <= c <= 16)%Z)
  /\ size COLOR_DICT = 16%nat
  /\ dict_get COLOR_DICT 12%Z "L" = "Y"
  /\ dict_get COLOR_DICT 14%Z "L" = "Y"
  /\ "L" ∈ first_seen (band_tags fobj).
Proof.
  intros Hi Habs.
  assert (Htag : band_tags fobj !! i = Some "L").
  { rewrite band_tags_lookup by exact Hi. unfold dict_get. by rewrite Habs. }
  split; [ exact Htag | ].
  split; [ exact COLOR_DICT_absent | ].
  split; [ vm_compute; reflexivity | ].
  split; [ vm_compute; reflexivity | ].
  split; [ vm_compute; reflexivity | ].
  apply first_seen_from_complete; [ | apply not_elem_of_nil ].
  apply list_elem_of_lookup. by exists i.
Qed.

Lemma C10_unknown_color_witness :
  band_tags three_bands !! 1%nat = Some "L"
  /\ _getColorMode three_bands = "RLB".
Proof.
  split.
  - apply (C10_unknown_color_is_L three_bands 1); [ simpl; lia | ].
    apply COLOR_DICT_absent. simpl. lia.
  - vm_compute. reflexivity.
Defined.

End tables.

(* ===================================================================== *)
(** * _Projection and _Transformer                                        *)
(* ===================================================================== *)

Section transformer.
Import gdalfuncs.
Context `{OSR}.

Lemma call_NotImplementedError (self : _Transformer.t) (y x : R) (msg : string) :
  TransformPoint (_Transformer._tx self) x y = Raise (NotImplementedError msg) ->
  _Transformer.__call__ self y x = Raise ProjectionError.
Proof. intros E. unfold _Transformer.__call__. rewrite E. reflexivity. Qed.

Lemma call_other_error (self : _Transformer.t) (y x : R) (e : exn) :
  TransformPoint (_Transformer._tx self) x y = Raise e ->
  (forall msg, e <> NotImplementedError msg) ->
  _Transformer.__call__ self y x = Raise e.
Proof.
  intros E Hne. unfold _Transformer.__call__. rewrite E.
  destruct e; try reflexivity. by destruct (Hne msg).
Qed.

Lemma call_ok (self : _Transformer.t) (y x xt yt zt : R) :
  TransformPoint (_Transformer._tx self) x y = Ok (xt, yt, zt) ->
  _Transformer.__call__ self y x = Ok (yt, xt).
Proof. intros E. unfold _Transformer.__call__. rewrite E. reflexivity. Qed.

(** C7. With an OSR binding whose unusable transformations raise
    [NotImplementedError], a transformer built from two projections of which
    one has no reference (none was set, or the import of an invalid one left
    it empty) fails on every point with the projection error, the
    [AttributeError] of the source.  Any other exception of
    [TransformPoint], such as the [RuntimeError] by which GDAL reports a
    point it cannot transform, reaches the caller unchanged, and a
    [RuntimeError] is not the projection error. *)
Theorem C7_unset_reference_projection_error
    (sproj tproj : _Projection.t) (y x : R) :
  unusable_raises_NotImplementedError ->
  _Projection.getReference sproj = None
  \/ _Projection.getReference tproj = None ->
  _Transformer.__call__ (_Transformer.__init__ sproj tproj) y x
  = Raise ProjectionError
  /\ (forall (self : _Transformer.t) (y' x' : R) (e : exn),
        TransformPoint (_Transformer._tx self) x' y' = Raise e ->
        (forall msg, e <> NotImplementedError msg) ->
        _Transformer.__call__ self y' x' = Raise e)
  /\ (forall msg : string, RuntimeError msg <> ProjectionError).
Proof.
  intros Hosr Hunset. split; [ | split ].
  - destruct (Hosr (_Projection.getReference sproj)
                   (_Projection.getReference tproj) x y Hunset) as [msg E].
    by apply call_NotImplementedError with msg.
  - intros self y' x' e E Hne. by apply call_other_error.
  - discriminate.
Qed.

End transformer.

Lemma plane_osr_unusable (f : R -> R -> R * R) :
  @unusable_raises_NotImplementedError (plane_osr f).
Proof.
  intros s t x y [-> | ->]; simpl.
  - eexists. reflexivity.
  - destruct s; eexists; reflexivity.
Qed.

Lemma C7_unset_reference_witness :
  @gdalfuncs._Projection.__init__ identity_osr gdalfuncs._Projection.ArgOther
  = Ok unset_projection
  /\ @gdalfuncs._Transformer.__call__ identity_osr
       (gdalfuncs._Transformer.__init__ unset_projection unset_projection) 1 2
     = Raise ProjectionError.
Proof.
  split; [ reflexivity | ].
  refine (proj1 (@C7_unset_reference_projection_error identity_osr
                   unset_projection unset_projection 1%R 2%R _ _)).
  - apply plane_osr_unusable.
  - left. reflexivity.
Defined.

(* ===================================================================== *)
(** * The legacy reader of src/geogridbase.py                             *)
(* ===================================================================== *)

Section numpy_facts.
Import np.
Context {A : Type}.

Lemma mask_fill_cells (p : A -> bool) (v : A) (cells : list A) :
  mask_fill 1 (map p cells) cells v = map (fun c => if p c then v else c) cells.
Proof.
  induction cells as [ | c cells IH ]; [ reflexivity | ].
  simpl. rewrite drop_0, IH. destruct (p c); reflexivity.
Qed.

(** A mask of the shape of the array rewrites the cells it selects and no
    other, whatever the release. *)
Lemma setitem_mask_same_shape (rule : mask_rule) (eqb : A -> A -> bool)
    (a : ndarray A) (old new : A) :
  setitem_mask rule a (eq_scalar eqb a old) new
  = Ok (mk (shape a) (map (fun c => if eqb c old then new else c) (flat a))).
Proof.
  unfold setitem_mask, eq_scalar. simpl.
  rewrite firstn_all, bool_decide_eq_true_2 by reflexivity.
  rewrite drop_all. simpl. by rewrite mask_fill_cells.
Qed.

End numpy_facts.

Section grid.
Import np geogridbase.
Context `{GDAL}.

Lemma _cellsize_square (x y : R) :
  Rabs x = Rabs y -> _cellsize x y = Ok (Rabs x).
Proof. intros E. unfold _cellsize. by destruct (Req_dec_T (Rabs x) (Rabs y)). Qed.

Lemma _cellsize_diverging (x y : R) :
  Rabs x <> Rabs y -> _cellsize x y = Raise CellsizeMismatchError.
Proof. intros E. unfold _cellsize. by destruct (Req_dec_T (Rabs x) (Rabs y)). Qed.

(** C8. Reading a file that opens and whose geotransform has cell sizes of
    different magnitude in x and y raises the cellsize error (in the source
    a [NotImplementedError]); no grid object results, whatever the other
    arguments. *)
Theorem C8_diverging_cellsize_rejected
    (fname : string) (fobj : Dataset)
    (proj_params : option (gmap string string)) (dtype : option string) :
  gdal_Open fname = Some fobj ->
  Rabs (gt1 (GetGeoTransform fobj)) <> Rabs (gt5 (GetGeoTransform fobj)) ->
  _GdalGrid__init__ fname proj_params dtype = Raise CellsizeMismatchError
  /\ (forall grid : _GeoGridBase,
        _GdalGrid__init__ fname proj_params dtype <> Ok grid).
Proof.
  intros Hopen Hdiv.
  assert (E : _GdalGrid__init__ fname proj_params dtype
              = Raise CellsizeMismatchError).
  { unfold _GdalGrid__init__, _open. rewrite Hopen. simpl.
    by rewrite _cellsize_diverging. }
  split; [ exact E | ]. intros grid. rewrite E. discriminate.
Qed.

(** Where [np.squeeze] leaves the loaded data as it is, the setter does what
    its docstring says: the cells equal to the old nodata value get the new
    one, the others stay, and the new value is stored. *)
Lemma _setNodataValue_unsqueezed
    (self : _GeoGridBase) (a : ndarray num) (value new : num) (msg : string) :
  _data self = Some a ->
  squeeze0 a = Raise (ValueError msg) ->
  np_scalar (_dtype self) value = Ok new ->
  _setNodataValue self value
  = Ok (with_nodata_value
          (with_data self
             (Some (np.mk (shape a)
                       (map (fun c => if num_eqb c (_nodata_value self)
                                      then new else c) (flat a)))))
          new).
Proof.
  intros Hdata Hsq Hconv.
  unfold _setNodataValue. rewrite Hconv. simpl.
  unfold __getitem__, _squeeze. rewrite Hdata. simpl. rewrite Hdata, Hsq. simpl.
  unfold __setitem__. rewrite Hdata. simpl. rewrite Hdata.
  rewrite setitem_mask_same_shape. simpl. rewrite Hconv. reflexivity.
Qed.

(** The same, as the specification words it. *)
Lemma _setNodataValue_unsqueezed_rewrites
    (self : _GeoGridBase) (a : ndarray num) (value new : num) (msg : string) :
  _data self = Some a ->
  squeeze0 a = Raise (ValueError msg) ->
  np_scalar (_dtype self) value = Ok new ->
  exists after : _GeoGridBase,
    _setNodataValue self value = Ok after /\ nodata_rewritten self after new.
Proof.
  intros Hdata Hsq Hconv. eexists. split.
  - eapply _setNodataValue_unsqueezed; eassumption.
  - exists a. eexists. split; [ exact Hdata | ].
    split; [ reflexivity | ]. simpl.
    split; [ reflexivity | ].
    split; [ by rewrite length_map | ].
    split; [ | reflexivity ].
    intros i c Hi. by rewrite list_lookup_fmap, Hi.
Qed.

End grid.

Lemma Rabs_10_20 : Rabs 10 <> Rabs (-20).
Proof.
  unfold Rabs. destruct (Rcase_abs 10), (Rcase_abs (-20)); lra.
Qed.

Lemma Rabs_10_10 : Rabs 10 = Rabs (-10).
Proof.
  unfold Rabs. destruct (Rcase_abs 10), (Rcase_abs (-10)); lra.
Qed.

Lemma C8_diverging_cellsize_witness :
  @geogridbase._GdalGrid__init__ _ (single_file "stretched.tif" stretched_file)
    "stretched.tif" None None
  = Raise CellsizeMismatchError.
Proof.
  apply (@C8_diverging_cellsize_rejected _
           (single_file "stretched.tif" stretched_file)
           "stretched.tif" stretched_file None None).
  - reflexivity.
  - exact Rabs_10_20.
Defined.

Section one_row.
Import np geogridbase.

Lemma one_row_is_read (rule : mask_rule) :
  @_GdalGrid__init__ _ (one_row_gdal rule) "row.tif" None None
  = Ok (one_row_unloaded rule).
Proof.
  unfold _GdalGrid__init__, _open. simpl.
  rewrite _cellsize_square by exact Rabs_10_10.
  reflexivity.
Qed.

Lemma one_row_loads (rule : mask_rule) :
  __getitem__ (one_row_unloaded rule)
  = Ok (one_row_loaded rule, np.mk [3]%nat [7; 1; 2]%Z).
Proof. reflexivity. Qed.

(** C4, at a raster of one row.  The grid read from the file and loaded
    holds [[7, 1, 2]] with nodata value 7.  Setting the nodata value to 9
    does not give what the specification promises: the getter squeezes the
    leading axis away, so the mask has shape (3,), while the setter indexes
    the unsqueezed data of shape (1, 3).  A numpy that requires matching
    shapes raises [IndexError] and nothing is rewritten; an older numpy
    indexes with [mask.nonzero()], that is row 0, and overwrites the cells
    1 and 2 as well. *)
Theorem C4_setNodataValue_one_row :
  _setNodataValue (one_row_loaded MatchRequired) 9%Z
  = Raise (IndexError "boolean index did not match indexed array")
  /\ _setNodataValue (one_row_loaded NonzeroFallback) 9%Z
     = Ok (with_nodata_value
             (with_data (one_row_loaded NonzeroFallback)
                (Some (np.mk [1; 3]%nat [9; 9; 9]%Z)))
             9%Z)
  /\ (forall (rule : mask_rule) (after : _GeoGridBase),
        _setNodataValue (one_row_loaded rule) 9%Z = Ok after ->
        ~ nodata_rewritten (one_row_loaded rule) after 9%Z).
Proof.
  split; [ reflexivity | ]. split; [ reflexivity | ].
  intros [] after E.
  - discriminate E.
  - injection E as <-. intros (a & a' & Ha & Ha' & _ & _ & Hcells & _).
    injection Ha as <-. injection Ha' as <-.
    specialize (Hcells 1%nat 1%Z eq_refl). discriminate Hcells.
Qed.

(** A single-band [_DummyGrid] of two rows and two columns meets the same
    mismatch: its data has shape (1, 2, 2), the mask shape (2, 2). *)
Lemma dummy_grid_setNodataValue_raises (rule : mask_rule) :
  exists msg : string,
    _setNodataValue (dummy_2x2 rule) 9%Z = Raise (IndexError msg).
Proof. destruct rule; eexists; reflexivity. Qed.

End one_row.

(* ===================================================================== *)
(** * The initializer [array] of geoarray.py                              *)
(* ===================================================================== *)

Section array_facts.
Import geoarray.

Lemma py_or_falsy (a b : pyval) : truthy a = false -> py_or a b = b.
Proof. intros E. unfold py_or. by rewrite E. Qed.

Lemma py_or_truthy (a b : pyval) : truthy a = true -> py_or a b = a.
Proof. intros E. unfold py_or. by rewrite E. Qed.

(** [v or 0] is the number [v]. *)
Lemma py_or_zero_number (v : pyval) :
  is_number v -> num_value (py_or v (PInt 0)) = num_value v.
Proof.
  intros Hv. unfold py_or.
  destruct v as [ | | n | x | | | | ]; try (by destruct Hv); simpl.
  - destruct (Z.eqb_spec n 0) as [-> | ]; reflexivity.
  - destruct (Req_dec_T x 0) as [-> | ]; reflexivity.
Qed.

Lemma corner_truthy (v : pyval) : v ∈ corners -> truthy v = true.
Proof.
  unfold corners. intros Hv.
  repeat (apply elem_of_cons in Hv as [-> | Hv]); try reflexivity.
  by apply elem_of_nil in Hv.
Qed.

(** C9. When the data handed to [array] is a GeoArray, a keyword argument
    among dtype, yorigin, xorigin, origin, fill_value, cellsize, proj and
    mode whose value is false in Python's sense (0, 0.0, None, an empty
    mapping, ...) is replaced by the attribute of that GeoArray: the
    constructor receives the grid's dtype, origin, fill_value, cellsize,
    proj and mode themselves, and for yorigin and xorigin the grid's number
    (the very object when it is not zero, and 0 when it is). *)
Theorem C9_falsy_keyword_inherits (g : GeoArray) (kw : kwargs) :
  well_formed g ->
  let r := array (IsGeoArray g) kw in
  (truthy (kw_dtype kw) = false -> na_dtype (data r) = ga_dtype g)
  /\ (truthy (kw_yorigin kw) = false ->
        num_value (yorigin r) = num_value (ga_yorigin g)
        /\ (truthy (ga_yorigin g) = true -> yorigin r = ga_yorigin g))
  /\ (truthy (kw_xorigin kw) = false ->
        num_value (xorigin r) = num_value (ga_xorigin g)
        /\ (truthy (ga_xorigin g) = true -> xorigin r = ga_xorigin g))
  /\ (truthy (kw_origin kw) = false -> origin r = ga_origin g)
  /\ (truthy (kw_fill_value kw) = false -> fill_value r = ga_fill_value g)
  /\ (truthy (kw_cellsize kw) = false -> cellsize r = ga_cellsize g)
  /\ (truthy (kw_proj kw) = false -> proj r = ga_proj g)
  /\ (truthy (kw_mode kw) = false -> mode r = ga_mode g).
Proof.
  intros (Hy & Hx & Ho & dy & dx & Hc) r. subst r. simpl.
  refine (conj _ (conj _ (conj _ (conj _ (conj _ (conj _ (conj _ _)))))));
    intros E; rewrite (py_or_falsy _ _ E); try reflexivity.
  - split; [ by apply py_or_zero_number | apply py_or_truthy ].
  - split; [ by apply py_or_zero_number | apply py_or_truthy ].
  - apply py_or_truthy. by apply corner_truthy.
  - rewrite Hc. reflexivity.
Qed.

Lemma example_grid_well_formed : well_formed example_grid.
Proof.
  unfold well_formed, example_grid, corners. simpl.
  split; [ exact I | ]. split; [ exact I | ].
  split; [ apply list_elem_of_here | ].
  exists (-1)%R, 1%R. reflexivity.
Defined.

Lemma C9_falsy_keyword_witness :
  truthy (kw_yorigin yorigin_zero) = false
  /\ yorigin (array (IsGeoArray example_grid) yorigin_zero) = PInt 10.
Proof.
  split; [ reflexivity | ].
  destruct (C9_falsy_keyword_inherits example_grid yorigin_zero
              example_grid_well_formed) as (_ & Hy & _).
  destruct (Hy eq_refl) as [_ Hsame].
  exact (Hsame eq_refl).
Defined.

End array_facts.

(* ===================================================================== *)
(** * Parameter mappings through _Projection                              *)
(* ===================================================================== *)

Section splitting.
Import gdalfuncs gdalfuncs._Projection.

Lemma append_nil (s : string) : String.append EmptyString s = s.
Proof. reflexivity. Qed.

Lemma append_cons (c : ascii) (s1 s2 : string) :
  String.append (String c s1) s2 = String c (String.append s1 s2).
Proof. reflexivity. Qed.

Lemma append_assoc (s1 s2 s3 : string) :
  String.append (String.append s1 s2) s3 = String.append s1 (String.append s2 s3).
Proof.
  induction s1 as [ | c s1 IH ]; [ reflexivity | ].
  by rewrite !append_cons, IH.
Qed.

Lemma re_split_not_nil (sep : ascii -> bool) (s : string) : re_split sep s <> [].
Proof.
  destruct s as [ | c s ]; simpl; [ discriminate | ].
  destruct (sep c); [ discriminate | ].
  destruct (re_split sep s); discriminate.
Qed.

(** A piece ends at the first separator. *)
Lemma re_split_piece (tok : string) (c : ascii) (rest : string) :
  no_sep tok = true -> is_sep c = true ->
  re_split is_sep (String.append tok (String c rest))
  = tok :: re_split is_sep rest.
Proof.
  intros Htok Hc. induction tok as [ | a tok IH ].
  - rewrite append_nil. simpl. by rewrite Hc.
  - simpl in Htok. apply andb_true_iff in Htok as [Ha Htok].
    apply negb_true_iff in Ha. rewrite append_cons. simpl.
    rewrite Ha, (IH Htok). reflexivity.
Qed.

Lemma re_split_last (tok : string) :
  no_sep tok = true -> re_split is_sep tok = [tok].
Proof.
  induction tok as [ | a tok IH ]; simpl; [ reflexivity | ].
  intros Htok. apply andb_true_iff in Htok as [Ha Htok].
  apply negb_true_iff in Ha. rewrite Ha, (IH Htok). reflexivity.
Qed.

Lemma tokens_sep (c : ascii) (rest : string) :
  is_sep c = true -> tokens (String c rest) = tokens rest.
Proof. intros Hc. unfold tokens. simpl. rewrite Hc. reflexivity. Qed.

Lemma tokens_piece (tok : string) (c : ascii) (rest : string) :
  clean_token tok = true -> is_sep c = true ->
  tokens (String.append tok (String c rest)) = tok :: tokens rest.
Proof.
  intros Htok Hc. apply andb_true_iff in Htok as [Hne Htok].
  unfold tokens. rewrite re_split_piece by assumption.
  rewrite filter_cons_True by exact Hne. reflexivity.
Qed.

Lemma tokens_last (tok : string) :
  clean_token tok = true -> tokens tok = [tok].
Proof.
  intros Htok. apply andb_true_iff in Htok as [Hne Htok].
  unfold tokens. rewrite re_split_last by assumption.
  rewrite filter_cons_True by exact Hne. reflexivity.
Qed.

(** Every token is free of separators and not empty. *)
Lemma re_split_no_sep (s piece : string) :
  piece ∈ re_split is_sep s -> no_sep piece = true.
Proof.
  revert piece. induction s as [ | c s IH ]; simpl; intros piece Hin.
  - apply list_elem_of_singleton in Hin as ->. reflexivity.
  - destruct (is_sep c) eqn:Hc.
    + apply elem_of_cons in Hin as [-> | Hin]; [ reflexivity | by apply IH ].
    + destruct (re_split is_sep s) as [ | p ps ] eqn:Hs.
      * apply list_elem_of_singleton in Hin as ->. simpl. by rewrite Hc.
      * apply elem_of_cons in Hin as [-> | Hin].
        -- simpl. rewrite Hc. simpl. apply IH. apply list_elem_of_here.
        -- apply IH. by apply list_elem_of_further.
Qed.

Lemma tokens_clean (s tok : string) :
  tok ∈ tokens s -> clean_token tok = true.
Proof.
  unfold tokens. intros Hin. apply list_elem_of_filter in Hin as [Hne Hin].
  unfold clean_token. rewrite Hne. simpl. by apply re_split_no_sep with s.
Qed.

Lemma append_nil_r (s : string) : String.append s EmptyString = s.
Proof.
  induction s as [ | c s IH ]; [ reflexivity | ].
  by rewrite append_cons, IH.
Qed.

(** Splitting a text that holds a separator splits the two parts. *)
Lemma re_split_app_sep (s1 : string) (c : ascii) (s2 : string) :
  is_sep c = true ->
  re_split is_sep (String.append s1 (String c s2))
  = re_split is_sep s1 ++ re_split is_sep s2.
Proof.
  intros Hc. induction s1 as [ | a s1 IH ].
  - rewrite append_nil. simpl. by rewrite Hc.
  - rewrite append_cons. simpl. rewrite IH.
    destruct (is_sep a); [ reflexivity | ].
    pose proof (re_split_not_nil is_sep s1) as Hne.
    destruct (re_split is_sep s1) as [ | piece pieces ];
      [ by destruct Hne | reflexivity ].
Qed.

Lemma tokens_app_sep (s1 : string) (c : ascii) (s2 : string) :
  is_sep c = true ->
  tokens (String.append s1 (String c s2)) = tokens s1 ++ tokens s2.
Proof.
  intros Hc. unfold tokens. rewrite re_split_app_sep by exact Hc.
  apply filter_app.
Qed.

End splitting.

Section dict_facts.
Context `{Countable K} {V : Type}.
Implicit Types (pairs : list (K * V)) (d : gmap K V).

Let ins := fun d (kv : K * V) => <[kv.1 := kv.2]> d.

Lemma fold_ins_lookup_inv pairs d (k : K) (v : V) :
  fold_left ins pairs d !! k = Some v -> (k, v) ∈ pairs \/ d !! k = Some v.
Proof.
  revert d. induction pairs as [ | [k' v'] pairs IH ]; intros d; simpl.
  - by right.
  - intros Hl. destruct (IH _ Hl) as [Hin | Hd].
    + left. by apply list_elem_of_further.
    + unfold ins in Hd. simpl in Hd.
      destruct (decide (k' = k)) as [-> | Hne].
      * rewrite lookup_insert_eq in Hd. injection Hd as ->.
        left. apply list_elem_of_here.
      * rewrite lookup_insert_ne in Hd by exact Hne. by right.
Qed.

Lemma fold_ins_lookup_fresh pairs d (k : K) :
  k ∉ pairs.*1 -> fold_left ins pairs d !! k = d !! k.
Proof.
  revert d. induction pairs as [ | [k' v'] pairs IH ]; intros d Hk; simpl.
  - reflexivity.
  - simpl in Hk. apply not_elem_of_cons in Hk as [Hne Hk].
    rewrite IH by exact Hk. unfold ins. simpl.
    by rewrite lookup_insert_ne.
Qed.

Lemma fold_ins_lookup pairs d (k : K) (v : V) :
  NoDup pairs.*1 -> (k, v) ∈ pairs -> fold_left ins pairs d !! k = Some v.
Proof.
  revert d. induction pairs as [ | [k' v'] pairs IH ]; intros d Hnd Hin.
  - by apply elem_of_nil in Hin.
  - simpl in Hnd. apply NoDup_cons in Hnd as [Hfresh Hnd].
    apply elem_of_cons in Hin as [E | Hin]; simpl.
    + injection E as -> ->.
      rewrite fold_ins_lookup_fresh by exact Hfresh.
      unfold ins. simpl. apply lookup_insert_eq.
    + by apply IH.
Qed.

(** [dict] of pairs with distinct keys holds exactly those pairs. *)
Lemma dict_lookup pairs (k : K) (v : V) :
  NoDup pairs.*1 -> dict pairs !! k = Some v <-> (k, v) ∈ pairs.
Proof.
  intros Hnd. unfold dict. split.
  - intros Hl. destruct (fold_ins_lookup_inv _ _ _ _ Hl) as [Hin | He];
      [ exact Hin | by rewrite lookup_empty in He ].
  - by apply fold_ins_lookup.
Qed.

Lemma dict_lookup_elem pairs (k : K) (v : V) :
  dict pairs !! k = Some v -> (k, v) ∈ pairs.
Proof.
  unfold dict. intros Hl.
  destruct (fold_ins_lookup_inv _ _ _ _ Hl) as [Hin | He];
    [ exact Hin | by rewrite lookup_empty in He ].
Qed.

End dict_facts.

Section interleaved.
Context {A B : Type} (f g : A -> B).

Lemma evens_interleaved (l : list A) :
  evens (concat (map (fun x => [f x; g x]) l)) = map f l.
Proof. induction l as [ | x l IH ]; simpl; [ reflexivity | by rewrite IH ]. Qed.

Lemma odds_interleaved (l : list A) :
  odds (concat (map (fun x => [f x; g x]) l)) = map g l.
Proof.
  unfold odds. induction l as [ | x l IH ]; simpl; [ reflexivity | ].
  f_equal. destruct l as [ | y l ]; [ reflexivity | exact IH ].
Qed.

Lemma zip_map_map (l : list A) :
  zip (map f l) (map g l) = map (fun x => (f x, g x)) l.
Proof. induction l as [ | x l IH ]; simpl; [ reflexivity | by rewrite IH ]. Qed.

Lemma evens_cons (a : B) (l : list B) : evens (a :: l) = a :: odds l.
Proof. destruct l; reflexivity. Qed.

Lemma elem_of_evens_odds (l : list B) :
  (forall x, x ∈ evens l -> x ∈ l) /\ (forall x, x ∈ odds l -> x ∈ l).
Proof.
  induction l as [ | a l [IHe IHo] ].
  - split; intros x Hx; exact Hx.
  - split; intros x Hx.
    + rewrite evens_cons in Hx. apply elem_of_cons in Hx as [-> | Hx].
      * apply list_elem_of_here.
      * apply list_elem_of_further. by apply IHo.
    + apply list_elem_of_further. by apply IHe.
Qed.

Lemma evens_interleaved_app (l : list A) (t : list B) :
  evens (concat (map (fun x => [f x; g x]) l) ++ t) = map f l ++ evens t.
Proof. induction l as [ | x l IH ]; simpl; [ reflexivity | by rewrite IH ]. Qed.

Lemma odds_interleaved_app (l : list A) (t : list B) :
  odds (concat (map (fun x => [f x; g x]) l) ++ t) = map g l ++ odds t.
Proof.
  induction l as [ | x l IH ]; [ reflexivity | ].
  transitivity (g x :: odds (concat (map (fun x => [f x; g x]) l) ++ t)).
  - unfold odds. simpl. f_equal.
    by destruct (concat (map (fun x => [f x; g x]) l) ++ t).
  - by rewrite IH.
Qed.

Lemma zip_app_short {C D : Type} (l1 t : list C) (l2 : list D) :
  length l1 = length l2 -> zip (l1 ++ t) l2 = zip l1 l2.
Proof.
  revert l2. induction l1 as [ | x l1 IH ]; intros [ | y l2 ] Hlen;
    simpl in *; try discriminate.
  - by destruct t.
  - f_equal. apply IH. by injection Hlen.
Qed.

End interleaved.

Section params.
Import gdalfuncs gdalfuncs._Projection.

Lemma sep_plus : is_sep "+" = true.
Proof. reflexivity. Qed.
Lemma sep_equals : is_sep "=" = true.
Proof. reflexivity. Qed.
Lemma sep_space : is_sep " " = true.
Proof. reflexivity. Qed.

(** The tokens of the joined items are the keys and values in turn. *)
Lemma tokens_joined_items (items : list (atom * atom)) :
  Forall clean_pair items ->
  tokens (str_join " +"
            (map (fun pp => str_join "=" [str pp.1; str pp.2]) items))
  = concat (map (fun pp => [str pp.1; str pp.2]) items).
Proof.
  induction 1 as [ | pp items [Hk Hv] _ IH ]; [ reflexivity | ].
  destruct items as [ | pp' items ].
  - change (tokens (String.append (str pp.1) (String "=" (str pp.2)))
            = [str pp.1; str pp.2]).
    rewrite tokens_piece by (exact Hk || exact sep_equals).
    by rewrite tokens_last.
  - set (body := str_join " +"
                   (map (fun pp => str_join "=" [str pp.1; str pp.2])
                        (pp' :: items))) in *.
    change (tokens (String.append
                      (String.append (str pp.1) (String "=" (str pp.2)))
                      (String " " (String "+" body)))
            = str pp.1 :: str pp.2
                :: concat (map (fun pp => [str pp.1; str pp.2]) (pp' :: items))).
    rewrite append_assoc, append_cons.
    rewrite tokens_piece by (exact Hk || exact sep_equals).
    rewrite tokens_piece by (exact Hv || exact sep_space).
    rewrite tokens_sep by exact sep_plus.
    by rewrite IH.
Qed.

Lemma tokens_params_text (items : list (atom * atom)) :
  Forall clean_pair items ->
  tokens (params_text items) = concat (map (fun pp => [str pp.1; str pp.2]) items).
Proof.
  intros Hclean. unfold params_text.
  change (String.append "+" ?s) with (String "+" s).
  rewrite tokens_sep by exact sep_plus.
  by apply tokens_joined_items.
Qed.

Context `{OSR}.

Lemma tokens_exported (m : list (atom * atom)) (tail : string) :
  Forall clean_pair m ->
  trailing_flag tail ->
  exists t : list string,
    tokens (String.append (params_text m) tail)
    = concat (map (fun pp => [str pp.1; str pp.2]) m) ++ t
    /\ (length t <= 1)%nat.
Proof.
  intros Hclean [-> | (c & rest & -> & Hc & Hlen)].
  - exists []. rewrite append_nil_r, app_nil_r.
    split; [ by apply tokens_params_text | simpl; lia ].
  - exists (tokens rest). rewrite tokens_app_sep by exact Hc.
    by rewrite tokens_params_text.
Qed.

Lemma dict_of_tokens (m : list (atom * atom)) (t : list string) :
  (length t <= 1)%nat ->
  dict (zip (evens (concat (map (fun pp => [str pp.1; str pp.2]) m) ++ t))
            (odds (concat (map (fun pp => [str pp.1; str pp.2]) m) ++ t)))
  = dict (map str_pair m).
Proof.
  intros Hlen.
  rewrite evens_interleaved_app, odds_interleaved_app.
  assert (Ht : odds t = []) by (by destruct t as [ | x [ | y t ] ]; simpl in *; try lia).
  rewrite Ht, app_nil_r.
  rewrite zip_app_short by (by rewrite !length_map).
  by rewrite zip_map_map.
Qed.

Lemma dict_permutation (l1 l2 : list (string * string)) :
  l1 ≡ₚ l2 -> NoDup l1.*1 -> dict l1 = dict l2.
Proof.
  intros Hperm Hnd.
  assert (Hnd2 : NoDup l2.*1) by (by rewrite <- Hperm).
  apply map_eq. intros k. apply option_eq. intros v.
  rewrite !dict_lookup by assumption. by rewrite Hperm.
Qed.

(** With a library that keeps the parameters of [m], the round trip gives
    the dictionary of the items as [str] writes them. *)
Lemma params_roundtrip_kept (m : list (atom * atom)) :
  keeps_params m ->
  Forall clean_pair m ->
  NoDup (map str_pair m).*1 ->
  params_roundtrip m = Ok (dict (map str_pair m)).
Proof.
  intros (srs & m' & tail & Himp & Hperm & Hexp & Htail) Hclean Hnd.
  assert (Hclean' : Forall clean_pair m') by (by rewrite Hperm).
  destruct (tokens_exported m' tail Hclean' Htail) as (t & Htok & Hlen).
  unfold params_roundtrip, fromParams, getParams, __init__, getProj4.
  rewrite Himp. simpl. rewrite Hexp. simpl.
  rewrite Htok. cbv zeta. f_equal.
  rewrite (dict_of_tokens m' t Hlen).
  apply dict_permutation; [ by rewrite Hperm | by rewrite Hperm ].
Qed.

(** Whatever the library, the values that [getProj4] returns are tokens. *)
Lemma getProj4_value_clean (self : _Projection.t) (d : gmap string string)
    (k v : string) :
  getProj4 self = Ok d -> d !! k = Some v -> clean_token v = true.
Proof.
  unfold getProj4. destruct (ExportToProj4 (_srs self)) as [ tmp | e ];
    simpl; [ | discriminate ].
  intros E Hl. injection E as <-.
  apply dict_lookup_elem, elem_of_zip_r in Hl.
  apply (proj2 (elem_of_evens_odds _)) in Hl.
  by apply tokens_clean with tmp.
Qed.

Lemma clean_atoms_str (m : list (atom * atom)) :
  Forall (fun pp => clean_atom pp.1 /\ clean_atom pp.2) m ->
  Forall clean_pair m.
Proof.
  intros Hm. eapply Forall_impl; [ exact Hm | ].
  intros [[k | n] [v | n']] [Hk Hv]; simpl in *; try contradiction.
  by split.
Qed.

Lemma clean_keys_NoDup (m : list (atom * atom)) :
  Forall (fun pp => clean_atom pp.1 /\ clean_atom pp.2) m ->
  NoDup m.*1 -> NoDup (map str_pair m).*1.
Proof.
  induction 1 as [ | [a b] m [Ha _] Hm IH ]; simpl; intros Hnd.
  - constructor.
  - apply NoDup_cons in Hnd as [Hfresh Hnd].
    apply NoDup_cons. split; [ | by apply IH ].
    intros Hin. apply Hfresh.
    apply list_elem_of_fmap in Hin as ([k v] & Ek & Hin).
    apply list_elem_of_fmap in Hin as ([a' b'] & Ekv & Hin).
    apply list_elem_of_fmap. exists (a', b'). split; [ | exact Hin ].
    rewrite Forall_forall in Hm. destruct (Hm _ Hin) as [Ha' _].
    injection Ekv as -> ->. simpl in *.
    destruct a as [ s | ], a' as [ s' | ]; try contradiction.
    simpl in Ek. by rewrite Ek.
Qed.

(** C5, amended.  For a mapping whose keys and values are non-empty strings
    free of "+", "=" and space, and a reference library that keeps the
    parameters of the mapping (it imports the text written for the mapping
    and exports the text of the same items, in any order, possibly followed
    by a flag such as "+no_defs"), [getParams] after [fromParams] returns a
    mapping with exactly the key/value pairs of the mapping; the order of
    its items does not matter. *)
Theorem C5_params_roundtrip_clean (m : list (atom * atom)) :
  keeps_params m ->
  NoDup m.*1 ->
  Forall (fun pp => clean_atom pp.1 /\ clean_atom pp.2) m ->
  exists d : gmap string string,
    params_roundtrip m = Ok d
    /\ same_pairs m d
    /\ (forall m' : list (atom * atom),
          m' ≡ₚ m -> keeps_params m' -> params_roundtrip m' = Ok d).
Proof.
  intros Hosr Hnd Hm.
  pose proof (clean_atoms_str m Hm) as Hclean.
  pose proof (clean_keys_NoDup m Hm Hnd) as Hnd'.
  exists (dict (map str_pair m)).
  split; [ by apply params_roundtrip_kept | ].
  split.
  - intros a b. split.
    + intros Hin. rewrite Forall_forall in Hm.
      destruct (Hm _ Hin) as [Ha Hb]. simpl in Ha, Hb.
      destruct a as [ k | ], b as [ v | ]; try contradiction.
      exists k, v. split; [ reflexivity | ]. split; [ reflexivity | ].
      apply dict_lookup; [ exact Hnd' | ].
      apply list_elem_of_fmap. exists (AStr k, AStr v). by split.
    + intros (k & v & -> & -> & Hl).
      apply dict_lookup in Hl; [ | exact Hnd' ].
      apply list_elem_of_fmap in Hl as ([a b] & E & Hin).
      rewrite Forall_forall in Hm. destruct (Hm _ Hin) as [Ha Hb].
      simpl in Ha, Hb.
      destruct a as [ k' | ], b as [ v' | ]; try contradiction.
      injection E as -> ->. exact Hin.
  - intros m' Hperm Hosr'.
    assert (Hm' : Forall (fun pp => clean_atom pp.1 /\ clean_atom pp.2) m')
      by (by rewrite Hperm).
    assert (Hnd2 : NoDup m'.*1) by (by rewrite Hperm).
    pose proof (clean_atoms_str m' Hm') as Hclean'.
    pose proof (clean_keys_NoDup m' Hm' Hnd2) as Hnd2'.
    rewrite params_roundtrip_kept by assumption. f_equal.
    apply dict_permutation; [ by rewrite Hperm | exact Hnd2' ].
Qed.

End params.

Lemma no_defs_osr_keeps_longlat : @keeps_params no_defs_osr longlat_params.
Proof.
  exists (gdalfuncs._Projection.params_text longlat_params), longlat_params,
         " +no_defs ".
  split; [ reflexivity | ]. split; [ reflexivity | ].
  split; [ reflexivity | ].
  right. exists " "%char, "+no_defs ".
  split; [ reflexivity | ]. split; [ reflexivity | ].
  vm_compute. lia.
Qed.

Lemma C5_params_roundtrip_witness :
  exists d : gmap string string,
    @params_roundtrip no_defs_osr longlat_params = Ok d
    /\ same_pairs longlat_params d
    /\ (forall m' : list (atom * atom),
          m' ≡ₚ longlat_params -> @keeps_params no_defs_osr m' ->
          @params_roundtrip no_defs_osr m' = Ok d).
Proof.
  apply (@C5_params_roundtrip_clean no_defs_osr longlat_params).
  - exact no_defs_osr_keeps_longlat.
  - unfold longlat_params. simpl.
    apply NoDup_cons. split; [ | apply NoDup_singleton ].
    intros Hin. apply list_elem_of_singleton in Hin. discriminate Hin.
  - unfold longlat_params. repeat constructor.
Defined.

(** C5 as the specification states it fails at the mapping
    [{"title": "WGS 84"}]: no reference library makes [getParams] return
    the value "WGS 84", because [getProj4] splits at the space. *)
Lemma C5_params_roundtrip_counterexample :
  ~ (exists (osr : gdalfuncs.OSR) (d : gmap string string),
       @params_roundtrip osr title_params = Ok d /\ same_pairs title_params d).
Proof.
  intros (osr & d & Hrt & Hsame).
  destruct (proj1 (Hsame (AStr "title") (AStr "WGS 84")))
    as (k & v & Ek & Ev & Hl).
  { unfold title_params. apply list_elem_of_here. }
  injection Ek as <-. injection Ev as <-.
  unfold params_roundtrip, fromParams, getParams in Hrt.
  destruct (gdalfuncs._Projection.__init__ _) as [ p | e ];
    simpl in Hrt; [ | discriminate ].
  pose proof (getProj4_value_clean p d _ _ Hrt Hl) as Hclean.
  discriminate Hclean.
Qed.

(** With the library that echoes the text, the round trip of that mapping
    is [{"title": "WGS"}]. *)
Lemma title_params_roundtrip :
  @params_roundtrip identity_osr title_params = Ok {[ "title" := "WGS" ]}.
Proof. reflexivity. Qed.

(* ===================================================================== *)
(** * The footprint planner [_warp]                                       *)
(* ===================================================================== *)

Lemma bind_Ok {A B : Type} (a : A) (f : A -> result B) : (Ok a ≫= f) = f a.
Proof. reflexivity. Qed.

Section float_facts.
Local Open Scope R_scope.

Lemma fdiv_ok (a b : R) : b <> 0 -> fdiv a b = Ok (a / b).
Proof. intros Hb. unfold fdiv. by destruct (Req_dec_T b 0). Qed.

Lemma Int_part_eval (r : R) (z : Z) :
  IZR z <= r < IZR z + 1 -> Int_part r = z.
Proof. intros [Hlo Hhi]. symmetry. apply Int_part_spec. lra. Qed.

Lemma Int_part_nonneg (r : R) : 0 <= r -> (0 <= Int_part r)%Z.
Proof.
  intros Hr. destruct (base_Int_part r) as [_ Hgt].
  apply Z.lt_succ_r, lt_IZR. rewrite succ_IZR. simpl. lra.
Qed.

Lemma py_round_nonneg (x : R) : 0 <= x -> py_round x = IZR (Int_part (x + / 2)).
Proof. intros Hx. unfold py_round. by destruct (Rle_dec 0 x). Qed.

Lemma py_round_neg (x : R) : x < 0 -> py_round x = - IZR (Int_part (- x + / 2)).
Proof. intros Hx. unfold py_round. destruct (Rle_dec 0 x); [ lra | reflexivity ]. Qed.

(** Rounding halves away from zero commutes with the absolute value. *)
Lemma Rabs_py_round (x : R) : Rabs (py_round x) = py_round (Rabs x).
Proof.
  destruct (Rle_lt_dec 0 x) as [Hx | Hx].
  - rewrite (Rabs_right x) by lra. rewrite py_round_nonneg by exact Hx.
    apply Rabs_right, Rle_ge, IZR_le, Int_part_nonneg. lra.
  - rewrite (Rabs_left x) by exact Hx.
    rewrite py_round_neg by exact Hx. rewrite py_round_nonneg by lra.
    rewrite Rabs_Ropp.
    apply Rabs_right, Rle_ge, IZR_le, Int_part_nonneg. lra.
Qed.

Lemma py_int_IZR_nonneg (z : Z) : (0 <= z)%Z -> py_int (IZR z) = z.
Proof.
  intros Hz. unfold py_int. destruct (Rle_dec 0 (IZR z)) as [ _ | Hn ].
  - apply Int_part_eval. lra.
  - destruct Hn. by apply IZR_le.
Qed.

Lemma sqrt_eval (x r : R) : 0 <= r -> r * r = x -> sqrt x = r.
Proof. intros Hr <-. by apply sqrt_square. Qed.

Lemma sqrt_sum_squares_nonzero (a b : R) :
  a <> 0 \/ b <> 0 -> sqrt (a ^ 2 + b ^ 2) <> 0.
Proof.
  intros Hab Hs. apply sqrt_eq_0 in Hs; [ | nra ].
  destruct Hab as [Ha | Hb]; nra.
Qed.

Lemma IZR_square (z : Z) : IZR (z ^ 2) = IZR z ^ 2.
Proof. by rewrite pow_IZR. Qed.

Lemma IZR_sum_squares (a b : Z) : IZR (a ^ 2 + b ^ 2) = IZR a ^ 2 + IZR b ^ 2.
Proof. by rewrite plus_IZR, !IZR_square. Qed.

Lemma Rmax_cases (x y : R) :
  (x <= y /\ Rmax x y = y) \/ (y <= x /\ Rmax x y = x).
Proof.
  destruct (Rle_lt_dec x y) as [Hxy | Hxy];
    [ left; split; [ lra | by apply Rmax_right ]
    | right; split; [ lra | apply Rmax_left; lra ] ].
Qed.

Lemma Rmin_cases (x y : R) :
  (x <= y /\ Rmin x y = x) \/ (y <= x /\ Rmin x y = y).
Proof.
  destruct (Rle_lt_dec x y) as [Hxy | Hxy];
    [ left; split; [ lra | by apply Rmin_left ]
    | right; split; [ lra | apply Rmin_right; lra ] ].
Qed.

End float_facts.

Ltac minmax_case_on t :=
  let E := fresh "E" in
  destruct t as [[? E] | [? E]]; rewrite !E in *; clear E.

Ltac minmax_cases :=
  repeat match goal with
         | |- context [Rmax ?x ?y] => minmax_case_on (Rmax_cases x y)
         | |- context [Rmin ?x ?y] => minmax_case_on (Rmin_cases x y)
         | _ : context [Rmax ?x ?y] |- _ => minmax_case_on (Rmax_cases x y)
         | _ : context [Rmin ?x ?y] |- _ => minmax_case_on (Rmin_cases x y)
         end.

Section four_corners.
Local Open Scope R_scope.

Lemma max4_maximum (a b c d : R) : max4 a b c d = maximum a [b; c; d].
Proof. unfold max4, maximum. cbn [fold_right]. minmax_cases; lra. Qed.

Lemma min4_minimum (a b c d : R) : min4 a b c d = minimum a [b; c; d].
Proof. unfold min4, minimum. cbn [fold_right]. minmax_cases; lra. Qed.

End four_corners.

Section planner.
Import gdalfuncs.
Context `{OSR}.
Local Open Scope R_scope.

Variables (grid : GeoArray) (p : _Projection.arg) (tproj : _Projection.t).
Variables (uly ulx lry lrx ury urx lly llx : R).

Local Abbreviation corners_ok :=
  (corners_transform grid p tproj uly ulx lry lrx ury urx lly llx).
Local Abbreviation diagonals_ok := (diagonals_nonzero grid ury urx lly llx).
Local Abbreviation sdiag := (sqrt (IZR (ga_nrows grid ^ 2 + ga_ncols grid ^ 2))).
Local Abbreviation tdiag := (sqrt ((lly - ury) ^ 2 + (llx - urx) ^ 2)).
Local Abbreviation tcellsize := (tdiag / sdiag).

Lemma sdiag_nonzero : diagonals_ok -> sdiag <> 0.
Proof.
  intros [Hs _]. rewrite IZR_sum_squares.
  apply sqrt_sum_squares_nonzero.
  destruct Hs as [Hr | Hc]; [ left | right ];
    (intros E; apply eq_IZR in E; contradiction).
Qed.

Lemma tdiag_nonzero : diagonals_ok -> tdiag <> 0.
Proof.
  intros [_ Ht]. apply sqrt_sum_squares_nonzero.
  destruct Ht as [Hy | Hx]; [ left | right ]; lra.
Qed.

Lemma tcellsize_nonzero : diagonals_ok -> tcellsize <> 0.
Proof.
  intros Hd. unfold Rdiv.
  apply Rmult_integral_contrapositive_currified;
    [ by apply tdiag_nonzero | apply Rinv_neq_0_compat; by apply sdiag_nonzero ].
Qed.

(** What [_warp] returns when the corners transform and the diagonals have
    a length. *)
Lemma _warp_returns :
  corners_ok -> diagonals_ok ->
  _warp grid p
  = Ok {| shape :=
            (ga_nbands grid,
             py_int (Rabs (py_round ((Rmax ury lry - Rmin uly lly) / tcellsize))),
             py_int (Rabs (py_round ((Rmax urx lrx - Rmin ulx llx) / tcellsize))));
          value := ga_fill_value grid;
          fill_value := ga_fill_value grid;
          dtype := ga_dtype grid;
          yorigin := max4 uly ury lly lry;
          xorigin := min4 ulx urx llx lrx;
          origin := "ul";
          cellsize := (- tcellsize, tcellsize);
          proj := p |}.
Proof.
  intros (Hp & Hul & Hlr & Hur & Hll) Hd.
  unfold _warp. rewrite Hp, bind_Ok.
  rewrite Hul, bind_Ok. cbv beta iota.
  rewrite Hlr, bind_Ok. cbv beta iota.
  rewrite Hur, bind_Ok. cbv beta iota.
  rewrite Hll, bind_Ok. cbv beta iota.
  rewrite (fdiv_ok tdiag sdiag), bind_Ok by (by apply sdiag_nonzero).
  rewrite (fdiv_ok (Rmax urx lrx - Rmin ulx llx)), bind_Ok
    by (by apply tcellsize_nonzero).
  rewrite (fdiv_ok (Rmax ury lry - Rmin uly lly)), bind_Ok
    by (by apply tcellsize_nonzero).
  reflexivity.
Qed.

Lemma tcellsize_distance :
  tcellsize
  = distance (lly, llx) (ury, urx)
    / sqrt (IZR (ga_nrows grid) ^ 2 + IZR (ga_ncols grid) ^ 2).
Proof.
  unfold distance. simpl fst. simpl snd.
  rewrite IZR_sum_squares. reflexivity.
Qed.

(** C2. When the corners transform and the diagonals have a length,
    [_warp] returns a grid description whose cellsize is the distance
    between the transformed lower left and upper right corner divided by
    sqrt(nrows^2 + ncols^2), in x, and its negative in y. *)
Theorem C2_isotropic_cellsize :
  corners_transform grid p tproj uly ulx lry lrx ury urx lly llx ->
  diagonals_nonzero grid ury urx lly llx ->
  exists spec : WarpSpec,
    _warp grid p = Ok spec
    /\ spec.(cellsize).2
       = distance (lly, llx) (ury, urx)
         / sqrt (IZR (ga_nrows grid) ^ 2 + IZR (ga_ncols grid) ^ 2)
    /\ spec.(cellsize).1 = - spec.(cellsize).2.
Proof.
  intros Hc Hd. eexists. split; [ by apply _warp_returns | ].
  cbn [cellsize fst snd]. split; [ apply tcellsize_distance | reflexivity ].
Qed.

(** Where the right corners hold the largest x and the left corners the
    smallest, and likewise for y, the counts of [_warp] are those of the
    specification's formula. *)
Lemma counts_agree_when_ordered (a b c d cell : R) :
  0 < cell ->
  maximum a [b; c; d] = Rmax b d ->
  minimum a [b; c; d] = Rmin a c ->
  py_int (Rabs (py_round ((Rmax b d - Rmin a c) / cell)))
  = extent_count a b c d cell.
Proof.
  intros Hcell Hmax Hmin. unfold extent_count.
  rewrite Hmax, Hmin, Rabs_py_round. do 2 f_equal.
  unfold Rdiv. rewrite Rabs_mult. f_equal.
  apply Rabs_right. apply Rle_ge. left. by apply Rinv_0_lt_compat.
Qed.

End planner.

Section turned_footprint.
Import gdalfuncs.
Local Open Scope R_scope.

Lemma py_round_eval_nonneg (x : R) (z : Z) :
  0 <= x -> IZR z <= x + / 2 < IZR z + 1 -> py_round x = IZR z.
Proof.
  intros Hx Hz. rewrite py_round_nonneg by exact Hx.
  f_equal. by apply Int_part_eval.
Qed.

Lemma py_round_eval_neg (x : R) (z : Z) :
  x < 0 -> IZR z <= - x + / 2 < IZR z + 1 -> py_round x = - IZR z.
Proof.
  intros Hx Hz. rewrite py_round_neg by exact Hx.
  f_equal. f_equal. by apply Int_part_eval.
Qed.

Lemma sqrt_625 : sqrt ((0 - -24) ^ 2 + (0 - -7) ^ 2) = 25.
Proof. apply sqrt_eval; lra. Qed.

Lemma sqrt_25 : sqrt (IZR (3 ^ 2 + 4 ^ 2)) = 5.
Proof. change (3 ^ 2 + 4 ^ 2)%Z with 25%Z. apply sqrt_eval; lra. Qed.

Lemma turned_corners :
  @corners_transform (plane_osr turn) (grid_3x4 turn) (target turn)
    (@_Projection.mk (plane_osr turn) "target")
    (-12) 9 (-12) (-16) (-24) (-7) 0 0.
Proof.
  unfold corners_transform.
  split; [ reflexivity | ].
  repeat split; unfold _Transformer.__call__; simpl;
    unfold turn; do 2 f_equal; lra.
Qed.

Lemma turned_diagonals :
  @diagonals_nonzero (plane_osr turn) (grid_3x4 turn) (-24) (-7) 0 0.
Proof. split; [ left; discriminate | left; lra ]. Qed.

Lemma count_of (q : R) (z : Z) :
  (0 <= z)%Z ->
  IZR z <= Rabs q + / 2 < IZR z + 1 ->
  py_int (Rabs (py_round q)) = z /\ py_int (py_round (Rabs q)) = z.
Proof.
  intros Hz Hq. rewrite Rabs_py_round.
  rewrite (py_round_eval_nonneg (Rabs q) z) by (apply Rabs_pos || exact Hq).
  split; by apply py_int_IZR_nonneg.
Qed.

Lemma Rabs_eval_nonneg (x y : R) : 0 <= x -> x = y -> Rabs x = y.
Proof. intros Hx <-. apply Rabs_right. lra. Qed.

Lemma Rabs_eval_neg (x y : R) : x <= 0 -> - x = y -> Rabs x = y.
Proof.
  intros Hx <-. destruct (Req_dec_T x 0) as [-> | Hne].
  - rewrite Rabs_R0. lra.
  - apply Rabs_left. lra.
Qed.

(** C1, at a footprint that is turned by more than a right angle.  The
    grid has three rows and four columns of unit cells; its corners go to
    ul = (9, -12), ur = (-7, -24), ll = (0, 0), lr = (-16, -12) (x, y).  The
    cellsize is 25 / 5 = 5.  [_warp] takes the larger x of the two right
    corners and the smaller x of the two left corners, and for the rows the
    y of those same corners: it plans 1 column and 0 rows.  The extent of
    the four corners is 25 in x and 24 in y, which the specification's
    formula turns into 5 columns and 5 rows. *)
Theorem C1_warp_turned_footprint :
  @corners_transform (plane_osr turn) (grid_3x4 turn) (target turn)
    (@_Projection.mk (plane_osr turn) "target")
    (-12) 9 (-12) (-16) (-24) (-7) 0 0
  /\ @_warp (plane_osr turn) (grid_3x4 turn) (target turn)
     = Ok {| shape := (1%Z, 0%Z, 1%Z);
             value := PFloat (-9999);
             fill_value := PFloat (-9999);
             dtype := PObj "dtype('float64')" false;
             yorigin := 0;
             xorigin := -16;
             origin := "ul";
             cellsize := (-5, 5);
             proj := target turn |}
  /\ extent_count 9 (-7) 0 (-16) 5 = 5%Z
  /\ extent_count (-12) (-24) 0 (-12) 5 = 5%Z.
Proof.
  split; [ exact turned_corners | ]. split; [ | split ].
  - rewrite (_warp_returns _ _ _ _ _ _ _ _ _ _ _ turned_corners turned_diagonals).
    change (ga_nrows (grid_3x4 turn)) with 3%Z.
    change (ga_ncols (grid_3x4 turn)) with 4%Z.
    rewrite sqrt_625, sqrt_25.
    replace (25 / 5) with 5 by lra.
    replace (- 5) with (-5) by lra.
    rewrite (Rmax_right (-24) (-12)), (Rmin_left (-12) 0) by lra.
    rewrite (Rmax_left (-7) (-16)), (Rmin_right 9 0) by lra.
    destruct (count_of ((-12 - -12) / 5) 0) as [-> _];
      [ lia | rewrite (Rabs_eval_nonneg _ 0) by lra; lra | ].
    destruct (count_of ((-7 - 0) / 5) 1) as [-> _];
      [ lia | rewrite (Rabs_eval_neg _ (7 / 5)) by lra; lra | ].
    replace (max4 (-12) (-24) 0 (-12)) with 0
      by (unfold max4; minmax_cases; lra).
    replace (min4 9 (-7) 0 (-16)) with (-16)
      by (unfold min4; minmax_cases; lra).
    reflexivity.
  - unfold extent_count.
    replace (maximum 9 [-7; 0; -16]) with 9
      by (unfold maximum; cbn [fold_right]; minmax_cases; lra).
    replace (minimum 9 [-7; 0; -16]) with (-16)
      by (unfold minimum; cbn [fold_right]; minmax_cases; lra).
    rewrite (Rabs_eval_nonneg (9 - -16) 25) by lra.
    rewrite (py_round_eval_nonneg (25 / 5) 5) by lra.
    by apply py_int_IZR_nonneg.
  - unfold extent_count.
    replace (maximum (-12) [-24; 0; -12]) with 0
      by (unfold maximum; cbn [fold_right]; minmax_cases; lra).
    replace (minimum (-12) [-24; 0; -12]) with (-24)
      by (unfold minimum; cbn [fold_right]; minmax_cases; lra).
    rewrite (Rabs_eval_nonneg (0 - -24) 24) by lra.
    rewrite (py_round_eval_nonneg (24 / 5) 5) by lra.
    by apply py_int_IZR_nonneg.
Qed.

End turned_footprint.

Section same_reference.
Import gdalfuncs.
Local Open Scope R_scope.

Lemma same_corners :
  @corners_transform identity_osr (grid_3x4 same_place) (target same_place)
    (@_Projection.mk identity_osr "target") 3 0 0 4 3 4 0 0.
Proof. unfold corners_transform. repeat split; reflexivity. Defined.

Lemma same_diagonals :
  @diagonals_nonzero identity_osr (grid_3x4 same_place) 3 4 0 0.
Proof. split; [ left; discriminate | left; lra ]. Defined.

Lemma C2_isotropic_cellsize_witness :
  exists spec : @WarpSpec identity_osr,
    @_warp identity_osr (grid_3x4 same_place) (target same_place) = Ok spec
    /\ spec.(cellsize).2
       = distance (0, 0) (3, 4) / sqrt (IZR 3 ^ 2 + IZR 4 ^ 2)
    /\ spec.(cellsize).1 = - spec.(cellsize).2.
Proof.
  exact (@C2_isotropic_cellsize identity_osr (grid_3x4 same_place)
           (target same_place) (@_Projection.mk identity_osr "target")
           3 0 0 4 3 4 0 0 same_corners same_diagonals).
Defined.

(** Planning the reprojection of that grid into its own reference system
    gives its own shape, cellsize and upper left corner back. *)
Lemma warp_same_reference :
  @_warp identity_osr (grid_3x4 same_place) (target same_place)
  = Ok {| shape := (1%Z, 3%Z, 4%Z);
          value := PFloat (-9999);
          fill_value := PFloat (-9999);
          dtype := PObj "dtype('float64')" false;
          yorigin := 3;
          xorigin := 0;
          origin := "ul";
          cellsize := (-1, 1);
          proj := target same_place |}.
Proof.
  rewrite (_warp_returns _ _ _ _ _ _ _ _ _ _ _ same_corners same_diagonals).
  change (ga_nrows (grid_3x4 same_place)) with 3%Z.
  change (ga_ncols (grid_3x4 same_place)) with 4%Z.
  rewrite sqrt_25.
  rewrite (sqrt_eval ((0 - 3) ^ 2 + (0 - 4) ^ 2) 5) by lra.
  replace (5 / 5) with 1 by lra.
  replace (- 1) with (-1) by lra.
  rewrite (Rmax_left 3 0), (Rmin_right 3 0) by lra.
  rewrite (Rmax_left 4 4), (Rmin_left 0 0) by lra.
  destruct (count_of ((3 - 0) / 1) 3) as [-> _];
    [ lia | rewrite (Rabs_eval_nonneg _ 3) by lra; lra | ].
  destruct (count_of ((4 - 0) / 1) 4) as [-> _];
    [ lia | rewrite (Rabs_eval_nonneg _ 4) by lra; lra | ].
  replace (max4 3 3 0 0) with 3 by (unfold max4; minmax_cases; lra).
  replace (min4 0 4 0 4) with 0 by (unfold min4; minmax_cases; lra).
  reflexivity.
Qed.

End same_reference.

Section turned_shape.
Import gdalfuncs.
Local Open Scope R_scope.

Lemma warp_turned_footprint :
  @_warp (plane_osr turn) (grid_3x4 turn) (target turn)
  = Ok {| shape := (1%Z, 0%Z, 1%Z);
          value := PFloat (-9999);
          fill_value := PFloat (-9999);
          dtype := PObj "dtype('float64')" false;
          yorigin := 0;
          xorigin := -16;
          origin := "ul";
          cellsize := (-5, 5);
          proj := target turn |}.
Proof.
  rewrite (_warp_returns _ _ _ _ _ _ _ _ _ _ _ turned_corners turned_diagonals).
  change (ga_nrows (grid_3x4 turn)) with 3%Z.
  change (ga_ncols (grid_3x4 turn)) with 4%Z.
  rewrite sqrt_625, sqrt_25.
  replace (25 / 5) with 5 by lra.
  replace (- 5) with (-5) by lra.
  rewrite (Rmax_right (-24) (-12)), (Rmin_left (-12) 0) by lra.
  rewrite (Rmax_left (-7) (-16)), (Rmin_right 9 0) by lra.
  destruct (count_of ((-12 - -12) / 5) 0) as [-> _];
    [ lia | rewrite (Rabs_eval_nonneg _ 0) by lra; lra | ].
  destruct (count_of ((-7 - 0) / 5) 1) as [-> _];
    [ lia | rewrite (Rabs_eval_neg _ (7 / 5)) by lra; lra | ].
  replace (max4 (-12) (-24) 0 (-12)) with 0
    by (unfold max4; minmax_cases; lra).
  replace (min4 9 (-7) 0 (-16)) with (-16)
    by (unfold min4; minmax_cases; lra).
  reflexivity.
Qed.

Lemma turned_extent_x : extent_count 9 (-7) 0 (-16) 5 = 5%Z.
Proof.
  unfold extent_count.
  replace (maximum 9 [-7; 0; -16]) with 9
    by (unfold maximum; cbn [fold_right]; minmax_cases; lra).
  replace (minimum 9 [-7; 0; -16]) with (-16)
    by (unfold minimum; cbn [fold_right]; minmax_cases; lra).
  rewrite (Rabs_eval_nonneg (9 - -16) 25) by lra.
  rewrite (py_round_eval_nonneg (25 / 5) 5) by lra.
  by apply py_int_IZR_nonneg.
Qed.

Lemma turned_extent_y : extent_count (-12) (-24) 0 (-12) 5 = 5%Z.
Proof.
  unfold extent_count.
  replace (maximum (-12) [-24; 0; -12]) with 0
    by (unfold maximum; cbn [fold_right]; minmax_cases; lra).
  replace (minimum (-12) [-24; 0; -12]) with (-24)
    by (unfold minimum; cbn [fold_right]; minmax_cases; lra).
  rewrite (Rabs_eval_nonneg (0 - -24) 24) by lra.
  rewrite (py_round_eval_nonneg (24 / 5) 5) by lra.
  by apply py_int_IZR_nonneg.
Qed.

(** C3.  When the corners transform and the diagonals have a length, the
    description that [_warp] returns has origin "ul", the largest of the
    four transformed y as yorigin, the smallest of the four transformed x
    as xorigin, the cellsize pair (-c, c) for the isotropic cellsize c, the
    band count, the dtype and the fill value of the grid: all that the
    specification says of it but the row and column counts.  The counts in
    the shape are not those of the specification.  At the grid of three
    rows and four columns whose footprint is turned by more than a right
    angle, the corners go to ul = (9, -12), ur = (-7, -24), ll = (0, 0),
    lr = (-16, -12) (x, y) and c = 5; the shape returned is (1, 0, 1),
    while the specification's shape, with the counts of the extent of the
    four corners, is (1, 5, 5). *)
Theorem C3_output_shape_turned_footprint :
  (forall (osr : OSR) (grid : @GeoArray osr) (p : @_Projection.arg osr)
          (tproj : @_Projection.t osr) (uly ulx lry lrx ury urx lly llx : R),
      @corners_transform osr grid p tproj uly ulx lry lrx ury urx lly llx ->
      @diagonals_nonzero osr grid ury urx lly llx ->
      exists spec : @WarpSpec osr,
        @_warp osr grid p = Ok spec
        /\ spec.(origin) = "ul"%string
        /\ spec.(yorigin) = maximum uly [ury; lly; lry]
        /\ spec.(xorigin) = minimum ulx [urx; llx; lrx]
        /\ spec.(cellsize)
           = (- (distance (lly, llx) (ury, urx)
                 / sqrt (IZR (ga_nrows grid) ^ 2 + IZR (ga_ncols grid) ^ 2)),
              distance (lly, llx) (ury, urx)
              / sqrt (IZR (ga_nrows grid) ^ 2 + IZR (ga_ncols grid) ^ 2))
        /\ spec.(shape).1.1 = ga_nbands grid
        /\ spec.(dtype) = ga_dtype grid
        /\ spec.(fill_value) = ga_fill_value grid
        /\ spec.(proj) = p)
  /\ (exists spec : @WarpSpec (plane_osr turn),
        @corners_transform (plane_osr turn) (grid_3x4 turn) (target turn)
          (@_Projection.mk (plane_osr turn) "target")
          (-12) 9 (-12) (-16) (-24) (-7) 0 0
        /\ @_warp (plane_osr turn) (grid_3x4 turn) (target turn) = Ok spec
        /\ spec.(cellsize) = (-5, 5)
        /\ spec.(shape) = (1%Z, 0%Z, 1%Z)
        /\ (ga_nbands (grid_3x4 turn),
            extent_count (-12) (-24) 0 (-12) spec.(cellsize).2,
            extent_count 9 (-7) 0 (-16) spec.(cellsize).2)
           = (1%Z, 5%Z, 5%Z)).
Proof.
  split.
  - intros osr grid p tproj uly ulx lry lrx ury urx lly llx Hc Hd.
    pose proof (_warp_returns grid p tproj _ _ _ _ _ _ _ _ Hc Hd) as Hw.
    rewrite tcellsize_distance in Hw.
    eexists. split; [ exact Hw | ].
    cbn [origin yorigin xorigin cellsize shape dtype fill_value proj fst snd].
    split; [ reflexivity | ].
    split; [ apply max4_maximum | ].
    split; [ apply min4_minimum | ].
    repeat (split; [ reflexivity | ]). reflexivity.
  - eexists. split; [ exact turned_corners | ].
    split; [ exact warp_turned_footprint | ].
    cbn [cellsize shape snd].
    split; [ reflexivity | ]. split; [ reflexivity | ].
    rewrite turned_extent_x, turned_extent_y. reflexivity.
Qed.

End turned_shape.

(* ===================================================================== *)
(** * Further properties: the mode string and the parameter tokens        *)
(* ===================================================================== *)

Section first_seen_facts.

Lemma first_seen_from_ext (s1 s2 l : list string) :
  (forall y, y ∈ s1 <-> y ∈ s2) ->
  first_seen_from s1 l = first_seen_from s2 l.
Proof.
  revert s1 s2. induction l as [ | x l IH ]; intros s1 s2 Hs; [ reflexivity | ].
  simpl. rewrite (bool_decide_ext (x ∈ s1) (x ∈ s2)) by apply Hs.
  case_bool_decide.
  - by apply IH.
  - f_equal. apply IH. intros y. rewrite !elem_of_cons, Hs. reflexivity.
Qed.

Lemma first_seen_from_app (seen' seen l : list string) :
  first_seen_from (seen' ++ seen) l
  = filter (fun y => y ∉ seen') (first_seen_from seen l).
Proof.
  revert seen. induction l as [ | x l IH ]; intros seen; [ reflexivity | ].
  simpl. destruct (decide (x ∈ seen)) as [Hs | Hs].
  - rewrite !bool_decide_eq_true_2 by set_solver. apply IH.
  - rewrite (bool_decide_eq_false_2 (x ∈ seen)) by exact Hs.
    destruct (decide (x ∈ seen')) as [Hs' | Hs'].
    + rewrite bool_decide_eq_true_2 by set_solver.
      rewrite filter_cons_False by (intros Hn; by apply Hn).
      rewrite <- IH. apply first_seen_from_ext. set_solver.
    + rewrite bool_decide_eq_false_2 by set_solver.
      rewrite filter_cons_True by exact Hs'. f_equal.
      rewrite <- IH. apply first_seen_from_ext. set_solver.
Qed.

Lemma elem_of_first_seen_from (seen l : list string) (x : string) :
  x ∈ first_seen_from seen l <-> x ∈ l /\ x ∉ seen.
Proof.
  revert seen. induction l as [ | y l IH ]; intros seen; simpl.
  - set_solver.
  - case_bool_decide as Hy.
    + rewrite IH. set_solver.
    + rewrite elem_of_cons, IH. split.
      * intros [-> | [Hin Hn]]; set_solver.
      * intros [Hin Hn]. apply elem_of_cons in Hin as [-> | Hin];
          [ by left | ].
        destruct (decide (x = y)) as [-> | Hne]; [ by left | ].
        right. set_solver.
Qed.

Lemma NoDup_first_seen_from (seen l : list string) :
  NoDup (first_seen_from seen l).
Proof.
  revert seen. induction l as [ | y l IH ]; intros seen; simpl.
  - constructor.
  - case_bool_decide; [ apply IH | ].
    constructor; [ | apply IH ].
    rewrite elem_of_first_seen_from. set_solver.
Qed.

Lemma first_seen_cons (t : string) (rest : list string) :
  first_seen (t :: rest) = t :: filter (fun y => y <> t) (first_seen rest).
Proof.
  unfold first_seen at 1. simpl. f_equal.
  change (first_seen_from [t] rest) with (first_seen_from ([t] ++ []) rest).
  rewrite (first_seen_from_app [t] [] rest).
  unfold first_seen. apply list_filter_iff. intros y. set_solver.
Qed.

Lemma filter_split {A : Type} (P : A -> Prop) `{forall x, Decision (P x)}
    (xs pre post : list A) (a : A) :
  filter P xs = pre ++ a :: post ->
  exists pre' post' : list A,
    xs = pre' ++ a :: post' /\ filter P pre' = pre /\ filter P post' = post.
Proof.
  revert pre. induction xs as [ | x xs IH ]; intros pre E.
  - by destruct pre.
  - destruct (decide (P x)) as [Hx | Hx].
    + rewrite filter_cons_True in E by exact Hx.
      destruct pre as [ | p pre ]; simpl in E.
      * injection E as -> E. by exists [], xs.
      * injection E as -> E. destruct (IH pre E) as (pre' & post' & -> & Hp & Hq).
        exists (p :: pre'), post'. split; [ reflexivity | ].
        split; [ | exact Hq ]. by rewrite filter_cons_True, Hp.
    + rewrite filter_cons_False in E by exact Hx.
      destruct (IH pre E) as (pre' & post' & -> & Hp & Hq).
      exists (x :: pre'), post'. split; [ reflexivity | ].
      split; [ | exact Hq ]. by rewrite filter_cons_False.
Qed.

(** A tag that stands before another in [first_seen l] occurs in [l] before
    the first occurrence of the other. *)
Lemma first_seen_order (l pre post : list string) (a b : string) :
  first_seen l = pre ++ a :: post -> b ∈ post ->
  exists l1 l2 : list string, l = l1 ++ a :: l2 /\ b ∉ l1.
Proof.
  revert pre post. induction l as [ | t rest IH ]; intros pre post E Hb.
  - by destruct pre.
  - rewrite first_seen_cons in E. destruct pre as [ | p pre ]; simpl in E.
    + injection E as -> E. exists [], rest. split; [ reflexivity | ].
      apply not_elem_of_nil.
    + injection E as -> E.
      apply filter_split in E as (pre' & post' & E & _ & Hpost).
      assert (Hb' : b ∈ filter (fun y => y <> p) post') by (by rewrite Hpost).
      apply list_elem_of_filter in Hb' as [Hne Hb'].
      destruct (IH pre' post' E Hb') as (l1 & l2 & -> & Hl1).
      exists (p :: l1), l2. split; [ reflexivity | ].
      apply not_elem_of_cons. by split.
Qed.

(** X1. The mode string of [_getColorMode] is the join of the tags of the
    bands without repetition, in the order of their first occurrence: the
    joined tags hold no tag twice, they are exactly the tags that the bands
    get from [COLOR_DICT] ("L" for a code outside it), and a tag that
    stands before another occurs among the bands before the first
    occurrence of the other. *)
Theorem colormode_tags_first_seen (fobj : gdalfuncs.ColorDataset) :
  exists tags : list string,
    gdalfuncs._getColorMode fobj = str_join EmptyString tags
    /\ NoDup tags
    /\ (forall t : string,
          t ∈ tags
          <-> exists i : nat,
                (i < gdalfuncs.RasterCount fobj)%nat
                /\ t = dict_get gdalfuncs.COLOR_DICT
                         (gdalfuncs.GetColorInterpretation fobj (i + 1)) "L")
    /\ (forall (pre post : list string) (a b : string),
          tags = pre ++ a :: post -> b ∈ post ->
          exists l1 l2 : list string,
            gdalfuncs.band_tags fobj = l1 ++ a :: l2 /\ b ∉ l1).
Proof.
  exists (first_seen (gdalfuncs.band_tags fobj)).
  split; [ reflexivity | ].
  split; [ apply NoDup_first_seen_from | ].
  split.
  - intros t. unfold first_seen. rewrite elem_of_first_seen_from.
    unfold gdalfuncs.band_tags. rewrite list_elem_of_fmap. split.
    + intros [(i & -> & Hi) _]. apply elem_of_seq in Hi.
      exists i. split; [ lia | reflexivity ].
    + intros (i & Hi & ->). split; [ | apply not_elem_of_nil ].
      exists i. split; [ reflexivity | ]. apply elem_of_seq. lia.
  - intros pre post a b E Hb. exact (first_seen_order _ pre post a b E Hb).
Qed.

End first_seen_facts.

Section getProj4_entries.
Import gdalfuncs gdalfuncs._Projection.
Context `{OSR}.

(** X2. Whatever text the reference exports, every key and every value of the
    mapping that [getProj4] returns is a non-empty string without "+", "="
    and space. *)
Theorem getProj4_entries_are_tokens
    (self : _Projection.t) (d : gmap string string) (k v : string) :
  getProj4 self = Ok d ->
  d !! k = Some v ->
  clean_token k = true /\ clean_token v = true.
Proof.
  unfold getProj4. destruct (ExportToProj4 (_srs self)) as [ tmp | e ];
    simpl; [ | discriminate ].
  intros E Hl. injection E as <-.
  apply dict_lookup_elem in Hl. split.
  - apply elem_of_zip_l in Hl.
    apply (proj1 (elem_of_evens_odds _)) in Hl.
    by apply tokens_clean with tmp.
  - apply elem_of_zip_r in Hl.
    apply (proj2 (elem_of_evens_odds _)) in Hl.
    by apply tokens_clean with tmp.
Qed.

End getProj4_entries.

Lemma getProj4_entries_witness :
  @gdalfuncs._Projection.getProj4 identity_osr utm_projection
  = Ok (dict [ ("proj", "utm"); ("zone", "32") ])
  /\ clean_token "zone" = true /\ clean_token "32" = true.
Proof.
  split; [ reflexivity | ].
  apply (@getProj4_entries_are_tokens identity_osr utm_projection
           (dict [ ("proj", "utm"); ("zone", "32") ]) "zone" "32");
    reflexivity.
Defined.

(* ===================================================================== *)
(** * Further properties of the legacy reader                             *)
(* ===================================================================== *)

Section lazy_grid.
Import np geogridbase geogridbase_rest.
Context `{Numpy}.

Lemma _squeeze_loaded (self : _GeoGridBase) (a : ndarray num) :
  _data self = Some a ->
  exists view : ndarray num,
    _squeeze self = Ok (Some view)
    /\ flat view = flat a
    /\ (shape view = shape a \/ shape a = 1%nat :: shape view).
Proof.
  intros Hd. unfold _squeeze, squeeze0. rewrite Hd.
  destruct (shape a) as [ | [ | [ | n ] ] dims ] eqn:Hs; eexists;
    (split; [ reflexivity | ]); simpl; split; auto.
Qed.

Lemma __getitem___loaded (self : _GeoGridBase) (a : ndarray num) :
  _data self = Some a ->
  exists view : ndarray num,
    __getitem__ self = Ok (self, view)
    /\ flat view = flat a
    /\ (shape view = shape a \/ shape a = 1%nat :: shape view).
Proof.
  intros Hd. destruct (_squeeze_loaded self a Hd) as (view & Hsq & Hf & Hs).
  exists view. unfold __getitem__. rewrite Hd, Hsq. by split.
Qed.

Lemma __getitem___unloaded (self : _GeoGridBase) :
  _data self = None ->
  __getitem__ self
  = __getitem__
      (with_data self (Some (astype (np_cast (_dtype self)) (_readData self)))).
Proof. intros Hd. unfold __getitem__. rewrite Hd. reflexivity. Qed.

Lemma __getitem___loaded_shape (self : _GeoGridBase) (a : ndarray num) :
  _data self = Some a ->
  exists view : ndarray num,
    __getitem__ self = Ok (self, view)
    /\ flat view = flat a
    /\ (forall dims : list nat, shape a = 1%nat :: dims -> shape view = dims)
    /\ ((forall dims : list nat, shape a <> 1%nat :: dims) ->
        shape view = shape a).
Proof.
  intros Hd. unfold __getitem__, _squeeze, squeeze0. rewrite Hd. simpl.
  rewrite Hd.
  destruct (shape a) as [ | [ | [ | n ] ] dims ] eqn:Hs; eexists;
    (split; [ reflexivity | ]); simpl; (split; [ reflexivity | ]); split;
    try (intros dims' E; discriminate E); try (intros _; by rewrite Hs).
  - intros dims' E. by injection E as <-.
  - intros Hne. by destruct (Hne dims).
Qed.

(** X10. The first [self[:]] reads the data, converted to the numeric kind of the
    grid; afterwards the data is held, and [self[:]] gives the same view
    again without changing the object.  Nothing but the data changes. *)
Theorem getitem_loads_once
    (self g : _GeoGridBase) (view : ndarray num) :
  __getitem__ self = Ok (g, view) ->
  g = with_data self (_data g)
  /\ (_data self = None ->
      _data g = Some (astype (np_cast (_dtype self)) (_readData self)))
  /\ (forall a : ndarray num, _data self = Some a -> g = self)
  /\ is_Some (_data g)
  /\ __getitem__ g = Ok (g, view).
Proof.
  intros E. destruct (_data self) as [ a | ] eqn:Hd.
  - destruct (__getitem___loaded self a Hd) as (view' & E' & _).
    rewrite E' in E. injection E as <- <-.
    split; [ destruct self; simpl in *; by rewrite Hd | ].
    split; [ discriminate | ]. split; [ reflexivity | ].
    split; [ by rewrite Hd | exact E' ].
  - rewrite (__getitem___unloaded self Hd) in E.
    set (loaded := with_data self _) in E.
    assert (Hl : _data loaded
                 = Some (astype (np_cast (_dtype self)) (_readData self)))
      by reflexivity.
    destruct (__getitem___loaded loaded _ Hl) as (view' & E' & _).
    rewrite E' in E. injection E as <- <-.
    split; [ reflexivity | ]. split; [ reflexivity | ].
    split; [ discriminate | ]. split; [ by rewrite Hl | exact E' ].
Qed.

End lazy_grid.

Lemma getitem_loads_once_witness :
  geogridbase.__getitem__ (one_row_unloaded np.MatchRequired)
  = Ok (one_row_loaded np.MatchRequired, np.mk [3]%nat [7; 1; 2]%Z)
  /\ geogridbase.__getitem__ (one_row_loaded np.MatchRequired)
     = Ok (one_row_loaded np.MatchRequired, np.mk [3]%nat [7; 1; 2]%Z).
Proof.
  split; [ reflexivity | ].
  exact (proj2 (proj2 (proj2 (proj2
    (@getitem_loads_once _ (one_row_unloaded np.MatchRequired)
       (one_row_loaded np.MatchRequired) (np.mk [3]%nat [7; 1; 2]%Z)
       eq_refl))))).
Defined.

Section numeric_kind.
Import np geogridbase geogridbase_rest.
Context `{Numpy}.

Lemma __consistentTypes_inv (self g : _GeoGridBase) :
  __consistentTypes self = Ok g ->
  _dtype g = _dtype self
  /\ np_scalar (_dtype self) (_nodata_value self) = Ok (_nodata_value g)
  /\ (_data self = None -> _data g = None)
  /\ (forall a : ndarray num,
        _data self = Some a ->
        exists a' : ndarray num,
          _data g = Some a'
          /\ flat a' = map (np_cast (_dtype self)) (flat a)
          /\ (shape a' = shape a \/ shape a = 1%nat :: shape a')).
Proof.
  unfold __consistentTypes.
  destruct (np_scalar (_dtype self) (_nodata_value self)) as [ v | e ];
    simpl; [ | discriminate ].
  destruct (_data self) as [ a | ] eqn:Hd.
  - set (self' := with_nodata_value self v).
    assert (Hd' : _data self' = Some a) by exact Hd.
    destruct (__getitem___loaded self' a Hd') as (view & E & Hf & Hs).
    rewrite E. simpl. intros [= <-]. simpl.
    split; [ reflexivity | ]. split; [ reflexivity | ].
    split; [ discriminate | ].
    intros a0 [= <-]. eexists. split; [ reflexivity | ].
    simpl. by rewrite Hf.
  - intros [= <-]. simpl.
    split; [ reflexivity | ]. split; [ reflexivity | ].
    split; [ intros _; exact Hd | ].
    intros a Ha. discriminate Ha.
Qed.

Lemma __consistentTypes_shape (self g : _GeoGridBase) (a : ndarray num) :
  __consistentTypes self = Ok g ->
  _data self = Some a ->
  exists a' : ndarray num,
    _data g = Some a'
    /\ (forall dims : list nat, shape a = 1%nat :: dims -> shape a' = dims)
    /\ ((forall dims : list nat, shape a <> 1%nat :: dims) ->
        shape a' = shape a).
Proof.
  unfold __consistentTypes.
  destruct (np_scalar (_dtype self) (_nodata_value self)) as [ v | e ];
    simpl; [ | discriminate ].
  intros E Hd. rewrite Hd in E.
  set (self' := with_nodata_value self v) in E.
  assert (Hd' : _data self' = Some a) by exact Hd.
  destruct (__getitem___loaded_shape self' a Hd') as (view & Ev & _ & Hs1 & Hs2).
  rewrite Ev in E. simpl in E. injection E as <-. simpl.
  eexists. split; [ reflexivity | ]. simpl. by split.
Qed.

(** X11. Setting the numeric kind re-derives the nodata value in the new kind.
    Data that is not loaded stays unloaded: the data is never read from the
    file for it.  Loaded data is converted cell by cell, in place and order,
    and is stored as the squeezed view: without its leading axis where that
    axis has length one, with its own shape otherwise. *)
Theorem setDataType_converts
    (self g : _GeoGridBase) (value : option string) :
  _setDataType self value = Ok g ->
  np_dtype value = Ok (_dtype g)
  /\ np_scalar (_dtype g) (_nodata_value self) = Ok (_nodata_value g)
  /\ (_data self = None -> _data g = None)
  /\ (forall a : ndarray num,
        _data self = Some a ->
        exists a' : ndarray num,
          _data g = Some a'
          /\ flat a' = map (np_cast (_dtype g)) (flat a)
          /\ (forall dims : list nat,
                shape a = 1%nat :: dims -> shape a' = dims)
          /\ ((forall dims : list nat, shape a <> 1%nat :: dims) ->
              shape a' = shape a)).
Proof.
  unfold _setDataType.
  destruct (np_dtype value) as [ t | e ]; simpl; [ | discriminate ].
  intros E. pose proof E as E'.
  apply __consistentTypes_inv in E. simpl in E.
  destruct E as (Ht & Hn & Hu & Hl). rewrite Ht.
  split; [ reflexivity | ]. split; [ exact Hn | ]. split; [ exact Hu | ].
  intros a Ha.
  destruct (Hl a Ha) as (a' & Ha' & Hf & _).
  destruct (__consistentTypes_shape _ g a E' Ha) as (a2 & Ha2 & Hs1 & Hs2).
  rewrite Ha' in Ha2. injection Ha2 as <-.
  exists a'. by repeat split.
Qed.

(** X12. Reading a [_DummyGrid] gives an array of the shape that [shape] reports,
    filled with the nodata value. *)
Theorem dummy_grid_loads_nodata (self : _GeoGridBase) :
  _reader self = DummyGrid ->
  _data self = None ->
  (1 <= nbands self)%Z -> (0 <= nrows self)%Z -> (0 <= ncols self)%Z ->
  exists (g : _GeoGridBase) (view : ndarray num),
    __getitem__ self = Ok (g, view)
    /\ Z.of_nat <$> shape view = _getShape self
    /\ flat view
       = repeat (np_cast (_dtype self) (_nodata_value self))
                (Z.to_nat (nbands self * nrows self * ncols self)).
Proof.
  intros Hr Hd Hb Hrows Hcols.
  rewrite (__getitem___unloaded self Hd).
  unfold _readData. rewrite Hr.
  unfold __getitem__, _squeeze, squeeze0, full, astype, _getShape. simpl.
  assert (Hsize : (Z.to_nat (nbands self)
                   * (Z.to_nat (nrows self) * (Z.to_nat (ncols self) * 1)))%nat
                  = Z.to_nat (nbands self * nrows self * ncols self)) by lia.
  destruct (Z.to_nat (nbands self)) as [ | [ | n ] ] eqn:Hn.
  - lia.
  - assert (nbands self = 1%Z) as Hone by lia.
    rewrite Hone in *. simpl.
    eexists _, _. split; [ reflexivity | ]. simpl.
    rewrite !Z2Nat.id by assumption.
    split; [ reflexivity | ].
    rewrite map_repeat. f_equal. lia.
  - assert ((1 <? nbands self)%Z = true) as Hmany by lia.
    rewrite Hmany.
    eexists _, _. split; [ reflexivity | ].
    cbn [shape flat fmap list_fmap].
    split.
    + rewrite <- Hn, !Z2Nat.id by lia. reflexivity.
    + rewrite map_repeat. f_equal. unfold size_of. cbn [fold_right].
      rewrite <- Hsize. reflexivity.
Qed.

End numeric_kind.

Section grid_witnesses.
Import np geogridbase geogridbase_rest.

Lemma setDataType_converts_witness :
  exists (g : @_GeoGridBase (z_numpy MatchRequired)) (a' : ndarray Z),
    _setDataType (one_row_loaded MatchRequired) (Some "Int16") = Ok g
    /\ _data g = Some a'
    /\ flat a' = map (np_cast (_dtype g)) [7; 1; 2]%Z
    /\ shape a' = [3]%nat.
Proof.
  eexists.
  destruct (proj2 (proj2 (proj2
              (@setDataType_converts (z_numpy MatchRequired)
                 (one_row_loaded MatchRequired) _ (Some "Int16") eq_refl)))
              (np.mk [1; 3]%nat [7; 1; 2]%Z) eq_refl)
    as (a' & Ha & Hf & Hs & _).
  exists a'. split; [ reflexivity | ]. split; [ exact Ha | ].
  split; [ exact Hf | ]. exact (Hs [3]%nat eq_refl).
Defined.

Lemma dummy_grid_loads_nodata_witness :
  exists (g : @_GeoGridBase (z_numpy MatchRequired)) (view : ndarray Z),
    __getitem__ (dummy_2x2 MatchRequired) = Ok (g, view)
    /\ Z.of_nat <$> shape view = _getShape (dummy_2x2 MatchRequired)
    /\ flat view = repeat 7%Z (Z.to_nat (1 * 2 * 2)).
Proof.
  apply (@dummy_grid_loads_nodata (z_numpy MatchRequired)
           (dummy_2x2 MatchRequired));
    first [ reflexivity | simpl; lia ].
Defined.

End grid_witnesses.

Section gdal_grid.
Import np geogridbase geogridbase_rest.
Context `{GDAL}.

Lemma __consistentTypes_unloaded (self g : _GeoGridBase) :
  _data self = None ->
  __consistentTypes self = Ok g ->
  exists v : num, g = with_nodata_value self v.
Proof.
  intros Hd. unfold __consistentTypes.
  destruct (np_scalar (_dtype self) (_nodata_value self)) as [ v | e ];
    simpl; [ | discriminate ].
  rewrite Hd. intros [= <-]. by exists v.
Qed.

Lemma _yllcorner_below (yul cs : R) (n : Z) :
  (0 <= n)%Z -> (_yllcorner yul cs n <= yul)%R.
Proof.
  intros Hn. unfold _yllcorner. apply IZR_le in Hn.
  destruct (Rlt_dec cs 0); [ nra | lra ].
Qed.

(** X13. A file that cannot be opened gives [IOError].  A [_GdalGrid] that is
    constructed holds no data yet (the raster is not read), its cellsize is
    the magnitude shared by the x and y cell sizes of the file, its lower
    edge is not above the upper edge of the file, and it has at least one
    band even where the file reports none. *)
Theorem GdalGrid_init_is_lazy
    (fname : string) (proj_params : option (gmap string string))
    (dtype : option string) :
  (gdal_Open fname = None ->
   _GdalGrid__init__ fname proj_params dtype
   = Raise (IOError "Could not open file"))
  /\ (forall g : _GeoGridBase,
        _GdalGrid__init__ fname proj_params dtype = Ok g ->
        exists fobj : Dataset,
          gdal_Open fname = Some fobj
          /\ _reader g = GdalGrid fobj
          /\ _data g = None
          /\ Rabs (gt1 (GetGeoTransform fobj)) = Rabs (gt5 (GetGeoTransform fobj))
          /\ cellsize g = Rabs (gt1 (GetGeoTransform fobj))
          /\ (0 <= cellsize g)%R
          /\ xllcorner g = gt0 (GetGeoTransform fobj)
          /\ ((0 <= RasterYSize fobj)%Z ->
              (yllcorner g <= gt3 (GetGeoTransform fobj))%R)
          /\ nrows g = RasterYSize fobj
          /\ ncols g = RasterXSize fobj
          /\ nbands g <> 0%Z
          /\ ((RasterCount fobj <> 0)%Z -> nbands g = RasterCount fobj)).
Proof.
  split.
  - intros Hopen. unfold _GdalGrid__init__, _open. by rewrite Hopen.
  - intros g. unfold _GdalGrid__init__, _open.
    destruct (gdal_Open fname) as [ fobj | ]; simpl; [ | discriminate ].
    unfold _cellsize.
    destruct (Req_dec_T _ _) as [ Habs | _ ]; simpl; [ | discriminate ].
    unfold __init__.
    destruct (np_dtype _) as [ t | e ]; simpl; [ | discriminate ].
    destruct (__consistentTypes _) as [ g1 | e ] eqn:E1; simpl;
      [ | discriminate ].
    intros E2.
    apply __consistentTypes_unloaded in E1 as [v1 ->]; [ | reflexivity ].
    apply __consistentTypes_unloaded in E2 as [v2 ->]; [ | reflexivity ].
    exists fobj. simpl.
    split; [ reflexivity | ]. split; [ reflexivity | ].
    split; [ reflexivity | ]. split; [ exact Habs | ].
    split; [ reflexivity | ]. split; [ apply Rabs_pos | ].
    split; [ reflexivity | ].
    split; [ apply _yllcorner_below | ].
    split; [ reflexivity | ]. split; [ reflexivity | ].
    destruct (Z.eqb_spec (RasterCount fobj) 0) as [ E0 | Hne ];
      split; try discriminate; try assumption; try contradiction.
    reflexivity.
Qed.

End gdal_grid.

Lemma GdalGrid_init_is_lazy_witness :
  exists fobj : @geogridbase.Dataset (z_numpy np.MatchRequired),
    @geogridbase.gdal_Open _ (one_row_gdal np.MatchRequired) "row.tif" = Some fobj
    /\ geogridbase._data (one_row_unloaded np.MatchRequired) = None
    /\ geogridbase.cellsize (one_row_unloaded np.MatchRequired)
       = Rabs (geogridbase.gt1 (geogridbase.GetGeoTransform fobj)).
Proof.
  destruct (proj2 (@GdalGrid_init_is_lazy _ (one_row_gdal np.MatchRequired)
                     "row.tif" None None)
              (one_row_unloaded np.MatchRequired)
              (one_row_is_read np.MatchRequired))
    as (fobj & Hopen & _ & Hdata & _ & Hcs & _).
  exists fobj. by repeat split.
Defined.

(* ===================================================================== *)
(** * Further properties of [array]                                       *)
(* ===================================================================== *)

Section array_extras.
Import geoarray.

Lemma py_or_default_truthy (a b : pyval) :
  truthy b = true -> truthy (py_or a b) = true.
Proof. intros Hb. unfold py_or. by destruct (truthy a) eqn:Ha. Qed.

Lemma py_or_zero (a : pyval) :
  py_or a (PInt 0) = PInt 0 \/ truthy (py_or a (PInt 0)) = true.
Proof. unfold py_or. destruct (truthy a) eqn:Ha; [ by right | by left ]. Qed.

(** X8. A keyword argument whose value is true in Python's sense reaches the
    [GeoArray] constructor (for dtype: [np.array]) as it was given, whether
    the data is a GeoArray or not. *)
Theorem array_truthy_keyword_kept (d : data_arg) (kw : kwargs) :
  let r := array d kw in
  (truthy (kw_dtype kw) = true -> na_dtype (data r) = kw_dtype kw)
  /\ (truthy (kw_yorigin kw) = true -> yorigin r = kw_yorigin kw)
  /\ (truthy (kw_xorigin kw) = true -> xorigin r = kw_xorigin kw)
  /\ (truthy (kw_origin kw) = true -> origin r = kw_origin kw)
  /\ (truthy (kw_fill_value kw) = true -> fill_value r = kw_fill_value kw)
  /\ (truthy (kw_cellsize kw) = true -> cellsize r = kw_cellsize kw)
  /\ (truthy (kw_proj kw) = true -> proj r = kw_proj kw)
  /\ (truthy (kw_mode kw) = true -> mode r = kw_mode kw).
Proof.
  intros r. subst r.
  refine (conj _ (conj _ (conj _ (conj _ (conj _ (conj _ (conj _ _)))))));
    intros E; destruct d as [ g | raw ]; simpl;
    rewrite ?(py_or_truthy _ _ E); try reflexivity;
    by rewrite (py_or_truthy _ _ E).
Qed.

(** X9. Whatever the data and the keyword arguments, the constructor receives
    an origin and a cellsize that are true in Python's sense (never [None],
    never empty), and origin coordinates that are the integer 0 or true
    (never [None]); the data and the copy flag are handed to [np.array]
    unchanged. *)
Theorem array_georeferencing_never_missing (d : data_arg) (kw : kwargs) :
  let r := array d kw in
  truthy (origin r) = true
  /\ truthy (cellsize r) = true
  /\ (yorigin r = PInt 0 \/ truthy (yorigin r) = true)
  /\ (xorigin r = PInt 0 \/ truthy (xorigin r) = true)
  /\ na_object (data r) = d
  /\ na_copy (data r) = kw_copy kw.
Proof.
  intros r. subst r. unfold array. cbn [origin cellsize yorigin xorigin data
                                          na_object na_copy].
  split; [ by apply py_or_default_truthy | ].
  split; [ by apply py_or_default_truthy | ].
  split; [ apply py_or_zero | ].
  split; [ apply py_or_zero | ].
  split; [ reflexivity | ]. destruct d; reflexivity.
Qed.

Lemma truthy_5_5 : truthy (PFloat 5.5) = true.
Proof. simpl. destruct (Req_dec_T 5.5 0) as [ E | _ ]; [ lra | reflexivity ]. Qed.

Lemma array_truthy_keyword_witness :
  yorigin (array (IsGeoArray example_grid) yorigin_and_origin) = PFloat 5.5
  /\ origin (array (IsGeoArray example_grid) yorigin_and_origin) = PStr "lr".
Proof.
  destruct (array_truthy_keyword_kept (IsGeoArray example_grid)
              yorigin_and_origin) as (_ & Hy & _ & Ho & _).
  split; [ exact (Hy truthy_5_5) | exact (Ho eq_refl) ].
Defined.

End array_extras.

(* ===================================================================== *)
(** * Further properties of the footprint planner                         *)
(* ===================================================================== *)

Lemma bind_Ok_inv {A B : Type} (m : result A) (f : A -> result B) (b : B) :
  (m ≫= f) = Ok b -> exists a : A, m = Ok a /\ f a = Ok b.
Proof.
  destruct m as [ a | e ]; [ intros E; by exists a | discriminate ].
Qed.

Lemma bind_Raise {A B : Type} (e : exn) (f : A -> result B) :
  (Raise e ≫= f) = Raise e.
Proof. reflexivity. Qed.

Section counts.
Local Open Scope R_scope.

Lemma fdiv_Ok_inv (a b q : R) : fdiv a b = Ok q -> b <> 0 /\ q = a / b.
Proof.
  unfold fdiv. destruct (Req_dec_T b 0) as [ E | Hne ]; [ discriminate | ].
  intros E. injection E as <-. by split.
Qed.

Lemma count_nonneg (q : R) : (0 <= py_int (Rabs (py_round q)))%Z.
Proof.
  rewrite Rabs_py_round, py_round_nonneg by apply Rabs_pos.
  assert (Hi : (0 <= Int_part (Rabs q + / 2))%Z).
  { apply Int_part_nonneg. pose proof (Rabs_pos q). lra. }
  by rewrite py_int_IZR_nonneg.
Qed.

Lemma count_IZR (n : Z) : (0 <= n)%Z -> py_int (Rabs (py_round (IZR n))) = n.
Proof.
  intros Hn. apply IZR_le in Hn.
  apply count_of; [ by apply le_IZR | ].
  rewrite Rabs_right by lra. lra.
Qed.

Lemma sqrt_scaled (c a b : R) :
  0 < c -> sqrt ((c * a) ^ 2 + (c * b) ^ 2) = c * sqrt (a ^ 2 + b ^ 2).
Proof.
  intros Hc.
  replace ((c * a) ^ 2 + (c * b) ^ 2) with ((c * c) * (a ^ 2 + b ^ 2)) by ring.
  rewrite sqrt_mult_alt by nra. rewrite sqrt_square by lra. reflexivity.
Qed.

End counts.

Section planner_extras.
Import gdalfuncs.
Context `{OSR}.
Local Open Scope R_scope.

(** X3. Whenever [_warp] returns a description (all of its arithmetic staying
    finite), the cellsize in x is positive and the cellsize in y is its
    negative, the planned row and column counts are not negative, the band
    count is the grid's, the origin is "ul", and the value, the projection
    argument, the dtype and the fill value are passed through. *)
Theorem warp_result_invariants
    (grid : GeoArray) (p : _Projection.arg) (spec : WarpSpec) :
  _warp grid p = Ok spec ->
  0 < spec.(cellsize).2
  /\ spec.(cellsize).1 = - spec.(cellsize).2
  /\ spec.(shape).1.1 = ga_nbands grid
  /\ (0 <= spec.(shape).1.2)%Z
  /\ (0 <= spec.(shape).2)%Z
  /\ spec.(origin) = "ul"%string
  /\ spec.(value) = ga_fill_value grid
  /\ spec.(fill_value) = ga_fill_value grid
  /\ spec.(dtype) = ga_dtype grid
  /\ spec.(proj) = p.
Proof.
  unfold _warp. intros Hw.
  apply bind_Ok_inv in Hw as (tproj & _ & Hw).
  apply bind_Ok_inv in Hw as ([uly ulx] & _ & Hw). cbv beta iota in Hw.
  apply bind_Ok_inv in Hw as ([lry lrx] & _ & Hw). cbv beta iota in Hw.
  apply bind_Ok_inv in Hw as ([ury urx] & _ & Hw). cbv beta iota in Hw.
  apply bind_Ok_inv in Hw as ([lly llx] & _ & Hw). cbv beta iota in Hw.
  apply bind_Ok_inv in Hw as (tcellsize & Hcell & Hw).
  apply bind_Ok_inv in Hw as (qcols & Hqc & Hw).
  apply bind_Ok_inv in Hw as (qrows & Hqr & Hw).
  apply fdiv_Ok_inv in Hcell as [Hs Hcell].
  apply fdiv_Ok_inv in Hqc as [Hne _].
  injection Hw as <-. cbn [cellsize shape origin value fill_value dtype proj fst snd].
  split.
  { set (sdiag := sqrt (IZR (ga_nrows grid ^ 2 + ga_ncols grid ^ 2))) in *.
    set (tdiag := sqrt ((lly - ury) ^ 2 + (llx - urx) ^ 2)) in *.
    assert (0 <= sdiag) by apply sqrt_pos.
    assert (0 <= tdiag) by apply sqrt_pos.
    assert (0 <= tcellsize).
    { rewrite Hcell. apply Rmult_le_pos; [ lra | ].
      left. apply Rinv_0_lt_compat. lra. }
    lra. }
  split; [ reflexivity | ].
  split; [ reflexivity | ].
  split; [ apply count_nonneg | ].
  split; [ apply count_nonneg | ].
  repeat (split; [ reflexivity | ]). reflexivity.
Qed.

(** X4. Where the largest transformed x is at a right corner and the smallest
    at a left corner, and the largest transformed y at the upper right or
    lower right and the smallest at the upper left or lower left corner,
    the counts that [_warp] plans are those of the extent of all four
    corners. *)
Theorem warp_counts_cover_ordered_footprint
    (grid : GeoArray) (p : _Projection.arg) (tproj : _Projection.t)
    (uly ulx lry lrx ury urx lly llx : R) :
  corners_transform grid p tproj uly ulx lry lrx ury urx lly llx ->
  diagonals_nonzero grid ury urx lly llx ->
  maximum uly [ury; lly; lry] = Rmax ury lry ->
  minimum uly [ury; lly; lry] = Rmin uly lly ->
  maximum ulx [urx; llx; lrx] = Rmax urx lrx ->
  minimum ulx [urx; llx; lrx] = Rmin ulx llx ->
  exists spec : WarpSpec,
    _warp grid p = Ok spec
    /\ spec.(shape)
       = (ga_nbands grid,
          extent_count uly ury lly lry spec.(cellsize).2,
          extent_count ulx urx llx lrx spec.(cellsize).2).
Proof.
  intros Hc Hd Hymax Hymin Hxmax Hxmin.
  eexists. split; [ exact (_warp_returns grid p tproj _ _ _ _ _ _ _ _ Hc Hd) | ].
  cbn [shape cellsize snd].
  assert (Hpos : 0 < sqrt ((lly - ury) ^ 2 + (llx - urx) ^ 2)
                     / sqrt (IZR (ga_nrows grid ^ 2 + ga_ncols grid ^ 2))).
  { pose proof (sdiag_nonzero grid _ _ _ _ Hd) as Hs.
    pose proof (tdiag_nonzero grid ury urx lly llx Hd) as Ht.
    pose proof (sqrt_pos (IZR (ga_nrows grid ^ 2 + ga_ncols grid ^ 2))).
    pose proof (sqrt_pos ((lly - ury) ^ 2 + (llx - urx) ^ 2)).
    apply Rdiv_lt_0_compat; lra. }
  rewrite (counts_agree_when_ordered uly ury lly lry _ Hpos Hymax Hymin).
  rewrite (counts_agree_when_ordered ulx urx llx lrx _ Hpos Hxmax Hxmin).
  reflexivity.
Qed.

(** X5. Planning the reprojection of a grid into a reference system in
    which its corners keep their coordinates gives the grid's own shape and
    upper left corner back: for a grid of square cells of size c whose
    bounding box spans its rows and columns, the planned shape is the
    grid's shape, the origin is "ul", and the origin coordinates are the
    upper edge and the left edge of the bounding box. *)
Theorem warp_same_place_keeps_geometry
    (grid : GeoArray) (p : _Projection.arg) (tproj : _Projection.t) (c : R) :
  corners_transform grid p tproj
    (ymax (ga_bbox grid)) (xmin (ga_bbox grid))
    (ymin (ga_bbox grid)) (xmax (ga_bbox grid))
    (ymax (ga_bbox grid)) (xmax (ga_bbox grid))
    (ymin (ga_bbox grid)) (xmin (ga_bbox grid)) ->
  0 < c ->
  (0 <= ga_nrows grid)%Z -> (0 <= ga_ncols grid)%Z ->
  (ga_nrows grid <> 0 \/ ga_ncols grid <> 0)%Z ->
  xmax (ga_bbox grid) = xmin (ga_bbox grid) + IZR (ga_ncols grid) * c ->
  ymax (ga_bbox grid) = ymin (ga_bbox grid) + IZR (ga_nrows grid) * c ->
  exists spec : WarpSpec,
    _warp grid p = Ok spec
    /\ spec.(shape) = (ga_nbands grid, ga_nrows grid, ga_ncols grid)
    /\ spec.(origin) = "ul"%string
    /\ spec.(yorigin) = ymax (ga_bbox grid)
    /\ spec.(xorigin) = xmin (ga_bbox grid).
Proof.
  intros Hc Hpos Hr0 Hc0 Hcells Hx Hy.
  destruct (ga_bbox grid) as [x0 x1 y0 y1] eqn:Hb. cbn [xmin xmax ymin ymax] in *.
  assert (Hrows : 0 <= IZR (ga_nrows grid)) by (by apply IZR_le).
  assert (Hcols : 0 <= IZR (ga_ncols grid)) by (by apply IZR_le).
  assert (Hd : diagonals_nonzero grid y1 x1 y0 x0).
  { split; [ exact Hcells | ].
    destruct Hcells as [Hn | Hn]; [ left | right ]; intros E;
      apply Hn, eq_IZR; nra. }
  eexists. split; [ exact (_warp_returns grid p tproj _ _ _ _ _ _ _ _ Hc Hd) | ].
  cbn [shape origin yorigin xorigin].
  pose proof (sdiag_nonzero grid _ _ _ _ Hd) as Hs.
  set (sdiag := sqrt (IZR (ga_nrows grid ^ 2 + ga_ncols grid ^ 2))) in *.
  assert (Ht : sqrt ((y0 - y1) ^ 2 + (x0 - x1) ^ 2) = c * sdiag).
  { unfold sdiag. rewrite IZR_sum_squares, <- sqrt_scaled by exact Hpos.
    f_equal. rewrite Hx, Hy. ring. }
  rewrite Ht. replace (c * sdiag / sdiag) with c by (field; exact Hs).
  rewrite (Rmax_left y1 y0), (Rmin_right y1 y0) by nra.
  rewrite (Rmax_left x1 x1), (Rmin_left x0 x0) by lra.
  replace ((y1 - y0) / c) with (IZR (ga_nrows grid)) by (rewrite Hy; field; lra).
  replace ((x1 - x0) / c) with (IZR (ga_ncols grid)) by (rewrite Hx; field; lra).
  rewrite !count_IZR by assumption.
  split; [ reflexivity | ]. split; [ reflexivity | ].
  split.
  - unfold max4. assert (y0 <= y1) by nra. minmax_cases; lra.
  - unfold min4. assert (x0 <= x1) by nra. minmax_cases; lra.
Qed.

(** X6. With an OSR binding whose unusable transformations raise
    [NotImplementedError], [_warp] fails with the projection error at its
    first corner when the grid's projection or the target projection has no
    reference. *)
Theorem warp_missing_reference_error
    (grid : GeoArray) (p : _Projection.arg) (tproj : _Projection.t) :
  unusable_raises_NotImplementedError ->
  _Projection.__init__ p = Ok tproj ->
  _Projection.getReference (ga_proj grid) = None
  \/ _Projection.getReference tproj = None ->
  _warp grid p = Raise ProjectionError.
Proof.
  intros Hosr Hp Hunset. unfold _warp. rewrite Hp, bind_Ok.
  destruct (Hosr (_Projection.getReference (ga_proj grid))
                 (_Projection.getReference tproj)
                 (xmin (ga_bbox grid)) (ymax (ga_bbox grid)) Hunset) as [msg E].
  rewrite (call_NotImplementedError
             (_Transformer.__init__ (ga_proj grid) tproj)
             (ymax (ga_bbox grid)) (xmin (ga_bbox grid)) msg E).
  reflexivity.
Qed.

End planner_extras.

Section planner_witnesses.
Import gdalfuncs.
Local Open Scope R_scope.

Lemma warp_result_invariants_witness :
  exists spec : @WarpSpec identity_osr,
    @_warp identity_osr (grid_3x4 same_place) (target same_place) = Ok spec
    /\ 0 < spec.(cellsize).2
    /\ (0 <= spec.(shape).1.2)%Z
    /\ (0 <= spec.(shape).2)%Z.
Proof.
  eexists. split; [ exact warp_same_reference | ].
  destruct (@warp_result_invariants identity_osr (grid_3x4 same_place)
              (target same_place) _ warp_same_reference)
    as (Hc & _ & _ & Hr & Hn & _).
  exact (conj Hc (conj Hr Hn)).
Defined.

Lemma ordered_maximum (a b : R) : maximum a [a; b; b] = Rmax a b.
Proof. unfold maximum. cbn [fold_right]. minmax_cases; lra. Qed.

Lemma ordered_minimum (a b : R) : minimum a [a; b; b] = Rmin a b.
Proof. unfold minimum. cbn [fold_right]. minmax_cases; lra. Qed.

Lemma ordered_maximum_x (a b : R) : a <= b -> maximum a [b; a; b] = Rmax b b.
Proof. intros Hab. unfold maximum. cbn [fold_right]. minmax_cases; lra. Qed.

Lemma ordered_minimum_x (a b : R) : a <= b -> minimum a [b; a; b] = Rmin a a.
Proof. intros Hab. unfold minimum. cbn [fold_right]. minmax_cases; lra. Qed.

Lemma warp_counts_cover_witness :
  exists spec : @WarpSpec identity_osr,
    @_warp identity_osr (grid_3x4 same_place) (target same_place) = Ok spec
    /\ spec.(shape)
       = (1%Z,
          extent_count 3 3 0 0 spec.(cellsize).2,
          extent_count 0 4 0 4 spec.(cellsize).2).
Proof.
  apply (@warp_counts_cover_ordered_footprint identity_osr
           (grid_3x4 same_place) (target same_place)
           (@_Projection.mk identity_osr "target") 3 0 0 4 3 4 0 0).
  - exact same_corners.
  - exact same_diagonals.
  - apply ordered_maximum.
  - apply ordered_minimum.
  - apply ordered_maximum_x. lra.
  - apply ordered_minimum_x. lra.
Defined.

Lemma warp_same_place_witness :
  exists spec : @WarpSpec identity_osr,
    @_warp identity_osr (grid_3x4 same_place) (target same_place) = Ok spec
    /\ spec.(shape) = (1%Z, 3%Z, 4%Z)
    /\ spec.(origin) = "ul"%string
    /\ spec.(yorigin) = 3
    /\ spec.(xorigin) = 0.
Proof.
  apply (@warp_same_place_keeps_geometry identity_osr (grid_3x4 same_place)
           (target same_place) (@_Projection.mk identity_osr "target") 1).
  - exact same_corners.
  - lra.
  - simpl. lia.
  - simpl. lia.
  - left. simpl. lia.
  - simpl. lra.
  - simpl. lra.
Defined.

(** [_warp(grid, None)]: the target projection is built without a
    reference, and the plan fails. *)
Lemma warp_missing_reference_witness :
  @_warp identity_osr (grid_3x4 same_place) (@_Projection.ArgOther identity_osr)
  = Raise ProjectionError
  /\ @_warp identity_osr grid_3x4_unset (target same_place)
     = Raise ProjectionError.
Proof.
  split.
  - apply (@warp_missing_reference_error identity_osr (grid_3x4 same_place)
             (@_Projection.ArgOther identity_osr) unset_projection).
    + apply plane_osr_unusable.
    + reflexivity.
    + right. reflexivity.
  - apply (@warp_missing_reference_error identity_osr grid_3x4_unset
             (target same_place) (@_Projection.mk identity_osr "target")).
    + apply plane_osr_unusable.
    + reflexivity.
    + left. reflexivity.
Defined.

End planner_witnesses.

(* ===================================================================== *)
(** * The writers                                                         *)
(* ===================================================================== *)

Section driver_choice.
Import gdal_drivers.
Context `{Drivers}.

Lemma gdalfuncs_DRIVER_DICT_absent (fext : string) :
  gdalfuncs_rest._DRIVER_DICT !! fext = None
  <-> fext ∉ [".tif"; ".asc"; ".img"; ".png"].
Proof.
  split.
  - intros E Hin.
    repeat (apply elem_of_cons in Hin as [-> | Hin]);
      try (vm_compute in E; discriminate E).
    by apply elem_of_nil in Hin.
  - intros Hout. unfold gdalfuncs_rest._DRIVER_DICT, dict. simpl.
    rewrite !lookup_insert_ne by (intros <-; apply Hout; set_solver).
    apply lookup_empty.
Qed.

Lemma geogridbase_DRIVER_DICT_absent (fext : string) :
  geogridbase_rest._DRIVER_DICT !! fext = None
  <-> fext ∉ [".tif"; ".asc"; ".bmp"; ".img"; ".jpg"].
Proof.
  split.
  - intros E Hin.
    repeat (apply elem_of_cons in Hin as [-> | Hin]);
      try (vm_compute in E; discriminate E).
    by apply elem_of_nil in Hin.
  - intros Hout. unfold geogridbase_rest._DRIVER_DICT, dict. simpl.
    rewrite !lookup_insert_ne by (intros <-; apply Hout; set_solver).
    apply lookup_empty.
Qed.

(** X7. The driver choice of [_toFile].  The extensions outside ".tif", ".asc",
    ".img" and ".png" are exactly those refused with the "No driver found"
    [IOError].  A driver is returned exactly if the registry has the driver
    of the extension and its metadata say "YES" under DCAP_CREATE, or have
    no DCAP_CREATE and say "YES" under DCAP_CREATECOPY; a driver whose
    DCAP_CREATE is anything else is refused with [IOError] whatever its
    DCAP_CREATECOPY. *)
Theorem toFile_getDriver_outcomes (fext : string) :
  (fext ∉ [".tif"; ".asc"; ".img"; ".png"]
   <-> gdalfuncs_rest._getDriver fext
       = Raise (IOError (String.append "No driver found for filename extension '"
                           (String.append fext "'"))))
  /\ (forall driver : Driver,
        gdalfuncs_rest._getDriver fext = Ok driver
        <-> exists name : string,
              gdalfuncs_rest._DRIVER_DICT !! fext = Some name
              /\ GetDriverByName name = Some driver
              /\ (GetMetadata_Dict driver !! "DCAP_CREATE" = Some "YES"
                  \/ (GetMetadata_Dict driver !! "DCAP_CREATE" = None
                      /\ GetMetadata_Dict driver !! "DCAP_CREATECOPY"
                         = Some "YES")))
  /\ (forall (driver : Driver) (name v : string),
        gdalfuncs_rest._DRIVER_DICT !! fext = Some name ->
        GetDriverByName name = Some driver ->
        GetMetadata_Dict driver !! "DCAP_CREATE" = Some v ->
        v <> "YES" ->
        gdalfuncs_rest._getDriver fext
        = Raise (IOError "Datatype canot be written")).
Proof.
  unfold gdalfuncs_rest._getDriver.
  split; [ | split ].
  - rewrite <- gdalfuncs_DRIVER_DICT_absent. split.
    + by intros ->.
    + destruct (gdalfuncs_rest._DRIVER_DICT !! fext) as [ name | ];
        [ | reflexivity ].
      destruct (GetDriverByName name) as [ driver | ]; [ | discriminate ].
      simpl. case_bool_decide; [ discriminate | ].
      intros E. injection E as E. discriminate E.
  - intros driver. split.
    + destruct (gdalfuncs_rest._DRIVER_DICT !! fext) as [ name | ];
        [ | discriminate ].
      destruct (GetDriverByName name) as [ driver' | ] eqn:Hname;
        [ | discriminate ].
      simpl. case_bool_decide as Hcap; [ | discriminate ].
      intros E. injection E as ->. exists name.
      split; [ reflexivity | ]. split; [ exact Hname | ].
      destruct (GetMetadata_Dict driver !! "DCAP_CREATE") as [ v | ].
      * left. by injection Hcap as <-.
      * right. by split.
    + intros (name & -> & -> & Hcap). simpl.
      destruct Hcap as [-> | [-> ->]]; by rewrite bool_decide_eq_true_2.
  - intros driver name v -> -> -> Hv. simpl.
    rewrite bool_decide_eq_false_2; [ reflexivity | ].
    intros E. injection E as <-. by apply Hv.
Qed.

(** X16. The driver choice of [_GridWriter].  The extensions outside ".tif",
    ".asc", ".bmp", ".img" and ".jpg" are exactly those refused with the
    "No driver found" [IOError].  A driver is returned exactly if the
    registry has the driver of the extension and its metadata say "YES"
    under DCAP_CREATE, or have no DCAP_CREATE and say "YES" under
    DCAP_CREATECOPY; a driver whose DCAP_CREATE is anything else is refused
    with [IOError] whatever its DCAP_CREATECOPY. *)
Theorem GridWriter_getDriver_outcomes (fext : string) :
  (fext ∉ [".tif"; ".asc"; ".bmp"; ".img"; ".jpg"]
   <-> geogridbase_rest._getDriver fext
       = Raise (IOError (String.append "No driver found for filenmae extension '"
                           (String.append fext "'"))))
  /\ (forall driver : Driver,
        geogridbase_rest._getDriver fext = Ok driver
        <-> exists name : string,
              geogridbase_rest._DRIVER_DICT !! fext = Some name
              /\ GetDriverByName name = Some driver
              /\ (GetMetadata_Dict driver !! "DCAP_CREATE" = Some "YES"
                  \/ (GetMetadata_Dict driver !! "DCAP_CREATE" = None
                      /\ GetMetadata_Dict driver !! "DCAP_CREATECOPY"
                         = Some "YES")))
  /\ (forall (driver : Driver) (name v : string),
        geogridbase_rest._DRIVER_DICT !! fext = Some name ->
        GetDriverByName name = Some driver ->
        GetMetadata_Dict driver !! "DCAP_CREATE" = Some v ->
        v <> "YES" ->
        geogridbase_rest._getDriver fext
        = Raise (IOError "Datatype canot be written")).
Proof.
  unfold geogridbase_rest._getDriver.
  split; [ | split ].
  - rewrite <- geogridbase_DRIVER_DICT_absent. split.
    + by intros ->.
    + destruct (geogridbase_rest._DRIVER_DICT !! fext) as [ name | ];
        [ | reflexivity ].
      destruct (GetDriverByName name) as [ driver | ]; [ | discriminate ].
      simpl. case_bool_decide; [ discriminate | ].
      intros E. injection E as E. discriminate E.
  - intros driver. split.
    + destruct (geogridbase_rest._DRIVER_DICT !! fext) as [ name | ];
        [ | discriminate ].
      destruct (GetDriverByName name) as [ driver' | ] eqn:Hname;
        [ | discriminate ].
      simpl. case_bool_decide as Hcap; [ | discriminate ].
      intros E. injection E as ->. exists name.
      split; [ reflexivity | ]. split; [ exact Hname | ].
      destruct (GetMetadata_Dict driver !! "DCAP_CREATE") as [ v | ].
      * left. by injection Hcap as <-.
      * right. by split.
    + intros (name & -> & -> & Hcap). simpl.
      destruct Hcap as [-> | [-> ->]]; by rewrite bool_decide_eq_true_2.
  - intros driver name v -> -> -> Hv. simpl.
    rewrite bool_decide_eq_false_2; [ reflexivity | ].
    intros E. injection E as <-. by apply Hv.
Qed.

End driver_choice.

Lemma toFile_getDriver_witness :
  @gdalfuncs_rest._getDriver two_drivers ".png" = Ok "PNG"
  /\ @gdalfuncs_rest._getDriver two_drivers ".jpg"
     = Raise (IOError "No driver found for filename extension '.jpg'").
Proof.
  split.
  - apply (proj1 (proj2 (@toFile_getDriver_outcomes two_drivers ".png"))).
    exists "PNG". split; [ reflexivity | ]. split; [ reflexivity | ].
    right. split; reflexivity.
  - apply (proj1 (@toFile_getDriver_outcomes two_drivers ".jpg")).
    set_solver.
Defined.

Lemma GridWriter_getDriver_witness :
  @geogridbase_rest._getDriver two_drivers ".tif" = Ok "GTiff"
  /\ @geogridbase_rest._getDriver two_drivers ".png"
     = Raise (IOError "No driver found for filenmae extension '.png'").
Proof.
  split.
  - apply (proj1 (proj2 (@GridWriter_getDriver_outcomes two_drivers ".tif"))).
    exists "GTiff". split; [ reflexivity | ]. split; [ reflexivity | ].
    left. reflexivity.
  - apply (proj1 (@GridWriter_getDriver_outcomes two_drivers ".png")).
    set_solver.
Defined.

Section projection_text.
Import np geogridbase geogridbase_rest.
Context `{GDAL}.

Lemma _proj4String_params_text (items : list (string * string)) :
  _proj4String items
  = gdalfuncs._Projection.params_text
      (map (fun pp => (AStr pp.1, AStr pp.2)) items).
Proof.
  unfold _proj4String, gdalfuncs._Projection.params_text.
  rewrite map_map. reflexivity.
Qed.

Lemma _proj4Params_tokens (fobj : Dataset) :
  _proj4Params fobj
  = (let proj := gdalfuncs._Projection.tokens
                   (wkt_to_proj4 (GetProjection fobj)) in
     dict (zip (evens proj) (odds proj))).
Proof. reflexivity. Qed.

Lemma _proj4Params_clean (fobj : Dataset) (k v : string) :
  _proj4Params fobj !! k = Some v ->
  clean_token k = true /\ clean_token v = true.
Proof.
  rewrite _proj4Params_tokens. cbv zeta. intros Hl.
  apply dict_lookup_elem in Hl. split.
  - apply elem_of_zip_l in Hl.
    apply (proj1 (elem_of_evens_odds _)) in Hl.
    by apply tokens_clean with (wkt_to_proj4 (GetProjection fobj)).
  - apply elem_of_zip_r in Hl.
    apply (proj2 (elem_of_evens_odds _)) in Hl.
    by apply tokens_clean with (wkt_to_proj4 (GetProjection fobj)).
Qed.

(** X17. The parameters read from a file survive the writer's Proj4 text: when
    the text that [_proj4String] makes of them, in whatever order the
    dictionary yields its items, is the Proj4 text of another file, reading
    that file gives the same parameters. *)
Theorem proj4_params_survive_rewriting
    (fobj fobj' : Dataset) (items : list (string * string)) :
  items ≡ₚ map_to_list (_proj4Params fobj) ->
  wkt_to_proj4 (GetProjection fobj') = _proj4String items ->
  _proj4Params fobj' = _proj4Params fobj.
Proof.
  intros Hperm Htext.
  assert (Hin : forall k v, (k, v) ∈ items <-> _proj4Params fobj !! k = Some v).
  { intros k v. rewrite Hperm. apply elem_of_map_to_list. }
  assert (Hnd : NoDup items.*1).
  { rewrite Hperm. apply NoDup_fst_map_to_list. }
  assert (Hclean : Forall clean_pair
                     (map (fun pp => (AStr pp.1, AStr pp.2)) items)).
  { apply Forall_forall. intros pp Hpp.
    apply list_elem_of_fmap in Hpp as ([k v] & -> & Hkv).
    apply Hin, _proj4Params_clean in Hkv. exact Hkv. }
  rewrite (_proj4Params_tokens fobj'). cbv zeta.
  rewrite Htext, _proj4String_params_text.
  rewrite tokens_params_text by exact Hclean.
  rewrite evens_interleaved, odds_interleaved, zip_map_map, map_map.
  apply map_eq. intros k. apply option_eq. intros v.
  rewrite <- Hin.
  assert (Hid : map (fun x : string * string =>
                       (str (AStr x.1, AStr x.2).1, str (AStr x.1, AStr x.2).2))
                    items = items).
  { rewrite <- (map_id items) at 2. apply map_ext. by intros [a b]. }
  rewrite Hid. by apply dict_lookup.
Qed.

End projection_text.

Lemma proj4_params_survive_witness :
  @geogridbase._proj4Params _ (utm_gdal np.MatchRequired)
    (utm_file_rewritten np.MatchRequired)
  = @geogridbase._proj4Params _ (utm_gdal np.MatchRequired)
      (utm_file np.MatchRequired)
  /\ @geogridbase._proj4Params _ (utm_gdal np.MatchRequired)
       (utm_file np.MatchRequired)
     = dict [ ("proj", "utm"); ("zone", "32") ].
Proof.
  split; [ | vm_compute; reflexivity ].
  apply (@proj4_params_survive_rewriting _ (utm_gdal np.MatchRequired)
           (utm_file np.MatchRequired) (utm_file_rewritten np.MatchRequired)
           (map_to_list (@geogridbase._proj4Params _ (utm_gdal np.MatchRequired)
                           (utm_file np.MatchRequired))));
    reflexivity.
Defined.

Section memory_dataset.
Import np geogridbase geogridbase_rest.
Context `{Scalars}.

Lemma __getitem___again (self g : _GeoGridBase) (view : ndarray num) :
  __getitem__ self = Ok (g, view) ->
  __getitem__ g = Ok (g, view) /\ g = with_data self (_data g).
Proof.
  intros E. destruct (_data self) as [ a | ] eqn:Hd.
  - destruct (__getitem___loaded self a Hd) as (view' & E' & _).
    rewrite E' in E. injection E as <- <-.
    split; [ exact E' | ]. destruct self; simpl in *. by rewrite Hd.
  - rewrite (__getitem___unloaded self Hd) in E.
    set (loaded := with_data self _) in E.
    assert (Hl : _data loaded
                 = Some (astype (np_cast (_dtype self)) (_readData self)))
      by reflexivity.
    destruct (__getitem___loaded loaded _ Hl) as (view' & E' & _).
    rewrite E' in E. injection E as <- <-.
    split; [ exact E' | reflexivity ].
Qed.

Lemma write_bands_loaded
    (n : nat) (g : _GeoGridBase) (view : ndarray num) (nodata : R) :
  __getitem__ g = Ok (g, view) ->
  py_float (_nodata_value g) = Ok nodata ->
  write_bands n g = Ok (g, repeat (nodata, view) n).
Proof.
  intros Hv Hn. induction n as [ | n IH ]; [ reflexivity | ].
  cbn [write_bands]. unfold _getNodataValue.
  rewrite Hn, bind_Ok, Hv, bind_Ok. cbv beta iota.
  rewrite IH, bind_Ok. reflexivity.
Qed.

Lemma write_bands_S_inv
    (n : nat) (self g : _GeoGridBase) (written : list (R * ndarray num)) :
  write_bands (S n) self = Ok (g, written) ->
  exists (view : ndarray num) (nodata : R),
    __getitem__ self = Ok (g, view)
    /\ py_float (_nodata_value self) = Ok nodata
    /\ written = repeat (nodata, view) (S n).
Proof.
  cbn [write_bands]. unfold _getNodataValue. intros E.
  apply bind_Ok_inv in E as (nodata & Hn & E).
  apply bind_Ok_inv in E as ([g1 view] & Hv & E). cbv beta iota in E.
  destruct (__getitem___again self g1 view Hv) as [Hagain Hg1].
  assert (Hn1 : py_float (_nodata_value g1) = Ok nodata).
  { rewrite Hg1. exact Hn. }
  rewrite (write_bands_loaded n g1 view nodata Hagain Hn1), bind_Ok in E.
  injection E as <- <-. by exists view, nodata.
Qed.

(** X18. Writing a grid to a MEM dataset changes nothing of the grid but that
    its data is loaded, as by [self[:]].  Every band is handed the same
    array, the whole view that [self[:]] returns, and the nodata value of
    the grid as a float; what [Create] is handed is the grid's column, row
    and band count and the name of its numeric kind.  A grid with a band
    count below 1 hands over no band and stays as it is. *)
Theorem writeGdalMemory_hands_whole_view
    (self g : _GeoGridBase) (out : MemoryDataset) :
  _writeGdalMemory self = Ok (g, out) ->
  Create out = (ncols self, nrows self, nbands self, __name__ (_dtype self))
  /\ length (bands out) = Z.to_nat (nbands self)
  /\ ((0 < nbands self)%Z ->
      exists (view : ndarray num) (nodata : R),
        __getitem__ self = Ok (g, view)
        /\ py_float (_nodata_value self) = Ok nodata
        /\ bands out = repeat (nodata, view) (Z.to_nat (nbands self)))
  /\ ((nbands self <= 0)%Z -> g = self /\ bands out = []).
Proof.
  unfold _writeGdalMemory. intros E.
  apply bind_Ok_inv in E as ([g1 written] & Hw & E). cbv beta iota in E.
  injection E as <- <-. cbn [Create bands].
  split; [ reflexivity | ].
  destruct (Z.to_nat (nbands self)) as [ | n ] eqn:Hn.
  - cbn [write_bands] in Hw. injection Hw as <- <-.
    split; [ reflexivity | ]. split; [ lia | ]. by intros _.
  - apply write_bands_S_inv in Hw as (view & nodata & Hv & Hf & ->).
    split; [ by rewrite repeat_length | ].
    split; [ intros _; by exists view, nodata | lia ].
Qed.

End memory_dataset.

Section read_and_write.
Import np geogridbase geogridbase_rest.
Context `{GDAL} `{!Scalars}.
Local Open Scope R_scope.

Lemma _GdalGrid__init___fields
    (fname : string) (proj_params : option (gmap string string))
    (dtype : option string) (g : _GeoGridBase) :
  _GdalGrid__init__ fname proj_params dtype = Ok g ->
  exists fobj : Dataset,
    gdal_Open fname = Some fobj
    /\ Rabs (gt1 (GetGeoTransform fobj)) = Rabs (gt5 (GetGeoTransform fobj))
    /\ xllcorner g = gt0 (GetGeoTransform fobj)
    /\ yllcorner g
       = _yllcorner (gt3 (GetGeoTransform fobj)) (gt5 (GetGeoTransform fobj))
           (RasterYSize fobj)
    /\ cellsize g = Rabs (gt1 (GetGeoTransform fobj))
    /\ nrows g = RasterYSize fobj
    /\ ncols g = RasterXSize fobj
    /\ nbands g = (if (RasterCount fobj =? 0)%Z then 1%Z else RasterCount fobj).
Proof.
  unfold _GdalGrid__init__, _open.
  destruct (gdal_Open fname) as [ fobj | ]; simpl; [ | discriminate ].
  unfold _cellsize.
  destruct (Req_dec_T _ _) as [ Habs | _ ]; simpl; [ | discriminate ].
  unfold __init__.
  destruct (np_dtype _) as [ t | e ]; simpl; [ | discriminate ].
  destruct (__consistentTypes _) as [ g1 | e ] eqn:E1; simpl;
    [ | discriminate ].
  intros E2.
  apply __consistentTypes_unloaded in E1 as [v1 ->]; [ | reflexivity ].
  apply __consistentTypes_unloaded in E2 as [v2 ->]; [ | reflexivity ].
  exists fobj. simpl. by repeat split.
Qed.

(** X19. A grid read from a file and written to a MEM dataset carries the
    file's sizes and a north-up geotransform: no rotation terms, the x
    origin of the file, the magnitude of the file's x cell size as x cell
    size and its negative as y cell size; the upper edge is recomputed from
    the lower edge of the grid.  So the written geotransform can be the
    file's only if the file is north up without rotation (its x cell size
    is not negative, its y cell size is the negative of it, both rotation
    terms are zero), and for such a file every term but the recomputed
    upper edge is the file's. *)
Theorem written_geotransform_is_north_up
    (fname : string) (proj_params : option (gmap string string))
    (dtype : option string) (fobj : Dataset)
    (g g' : _GeoGridBase) (out : MemoryDataset) :
  gdal_Open fname = Some fobj ->
  _GdalGrid__init__ fname proj_params dtype = Ok g ->
  _writeGdalMemory g = Ok (g', out) ->
  (Create out).1.1.1 = RasterXSize fobj
  /\ (Create out).1.1.2 = RasterYSize fobj
  /\ gt0 (SetGeoTransform out) = gt0 (GetGeoTransform fobj)
  /\ gt1 (SetGeoTransform out) = Rabs (gt1 (GetGeoTransform fobj))
  /\ gt2 (SetGeoTransform out) = 0
  /\ gt3 (SetGeoTransform out)
     = _yllcorner (gt3 (GetGeoTransform fobj)) (gt5 (GetGeoTransform fobj))
         (RasterYSize fobj)
       + IZR (RasterYSize fobj) * Rabs (gt1 (GetGeoTransform fobj))
  /\ gt4 (SetGeoTransform out) = 0
  /\ gt5 (SetGeoTransform out) = - Rabs (gt1 (GetGeoTransform fobj))
  /\ (SetGeoTransform out = GetGeoTransform fobj ->
      0 <= gt1 (GetGeoTransform fobj)
      /\ gt5 (GetGeoTransform fobj) = - gt1 (GetGeoTransform fobj)
      /\ gt2 (GetGeoTransform fobj) = 0
      /\ gt4 (GetGeoTransform fobj) = 0)
  /\ (0 <= gt1 (GetGeoTransform fobj) ->
      gt5 (GetGeoTransform fobj) = - gt1 (GetGeoTransform fobj) ->
      gt2 (GetGeoTransform fobj) = 0 ->
      gt4 (GetGeoTransform fobj) = 0 ->
      gt0 (SetGeoTransform out) = gt0 (GetGeoTransform fobj)
      /\ gt1 (SetGeoTransform out) = gt1 (GetGeoTransform fobj)
      /\ gt2 (SetGeoTransform out) = gt2 (GetGeoTransform fobj)
      /\ gt4 (SetGeoTransform out) = gt4 (GetGeoTransform fobj)
      /\ gt5 (SetGeoTransform out) = gt5 (GetGeoTransform fobj)).
Proof.
  intros Hopen Hinit Hwrite.
  apply _GdalGrid__init___fields in Hinit
    as (fobj' & Hopen' & Habs & Hx & Hy & Hc & Hrows & Hcols & _).
  rewrite Hopen in Hopen'. injection Hopen' as <-.
  unfold _writeGdalMemory in Hwrite.
  apply bind_Ok_inv in Hwrite as ([g1 written] & _ & Hwrite).
  cbv beta iota in Hwrite. injection Hwrite as _ <-.
  cbn [SetGeoTransform Create fst snd gt0 gt1 gt2 gt3 gt4 gt5].
  rewrite Hx, Hy, Hc, Hrows, Hcols.
  split; [ reflexivity | ]. split; [ reflexivity | ].
  split; [ reflexivity | ]. split; [ reflexivity | ].
  split; [ reflexivity | ]. split; [ reflexivity | ].
  split; [ reflexivity | ]. split; [ lra | ].
  destruct (GetGeoTransform fobj) as [a b c d e f].
  cbn [gt0 gt1 gt2 gt3 gt4 gt5] in *.
  split.
  - intros E. injection E as Eb Ec Ed Ee Ef.
    pose proof (Rabs_pos b). repeat split; lra.
  - intros Hb -> -> ->. rewrite (Rabs_right b) by lra.
    repeat split; lra.
Qed.

End read_and_write.

Lemma writeGdalMemory_witness :
  exists (view : np.ndarray Z) (nodata : R),
    geogridbase.__getitem__ (one_row_unloaded np.MatchRequired)
    = Ok (one_row_loaded np.MatchRequired, view)
    /\ @geogridbase_rest.py_float _ (z_scalars np.MatchRequired) 7%Z = Ok nodata
    /\ view = np.mk [3]%nat [7; 1; 2]%Z
    /\ nodata = 7%R.
Proof.
  destruct (@writeGdalMemory_hands_whole_view _ (z_scalars np.MatchRequired)
              (one_row_unloaded np.MatchRequired)
              (one_row_loaded np.MatchRequired) _ eq_refl)
    as (_ & _ & Hbands & _).
  destruct (Hbands ltac:(simpl; lia)) as (view & nodata & Hv & Hn & _).
  exists view, nodata. split; [ exact Hv | ]. split; [ exact Hn | ].
  split; [ by injection Hv | by injection Hn ].
Defined.

Lemma written_geotransform_witness :
  exists out : @geogridbase_rest.MemoryDataset (z_numpy np.MatchRequired),
    @geogridbase_rest._writeGdalMemory _ (z_scalars np.MatchRequired)
      (one_row_unloaded np.MatchRequired)
    = Ok (one_row_loaded np.MatchRequired, out)
    /\ geogridbase.gt1 (geogridbase_rest.SetGeoTransform out) = 10%R
    /\ geogridbase.gt5 (geogridbase_rest.SetGeoTransform out) = (-10)%R
    /\ geogridbase.gt2 (geogridbase_rest.SetGeoTransform out) = 0%R.
Proof.
  eexists. split; [ reflexivity | ].
  destruct (@written_geotransform_is_north_up _
              (one_row_gdal np.MatchRequired) (z_scalars np.MatchRequired)
              "row.tif" None None (one_row_file np.MatchRequired)
              (one_row_unloaded np.MatchRequired)
              (one_row_loaded np.MatchRequired) _
              eq_refl (one_row_is_read np.MatchRequired) eq_refl)
    as (_ & _ & _ & _ & _ & _ & _ & _ & _ & Hnorth).
  destruct Hnorth as (_ & H1 & H2 & _ & H5); simpl; try lra.
  split; [ exact H1 | ]. split; [ exact H5 | exact H2 ].
Defined.

Section nodata_setter.
Import np geogridbase geogridbase_rest.
Context `{Numpy}.

Lemma squeeze0_refuses {A : Type} (a : ndarray A) :
  (forall dims : list nat, shape a <> 1%nat :: dims) ->
  squeeze0 a
  = Raise (ValueError
             "cannot select an axis to squeeze out which has size not equal to one").
Proof.
  intros Hs. unfold squeeze0.
  destruct (shape a) as [ | [ | [ | n ] ] dims ]; try reflexivity.
  by destruct (Hs dims).
Qed.

(** X15. On loaded data whose leading axis is not of length one, the nodata
    setter does what its docstring says: it returns, the cells equal to the
    old nodata value hold the converted new value, every other cell is as
    before, the shape is kept, the converted value is the stored nodata
    value, and nothing else of the grid changes. *)
Theorem setNodataValue_rewrites_without_unit_axis
    (self : _GeoGridBase) (a : ndarray num) (value new : num) :
  _data self = Some a ->
  (forall dims : list nat, shape a <> 1%nat :: dims) ->
  np_scalar (_dtype self) value = Ok new ->
  exists after : _GeoGridBase,
    _setNodataValue self value = Ok after
    /\ nodata_rewritten self after new
    /\ after = with_nodata_value (with_data self (_data after)) new.
Proof.
  intros Hdata Hshape Hconv.
  pose proof (_setNodataValue_unsqueezed self a value new _ Hdata
                (squeeze0_refuses a Hshape) Hconv) as E.
  eexists. split; [ exact E | ]. split; [ | reflexivity ].
  exists a. eexists. split; [ exact Hdata | ].
  split; [ reflexivity | ]. simpl.
  split; [ reflexivity | ].
  split; [ by rewrite length_map | ].
  split; [ | reflexivity ].
  intros i c Hi. by rewrite list_lookup_fmap, Hi.
Qed.

End nodata_setter.

Lemma setNodataValue_rewrites_witness :
  exists after : @geogridbase._GeoGridBase (z_numpy np.MatchRequired),
    geogridbase._setNodataValue (two_rows_loaded np.MatchRequired) 9%Z = Ok after
    /\ nodata_rewritten (two_rows_loaded np.MatchRequired) after 9%Z
    /\ geogridbase._data after = Some (np.mk [2; 2]%nat [9; 1; 2; 9]%Z).
Proof.
  destruct (@setNodataValue_rewrites_without_unit_axis
              (z_numpy np.MatchRequired) (two_rows_loaded np.MatchRequired)
              (np.mk [2; 2]%nat [7; 1; 2; 7]%Z) 9%Z 9%Z eq_refl
              ltac:(discriminate) eq_refl) as (after & E & Hrw & Hafter).
  exists after. split; [ exact E | ]. split; [ exact Hrw | ].
  injection E as <-. reflexivity.
Defined.

Section construction.
Import np geogridbase geogridbase_rest.
Context `{Numpy}.



End construction.

